(** * Clan-battle engine of yobot: a shallow embedding and its properties

    The source is [src/client/ybplugins/clan_battle/battle.py], class
    [ClanBattle].  The methods of the class are embedded as functions in a
    state-and-exception monad over a [Store] that holds what the methods
    read and write: the in-memory dictionary [_group_data] and the tables
    [Clan_challenge], [Clan_subscribe] and [User].

    Modelling decisions.
    - Python integers are unbounded: [Z].
    - A raised exception keeps the writes made before it, so a computation
      returns its outcome together with the store it leaves behind.
    - [Clan_challenge] is kept as the list of its rows in increasing [cid]
      order.  [cid] is the auto-incremented primary key, a new row gets the
      largest one, so [create] appends, [order_by(cid)] is the list order and
      the row of [MAX(cid)] is the last matching row.  The key itself is the
      rank of the row and is not stored.
    - [pcr_datetime] and [time.time] read the clock; their results are
      arguments ([d], [t], [now]) of the operations that call them.
    - Nicknames, the JSON text of comments, logging and the futures of
      [_boss_status] only feed message texts and long-poll waiters; they are
      left out.  A record keeps in [comment] on whose report it was made. *)

From stdpp Require Import gmap strings list fin_maps.
From Stdlib Require Import ZArith Lia.

Local Open Scope Z_scope.

Abbreviation Groupid := Z (only parsing).
Abbreviation QQid := Z (only parsing).
Abbreviation Pcr_date := Z (only parsing).

(** ** Exceptions *)

Inductive group_msg :=
| NotInitialized                         (* 本群未初始化 *)
| GroupExists                            (* 群已经存在 *)
| NoChallengeRecord                      (* 本群无出刀记录 *)
| BeingChallenged (holder : QQid)        (* 申请失败，..正在挑战boss *)
| NobodyChallenging                      (* 没有人正在挑战boss *)
| ChallengeStarted (holder : QQid) (challenge_duration : Z).
                                         (* 失败，..在..秒前开始挑战boss *)

Inductive input_msg :=
| NegativeDamage                         (* 伤害不可以是负数 *)
| DamageExceedsHealth                    (* 伤害超出剩余血量，如击败请使用尾刀 *)
| DailyQuotaReached                      (* 今日上报次数已达到3次 *)
| BadCycle                               (* 周目数不能为负 *)
| BadBossNum                             (* boss编号必须在1~5间 *)
| BadBossHealth.                         (* boss生命值不能为负 *)

Inductive user_msg :=
| NoUndoPermission                       (* 无权撤销 *)
| AlreadyOnTree                          (* 您已经在树上了 *)
| AlreadySubscribed.                     (* 您已经预约过了 *)

(** [KeyError] and [IndexError] are what Python raises when [bossinfo] has no
    entry for a server, a tier or a boss. *)
Inductive exn :=
| GroupError (m : group_msg)
| InputError (m : input_msg)
| UserError (m : user_msg)
| KeyError
| IndexError.

(** ** Rows *)

Module Clan_group.
Record t := mk {
  group_id : Groupid;
  game_server : string;
  boss_cycle : Z;
  boss_num : Z;
  boss_health : Z;
  level_4 : bool;
  challenging_member_qq_id : option QQid;
  challenging_start_time : Z
}.

Definition set_boss_cycle (v : Z) (g : t) : t :=
  mk (group_id g) (game_server g) v (boss_num g) (boss_health g)
     (level_4 g) (challenging_member_qq_id g) (challenging_start_time g).
Definition set_boss_num (v : Z) (g : t) : t :=
  mk (group_id g) (game_server g) (boss_cycle g) v (boss_health g)
     (level_4 g) (challenging_member_qq_id g) (challenging_start_time g).
Definition set_boss_health (v : Z) (g : t) : t :=
  mk (group_id g) (game_server g) (boss_cycle g) (boss_num g) v
     (level_4 g) (challenging_member_qq_id g) (challenging_start_time g).
Definition set_challenging_member_qq_id (v : option QQid) (g : t) : t :=
  mk (group_id g) (game_server g) (boss_cycle g) (boss_num g) (boss_health g)
     (level_4 g) v (challenging_start_time g).
Definition set_challenging_start_time (v : Z) (g : t) : t :=
  mk (group_id g) (game_server g) (boss_cycle g) (boss_num g) (boss_health g)
     (level_4 g) (challenging_member_qq_id g) v.
End Clan_group.

Module Clan_challenge.
Record t := mk {
  gid : Groupid;
  qqid : QQid;
  challenge_pcrdate : Pcr_date;
  challenge_pcrtime : Z;
  boss_cycle : Z;
  boss_num : Z;
  boss_health_ramain : Z;
  challenge_damage : Z;
  is_continue : bool;
  comment : option QQid
}.
End Clan_challenge.

Module Clan_subscribe.
Record t := mk {
  gid : Groupid;
  qqid : QQid;
  subscribe_item : Z
}.
End Clan_subscribe.

(** A row of [User] is looked up by its key [qqid], which is the key of the
    map [users] below. *)
Module User.
Record t := mk {
  authority_group : Z;
  clan_group_id : option Groupid
}.
End User.

Record BossStatus := mkBossStatus {
  cycle : Z;
  num : Z;
  health : Z;
  challenger : QQid
}.

(** ** The engine object and the store *)

(** [bossinfo] is [glo_setting['boss']]: per server, per difficulty tier, the
    full health of the five bosses.  [new_user_authority] is the default of
    the column [User.authority_group]; the table is declared in [ybdata],
    a module that is not embedded here, so the default is a field of the
    engine's configuration. *)
Record ClanBattle := mkClanBattle {
  bossinfo : gmap string (list (list Z));
  new_user_authority : Z
}.

Record Store := mkStore {
  _group_data : gmap Z Clan_group.t;
  challenges : list Clan_challenge.t;
  subscribes : list Clan_subscribe.t;
  users : gmap Z User.t
}.

Definition with_group_data (f : gmap Z Clan_group.t -> gmap Z Clan_group.t)
    (s : Store) : Store :=
  mkStore (f (_group_data s)) (challenges s) (subscribes s) (users s).
Definition with_challenges
    (f : list Clan_challenge.t -> list Clan_challenge.t) (s : Store) : Store :=
  mkStore (_group_data s) (f (challenges s)) (subscribes s) (users s).
Definition with_subscribes
    (f : list Clan_subscribe.t -> list Clan_subscribe.t) (s : Store) : Store :=
  mkStore (_group_data s) (challenges s) (f (subscribes s)) (users s).
Definition with_users (f : gmap Z User.t -> gmap Z User.t) (s : Store) : Store :=
  mkStore (_group_data s) (challenges s) (subscribes s) (f (users s)).

(** ** The monad: state, and exceptions that keep the state *)

Definition M (A : Type) : Type := Store -> (exn + A) * Store.

Definition ret {A} (a : A) : M A := fun s => (inr a, s).
Definition raise {A} (e : exn) : M A := fun s => (inl e, s).
Definition bind {A B} (m : M A) (k : A -> M B) : M B :=
  fun s => match m s with
           | (inl e, s') => (inl e, s')
           | (inr a, s') => k a s'
           end.
Definition gets {A} (f : Store -> A) : M A := fun s => (inr (f s), s).
Definition update (f : Store -> Store) : M unit := fun s => (inr tt, f s).
Definition lift {A} (r : exn + A) : M A := fun s => (r, s).

Notation "x <- c ;; k" := (bind c (fun x => k))
  (at level 100, c at next level, right associativity).
Notation "c ;;; k" := (bind c (fun _ => k))
  (at level 100, right associativity).

(** [if cond: raise e] *)
Definition raise_if (cond : bool) (e : exn) : M unit :=
  if cond then raise e else ret tt.

(** ** Python values *)

(** Truth value of an optional integer argument: [None] and [0] are false. *)
Definition truthy (x : option Z) : bool :=
  match x with
  | Some v => negb (v =? 0)
  | None => false
  end.

(** [l[i]] on a list: a negative index counts from the end, anything out of
    range raises [IndexError]. *)
Definition py_index {A} (l : list A) (i : Z) : exn + A :=
  let n := Z.of_nat (length l) in
  let j := if i <? 0 then n + i else i in
  if (0 <=? j) && (j <? n) then
    match l !! Z.to_nat j with
    | Some x => inr x
    | None => inl IndexError
    end
  else inl IndexError.

(** [d[k]] on a dictionary. *)
Definition py_getitem {A} (d : gmap string A) (k : string) : exn + A :=
  match d !! k with
  | Some v => inr v
  | None => inl KeyError
  end.

Definition and_then {A B} (r : exn + A) (k : A -> exn + B) : exn + B :=
  match r with
  | inl e => inl e
  | inr a => k a
  end.

(** ** Stage table *)

Definition _level_by_cycle (cycle : Z) (level_4 : bool) : Z :=
  if cycle <=? 3 then 0
  else if cycle <=? 10 then 1
  else if level_4 && (cycle >=? 35) then 3
  else 2.

(** [self.bossinfo[game_server][level][index]] *)
Definition bossinfo_at (self : ClanBattle) (game_server : string)
    (level index : Z) : exn + Z :=
  and_then (py_getitem (bossinfo self) game_server) (fun table =>
  and_then (py_index table level) (fun row =>
  py_index row index)).

(** The expression used by [defeat] and [modify]:
    [self.bossinfo[group.game_server]
       [self._level_by_cycle(group.boss_cycle, group.level_4)]
       [group.boss_num-1]] *)
Definition full_health (self : ClanBattle) (group : Clan_group.t) : exn + Z :=
  bossinfo_at self (Clan_group.game_server group)
    (_level_by_cycle (Clan_group.boss_cycle group) (Clan_group.level_4 group))
    (Clan_group.boss_num group - 1).

(** ** Access to the store *)

(** [group = self._group_data.get(group_id)]
    [if group is None: raise GroupError('本群未初始化')] *)
Definition get_group (group_id : Groupid) : M Clan_group.t :=
  fun s => match _group_data s !! group_id with
           | Some g => (inr g, s)
           | None => (inl (GroupError NotInitialized), s)
           end.

(** The group object is shared and mutated in place: every assignment to one
    of its attributes is visible in [_group_data] at once. *)
Definition set_group (group_id : Groupid) (g : Clan_group.t) : M unit :=
  update (with_group_data (fun m => <[group_id := g]> m)).

(** [User.get_or_create(qqid=qqid, defaults={'clan_group_id': group_id})[0]] *)
Definition User_get_or_create (self : ClanBattle) (qqid : QQid)
    (clan_group_id : option Groupid) : M User.t :=
  fun s => match users s !! qqid with
           | Some u => (inr u, s)
           | None =>
               let u := User.mk (new_user_authority self) clan_group_id in
               (inr u, with_users (fun m => <[qqid := u]> m) s)
           end.

(** [Clan_challenge.select().where(gid == group_id, qqid == qqid,
       challenge_pcrdate == d).order_by(Clan_challenge.cid)] *)
Definition challenges_of_day (group_id : Groupid) (qqid : QQid) (d : Pcr_date)
    (table : list Clan_challenge.t) : list Clan_challenge.t :=
  List.filter (fun c => (Clan_challenge.gid c =? group_id)
                        && (Clan_challenge.qqid c =? qqid)
                        && (Clan_challenge.challenge_pcrdate c =? d)) table.

(** [sum((not c.is_continue) for c in challenges)] *)
Definition finished_count (challenges : list Clan_challenge.t) : Z :=
  Z.of_nat (length (List.filter (fun c => negb (Clan_challenge.is_continue c))
                                challenges)).

(** [challenges and challenges[-1].boss_health_ramain == 0
       and not challenges[-1].is_continue] *)
Definition continues (challenges : list Clan_challenge.t) : bool :=
  match last challenges with
  | None => false
  | Some c => (Clan_challenge.boss_health_ramain c =? 0)
              && negb (Clan_challenge.is_continue c)
  end.

Definition Clan_challenge_create (c : Clan_challenge.t) : M unit :=
  update (with_challenges (fun table => table ++ [c])).

(** [qqid = behalfed] when [behalfed is not None] *)
Definition acting (qqid : QQid) (behalfed : option QQid) : QQid :=
  match behalfed with
  | Some b => b
  | None => qqid
  end.

Definition behalf_comment (qqid : QQid) (behalfed : option QQid) : option QQid :=
  match behalfed with
  | Some _ => Some qqid
  | None => None
  end.

(** ** Challenge accounting *)

Definition damage (self : ClanBattle) (group_id : Groupid) (qqid : QQid)
    (damage : Z) (behalfed : option QQid) (d : Pcr_date) (t : Z)
    : M BossStatus :=
  raise_if (damage <? 0) (InputError NegativeDamage) ;;;
  group <- get_group group_id ;;
  raise_if (damage >=? Clan_group.boss_health group)
           (InputError DamageExceedsHealth) ;;;
  let comment := behalf_comment qqid behalfed in
  let qqid := acting qqid behalfed in
  user <- User_get_or_create self qqid (Some group_id) ;;
  table <- gets challenges ;;
  let challenges := challenges_of_day group_id qqid d table in
  raise_if (finished_count challenges >=? 3) (InputError DailyQuotaReached) ;;;
  let is_continue := continues challenges in
  Clan_challenge_create
    (Clan_challenge.mk group_id qqid d t
       (Clan_group.boss_cycle group) (Clan_group.boss_num group)
       (Clan_group.boss_health group - damage) damage is_continue comment) ;;;
  let group := Clan_group.set_boss_health
                 (Clan_group.boss_health group - damage) group in
  let group := Clan_group.set_challenging_member_qq_id None group in
  set_group group_id group ;;;
  ret (mkBossStatus (Clan_group.boss_cycle group) (Clan_group.boss_num group)
                    (Clan_group.boss_health group) 0).

(** [Clan_subscribe.select().where(gid == group_id,
       (subscribe_item == boss_num) | (subscribe_item == 0))] *)
Definition to_notify (group_id : Groupid) (boss_num : Z)
    (s : Clan_subscribe.t) : bool :=
  (Clan_subscribe.gid s =? group_id)
  && ((Clan_subscribe.subscribe_item s =? boss_num)
      || (Clan_subscribe.subscribe_item s =? 0)).

(** Returns whom the message mentions; every selected row is deleted. *)
Definition notify_subscribe (group_id : Groupid) (boss_num : option Z)
    : M (list QQid) :=
  group <- get_group group_id ;;
  let boss_num := match boss_num with
                  | Some n => n
                  | None => Clan_group.boss_num group
                  end in
  table <- gets subscribes ;;
  let notice := List.map Clan_subscribe.qqid
                  (List.filter (to_notify group_id boss_num) table) in
  update (with_subscribes
            (List.filter (fun s => negb (to_notify group_id boss_num s)))) ;;;
  ret notice.

Definition defeat (self : ClanBattle) (group_id : Groupid) (qqid : QQid)
    (behalfed : option QQid) (d : Pcr_date) (t : Z) : M BossStatus :=
  group <- get_group group_id ;;
  let comment := behalf_comment qqid behalfed in
  let qqid := acting qqid behalfed in
  user <- User_get_or_create self qqid (Some group_id) ;;
  table <- gets challenges ;;
  let challenges := challenges_of_day group_id qqid d table in
  raise_if (finished_count challenges >=? 3) (InputError DailyQuotaReached) ;;;
  let is_continue := continues challenges in
  Clan_challenge_create
    (Clan_challenge.mk group_id qqid d t
       (Clan_group.boss_cycle group) (Clan_group.boss_num group)
       0 (Clan_group.boss_health group) is_continue comment) ;;;
  let group :=
    if Clan_group.boss_num group =? 5 then
      Clan_group.set_boss_cycle (Clan_group.boss_cycle group + 1)
        (Clan_group.set_boss_num 1 group)
    else
      Clan_group.set_boss_num (Clan_group.boss_num group + 1) group in
  set_group group_id group ;;;
  boss_health <- lift (full_health self group) ;;
  let group := Clan_group.set_boss_health boss_health group in
  let group := Clan_group.set_challenging_member_qq_id None group in
  set_group group_id group ;;;
  let status :=
    mkBossStatus (Clan_group.boss_cycle group) (Clan_group.boss_num group)
                 (Clan_group.boss_health group) 0 in
  notify_subscribe group_id (Some (Clan_group.boss_num group)) ;;;
  ret status.

(** [_get_previous_challenge(group_id=group_id)], the one way [undo] calls
    it: the row of the largest [cid] among the rows of the group, [None]
    when there is none. *)
Definition _get_previous_challenge (group_id : Groupid)
    (table : list Clan_challenge.t) : option Clan_challenge.t :=
  last (List.filter (fun c => Clan_challenge.gid c =? group_id) table).

(** [delete_instance] on that row: the last row that satisfies [p] goes. *)
Fixpoint delete_last_where {A} (p : A -> bool) (l : list A) : list A :=
  match l with
  | [] => []
  | x :: l' =>
      if p x && negb (existsb p l') then l'
      else x :: delete_last_where p l'
  end.

Definition undo (self : ClanBattle) (group_id : Groupid) (qqid : QQid)
    : M BossStatus :=
  group <- get_group group_id ;;
  user <- User_get_or_create self qqid (Some group_id) ;;
  table <- gets challenges ;;
  match _get_previous_challenge group_id table with
  | None => raise (GroupError NoChallengeRecord)
  | Some last_challenge =>
      raise_if (negb (Clan_challenge.qqid last_challenge =? qqid)
                && (User.authority_group user >=? 100))
               (UserError NoUndoPermission) ;;;
      let group := Clan_group.set_boss_cycle
                     (Clan_challenge.boss_cycle last_challenge) group in
      let group := Clan_group.set_boss_num
                     (Clan_challenge.boss_num last_challenge) group in
      let group := Clan_group.set_boss_health
                     (Clan_challenge.boss_health_ramain last_challenge
                      + Clan_challenge.challenge_damage last_challenge) group in
      let group := Clan_group.set_challenging_member_qq_id None group in
      set_group group_id group ;;;
      update (with_challenges
                (delete_last_where
                   (fun c => Clan_challenge.gid c =? group_id))) ;;;
      ret (mkBossStatus (Clan_group.boss_cycle group)
                        (Clan_group.boss_num group)
                        (Clan_group.boss_health group) 0)
  end.

Definition modify (self : ClanBattle) (group_id : Groupid)
    (cycle boss_num boss_health : option Z) : M BossStatus :=
  raise_if (truthy cycle && (default 0 cycle <? 1)) (InputError BadCycle) ;;;
  raise_if (truthy boss_num
            && ((default 0 boss_num <? 1) || (default 0 boss_num >? 5)))
           (InputError BadBossNum) ;;;
  raise_if (truthy boss_health && (default 0 boss_health <? 1))
           (InputError BadBossHealth) ;;;
  group <- get_group group_id ;;
  let group := match cycle with
               | Some c => Clan_group.set_boss_cycle c group
               | None => group
               end in
  let group := match boss_num with
               | Some n => Clan_group.set_boss_num n group
               | None => group
               end in
  set_group group_id group ;;;
  boss_health <- match boss_health with
                 | Some h => ret h
                 | None => lift (full_health self group)
                 end ;;
  let group := Clan_group.set_boss_health boss_health group in
  set_group group_id group ;;;
  ret (mkBossStatus (Clan_group.boss_cycle group) (Clan_group.boss_num group)
                    (Clan_group.boss_health group) 0).

Definition restart (self : ClanBattle) (group_id : Groupid) : M unit :=
  group <- get_group group_id ;;
  let group := Clan_group.set_boss_cycle 1 group in
  let group := Clan_group.set_boss_num 1 group in
  set_group group_id group ;;;
  boss_health <- lift (bossinfo_at self (Clan_group.game_server group) 0 0) ;;
  let group := Clan_group.set_boss_health boss_health group in
  set_group group_id group ;;;
  update (with_challenges
            (List.filter (fun c => negb (Clan_challenge.gid c =? group_id)))).

(** Modelled from the spec: the defaults of the columns of [Clan_group] that
    [creat_group] does not pass.  The table is declared in [ybdata]; a new
    group stands at cycle 1, boss 1 (where [restart] puts it back), with
    hard mode off and the challenge slot free. *)
Definition creat_group (self : ClanBattle) (group_id : Groupid)
    (game_server : string) : M unit :=
  known <- gets (fun s => _group_data s !! group_id) ;;
  raise_if (bool_decide (is_Some known)) (GroupError GroupExists) ;;;
  boss_health <- lift (bossinfo_at self game_server 0 0) ;;
  set_group group_id
    (Clan_group.mk group_id game_server 1 1 boss_health false None 0).

Definition boss_status_summary (group_id : Groupid) : M BossStatus :=
  group <- get_group group_id ;;
  ret (mkBossStatus (Clan_group.boss_cycle group) (Clan_group.boss_num group)
                    (Clan_group.boss_health group)
                    (default 0 (Clan_group.challenging_member_qq_id group))).

(** ** Subscriptions *)

Definition same_subscribe (group_id : Groupid) (qqid : QQid) (boss_num : Z)
    (s : Clan_subscribe.t) : bool :=
  (Clan_subscribe.gid s =? group_id)
  && (Clan_subscribe.qqid s =? qqid)
  && (Clan_subscribe.subscribe_item s =? boss_num).

Definition add_subscribe (group_id : Groupid) (qqid : QQid) (boss_num : Z)
    : M unit :=
  group <- get_group group_id ;;
  table <- gets subscribes ;;
  raise_if (existsb (same_subscribe group_id qqid boss_num) table)
           (UserError (if boss_num =? 0 then AlreadyOnTree
                       else AlreadySubscribed)) ;;;
  (if (boss_num =? 0)
      && bool_decide (Clan_group.challenging_member_qq_id group = Some qqid)
   then set_group group_id
          (Clan_group.set_challenging_member_qq_id None group)
   else ret tt) ;;;
  update (with_subscribes
            (fun table => table ++ [Clan_subscribe.mk group_id qqid boss_num])).

(** Returns the number of deleted rows. *)
Definition cancel_subscribe (group_id : Groupid) (qqid : QQid) (boss_num : Z)
    : M Z :=
  table <- gets subscribes ;;
  let deleted_counts :=
    Z.of_nat (length (List.filter (same_subscribe group_id qqid boss_num)
                                  table)) in
  update (with_subscribes
            (List.filter
               (fun s => negb (same_subscribe group_id qqid boss_num s)))) ;;;
  ret deleted_counts.

(** ** Challenge slot *)

Definition apply_for_challenge (group_id : Groupid) (qqid : QQid) (now : Z)
    : M BossStatus :=
  group <- get_group group_id ;;
  match Clan_group.challenging_member_qq_id group with
  | Some holder => raise (GroupError (BeingChallenged holder))
  | None =>
      let group := Clan_group.set_challenging_member_qq_id (Some qqid) group in
      let group := Clan_group.set_challenging_start_time now group in
      set_group group_id group ;;;
      ret (mkBossStatus (Clan_group.boss_cycle group)
                        (Clan_group.boss_num group)
                        (Clan_group.boss_health group) qqid)
  end.

Definition cancel_application (self : ClanBattle) (group_id : Groupid)
    (qqid : QQid) (now : Z) : M BossStatus :=
  group <- get_group group_id ;;
  match Clan_group.challenging_member_qq_id group with
  | None => raise (GroupError NobodyChallenging)
  | Some holder =>
      user <- User_get_or_create self qqid (Some group_id) ;;
      (if negb (holder =? qqid) && (User.authority_group user >=? 100) then
         let challenge_duration :=
           now - Clan_group.challenging_start_time group in
         raise_if (challenge_duration <? 180)
                  (GroupError (ChallengeStarted holder challenge_duration))
       else ret tt) ;;;
      let group := Clan_group.set_challenging_member_qq_id None group in
      set_group group_id group ;;;
      ret (mkBossStatus (Clan_group.boss_cycle group)
                        (Clan_group.boss_num group)
                        (Clan_group.boss_health group) 0)
  end.

(** ** Report *)

(** [order_by(Clan_challenge.qqid, Clan_challenge.cid)]: a stable sort of
    the rows, which are in [cid] order, by [qqid]. *)
Fixpoint insert_by_qqid (c : Clan_challenge.t) (l : list Clan_challenge.t)
    : list Clan_challenge.t :=
  match l with
  | [] => [c]
  | x :: l' =>
      if Clan_challenge.qqid x <? Clan_challenge.qqid c
      then x :: insert_by_qqid c l'
      else c :: l
  end.

Definition order_by_qqid_cid (l : list Clan_challenge.t)
    : list Clan_challenge.t :=
  foldr insert_by_qqid [] l.

(** The result is memoised for a minute by [timed_cached_func]; the body is
    what runs on a miss, and a call that raises stores nothing. *)
Definition get_report (group_id : Groupid) (qqid : option QQid)
    (pcrdate : option Pcr_date) : M (list Clan_challenge.t) :=
  group <- get_group group_id ;;
  table <- gets challenges ;;
  ret (order_by_qqid_cid
         (List.filter
            (fun c => (Clan_challenge.gid c =? group_id)
                      && match qqid with
                         | Some q => Clan_challenge.qqid c =? q
                         | None => true
                         end
                      && match pcrdate with
                         | Some d => Clan_challenge.challenge_pcrdate c =? d
                         | None => true
                         end)
            table)).

(** * Derived definitions *)

(** The table [User] after [User.get_or_create]. *)
Definition users_after (self : ClanBattle) (qqid : QQid) (group_id : Groupid)
    (s : Store) : gmap Z User.t :=
  match users s !! qqid with
  | Some _ => users s
  | None => <[qqid := User.mk (new_user_authority self) (Some group_id)]>
              (users s)
  end.

(** The privilege level [User.get_or_create] reports for [qqid]. *)
Definition authority_of (self : ClanBattle) (qqid : QQid) (s : Store) : Z :=
  match users s !! qqid with
  | Some u => User.authority_group u
  | None => new_user_authority self
  end.

(** The record that [damage] appends. *)
Definition damage_record (group : Clan_group.t) (group_id : Groupid)
    (qqid : QQid) (damage : Z) (behalfed : option QQid) (d : Pcr_date) (t : Z)
    (table : list Clan_challenge.t) : Clan_challenge.t :=
  Clan_challenge.mk group_id (acting qqid behalfed) d t
    (Clan_group.boss_cycle group) (Clan_group.boss_num group)
    (Clan_group.boss_health group - damage) damage
    (continues (challenges_of_day group_id (acting qqid behalfed) d table))
    (behalf_comment qqid behalfed).

Definition damage_group (group : Clan_group.t) (damage : Z) : Clan_group.t :=
  Clan_group.set_challenging_member_qq_id None
    (Clan_group.set_boss_health (Clan_group.boss_health group - damage) group).

Definition status_of (group : Clan_group.t) (challenger : QQid) : BossStatus :=
  mkBossStatus (Clan_group.boss_cycle group) (Clan_group.boss_num group)
               (Clan_group.boss_health group) challenger.

(** The record that [defeat] appends. *)
Definition defeat_record (group : Clan_group.t) (group_id : Groupid)
    (qqid : QQid) (behalfed : option QQid) (d : Pcr_date) (t : Z)
    (table : list Clan_challenge.t) : Clan_challenge.t :=
  Clan_challenge.mk group_id (acting qqid behalfed) d t
    (Clan_group.boss_cycle group) (Clan_group.boss_num group)
    0 (Clan_group.boss_health group)
    (continues (challenges_of_day group_id (acting qqid behalfed) d table))
    (behalf_comment qqid behalfed).

(** The slot advance of [defeat]. *)
Definition next_boss (group : Clan_group.t) : Clan_group.t :=
  if Clan_group.boss_num group =? 5 then
    Clan_group.set_boss_cycle (Clan_group.boss_cycle group + 1)
      (Clan_group.set_boss_num 1 group)
  else
    Clan_group.set_boss_num (Clan_group.boss_num group + 1) group.

Definition defeat_group (group : Clan_group.t) (boss_health : Z)
    : Clan_group.t :=
  Clan_group.set_challenging_member_qq_id None
    (Clan_group.set_boss_health boss_health (next_boss group)).

(** ** Sequences of reports *)

Inductive call :=
| Damage (group_id : Groupid) (qqid : QQid) (damage : Z)
         (behalfed : option QQid) (d : Pcr_date) (t : Z)
| Defeat (group_id : Groupid) (qqid : QQid)
         (behalfed : option QQid) (d : Pcr_date) (t : Z).

(** The store a call leaves behind, whether it returns or raises. *)
Definition run_call (self : ClanBattle) (c : call) (s : Store) : Store :=
  match c with
  | Damage group_id qqid amount behalfed d t =>
      snd (damage self group_id qqid amount behalfed d t s)
  | Defeat group_id qqid behalfed d t =>
      snd (defeat self group_id qqid behalfed d t s)
  end.

Definition run_calls (self : ClanBattle) (cs : list call) (s : Store) : Store :=
  foldl (fun s c => run_call self c s) s cs.

(** ** Invariants *)

(** At most three records that are not continuations, per group, attacker
    and battle-day. *)
Definition quota_ok (s : Store) : Prop :=
  forall group_id qqid d,
    finished_count (challenges_of_day group_id qqid d (challenges s)) <= 3.

(** The table of a server has the tiers that [_level_by_cycle] can select,
    and each tier gives a positive health to each of the five bosses. *)
Definition row_ok (row : list Z) : bool :=
  (Z.of_nat (length row) =? 5) && forallb (fun h => 0 <? h) row.

Definition server_ok (self : ClanBattle) (game_server : string)
    (level_4 : bool) : bool :=
  match bossinfo self !! game_server with
  | Some table =>
      ((if level_4 then 4 else 3) <=? Z.of_nat (length table))
      && forallb row_ok table
  | None => false
  end.

(** The boss is one of the five, alive, and has at most its full health. *)
Definition health_in_range (self : ClanBattle) (group : Clan_group.t) : bool :=
  server_ok self (Clan_group.game_server group) (Clan_group.level_4 group)
  && (1 <=? Clan_group.boss_num group) && (Clan_group.boss_num group <=? 5)
  && match full_health self group with
     | inr full => (0 <? Clan_group.boss_health group)
                   && (Clan_group.boss_health group <=? full)
     | inl _ => false
     end.

(** ** The difficulty tier, in the words of the specification

    Tier 0 for [cycle <= 3], tier 1 for [cycle <= 10], tier 2 otherwise,
    except tier 3 when hard mode is enabled and [cycle >= 35]. *)
Definition tier_of_spec (cycle : Z) (hard_mode : bool) : Z :=
  if hard_mode && (35 <=? cycle) then 3
  else if cycle <=? 3 then 0
  else if cycle <=? 10 then 1
  else 2.

(** ** A small configuration to run the engine on *)

Definition demo_boss : gmap string (list (list Z)) :=
  {[ "cn"%string := [ [100; 200; 300; 400; 500];
                      [110; 210; 310; 410; 510];
                      [120; 220; 320; 420; 520];
                      [130; 230; 330; 430; 530] ] ]}.

Definition demo_self : ClanBattle := mkClanBattle demo_boss 100.

Definition demo_group : Clan_group.t :=
  Clan_group.mk 1 "cn" 1 1 100 false None 0.

Definition demo_store : Store :=
  mkStore {[ 1 := demo_group ]} [] [] ∅.

Definition empty_store : Store := mkStore ∅ [] [] ∅.

(** Attacker 7 has reported two hits and then a kill on battle-day 0. *)
Definition three_reports : list call :=
  [ Damage 1 7 10 None 0 0; Damage 1 7 20 None 0 1; Defeat 1 7 None 0 2 ].

(** Attacker 2 holds the challenge slot since second 1000; member 3 has the
    default privilege level, administrator 4 has level 10. *)
Definition claimed_store : Store :=
  mkStore {[ 1 := Clan_group.mk 1 "cn" 1 1 100 false (Some 2) 1000 ]} [] []
          {[ 3 := User.mk 100 (Some 1); 4 := User.mk 10 (Some 1) ]}.

(** [s'] is [s] with one more record of [qqid] in [group_id] on day [d],
    whose continuation flag is [flag]; the count of finished records of that
    attacker and day grows by one exactly when the flag is off. *)
Definition recorded_as (flag : bool) (group_id : Groupid) (qqid : QQid)
    (d : Pcr_date) (s s' : Store) : Prop :=
  exists r,
    challenges s' = challenges s ++ [r]
    /\ Clan_challenge.is_continue r = flag
    /\ Clan_challenge.gid r = group_id
    /\ Clan_challenge.qqid r = qqid
    /\ Clan_challenge.challenge_pcrdate r = d
    /\ finished_count (challenges_of_day group_id qqid d (challenges s'))
       = finished_count (challenges_of_day group_id qqid d (challenges s))
         + (if flag then 0 else 1).

(** The demo group after [three_reports]: the third report of attacker 7
    killed boss 1. *)
Definition third_kill_store : Store :=
  run_calls demo_self three_reports demo_store.

(** The demo group after attacker 7 killed boss 1 with a first report. *)
Definition first_kill_store : Store :=
  run_calls demo_self [Defeat 1 7 None 0 0] demo_store.

Definition second_boss : Clan_group.t :=
  Clan_group.mk 1 "cn" 1 2 200 false None 0.

Definition first_kill : Clan_challenge.t :=
  Clan_challenge.mk 1 7 0 0 1 1 0 100 false None.

(** The argument check at the head of [modify]. *)
Definition modify_rejects (cycle boss_num boss_health : option Z)
    : option input_msg :=
  if truthy cycle && (default 0 cycle <? 1) then Some BadCycle
  else if truthy boss_num
          && ((default 0 boss_num <? 1) || (default 0 boss_num >? 5))
  then Some BadBossNum
  else if truthy boss_health && (default 0 boss_health <? 1)
  then Some BadBossHealth
  else None.

(** The group after the assignments of [modify] to cycle and boss. *)
Definition modify_position (cycle boss_num : option Z) (group : Clan_group.t)
    : Clan_group.t :=
  let group := match cycle with
               | Some c => Clan_group.set_boss_cycle c group
               | None => group
               end in
  match boss_num with
  | Some n => Clan_group.set_boss_num n group
  | None => group
  end.

(** The group after [undo] of the record [c]. *)
Definition undo_group (c : Clan_challenge.t) (group : Clan_group.t)
    : Clan_group.t :=
  Clan_group.set_challenging_member_qq_id None
    (Clan_group.set_boss_health
       (Clan_challenge.boss_health_ramain c + Clan_challenge.challenge_damage c)
       (Clan_group.set_boss_num (Clan_challenge.boss_num c)
          (Clan_group.set_boss_cycle (Clan_challenge.boss_cycle c) group))).

(** * Further definitions *)

(** ** Reading the subscriptions *)


(** ** Repeated undo *)

(** [n] calls of [undo] in a row, each on the store the one before left;
    the outcome is that of the last call, or of the first that raised. *)
Fixpoint undo_times (self : ClanBattle) (group_id : Groupid) (qqid : QQid)
    (n : nat) : M unit :=
  match n with
  | O => ret tt
  | S n' => undo self group_id qqid ;;; undo_times self group_id qqid n'
  end.

(** A report with its outcome, for sequences in which every report has to
    return. *)
Definition call_result (self : ClanBattle) (c : call) (s : Store)
    : (exn + BossStatus) * Store :=
  match c with
  | Damage group_id qqid amount behalfed d t =>
      damage self group_id qqid amount behalfed d t s
  | Defeat group_id qqid behalfed d t =>
      defeat self group_id qqid behalfed d t s
  end.

Definition call_group (c : call) : Groupid :=
  match c with
  | Damage group_id _ _ _ _ _ => group_id
  | Defeat group_id _ _ _ _ => group_id
  end.

(** All reports are made in [group_id] and all return. *)
Fixpoint all_return (self : ClanBattle) (group_id : Groupid) (cs : list call)
    (s : Store) : bool :=
  match cs with
  | [] => true
  | c :: cs' =>
      (call_group c =? group_id)
      && match call_result self c s with
         | (inr _, s') => all_return self group_id cs' s'
         | (inl _, _) => false
         end
  end.

(** ** Position of a group *)

(** Cycle, boss and health: what [BossStatus] shows of a group. *)
Definition position (group : Clan_group.t) : Z * Z * Z :=
  (Clan_group.boss_cycle group, Clan_group.boss_num group,
   Clan_group.boss_health group).

(** The store with another holder of the challenge slot of [group_id]. *)
Definition with_holder (group_id : Groupid) (holder : option QQid)
    (start : Z) (s : Store) : Store :=
  with_group_data
    (fun m =>
       match m !! group_id with
       | Some group =>
           <[group_id := Clan_group.set_challenging_start_time start
                           (Clan_group.set_challenging_member_qq_id holder
                              group)]> m
       | None => m
       end) s.

(** ** Sortedness of a report *)

Fixpoint sorted_by_qqid (l : list Clan_challenge.t) : bool :=
  match l with
  | [] => true
  | x :: l' =>
      match l' with
      | [] => true
      | y :: _ => (Clan_challenge.qqid x <=? Clan_challenge.qqid y)
                  && sorted_by_qqid l'
      end
  end.

(** The selection of [get_report]. *)
Definition report_filter (group_id : Groupid) (qqid : option QQid)
    (pcrdate : option Pcr_date) (c : Clan_challenge.t) : bool :=
  (Clan_challenge.gid c =? group_id)
  && match qqid with
     | Some q => Clan_challenge.qqid c =? q
     | None => true
     end
  && match pcrdate with
     | Some d => Clan_challenge.challenge_pcrdate c =? d
     | None => true
     end.

(** ** A configuration with a single tier *)




(** Subscriptions of two groups. *)
Definition subscribed_store : Store :=
  mkStore {[ 1 := demo_group;
             2 := Clan_group.mk 2 "cn" 1 1 100 false (Some 9) 50 ]}
          [Clan_challenge.mk 2 5 0 0 1 1 90 10 false None]
          [Clan_subscribe.mk 1 8 2; Clan_subscribe.mk 2 8 2;
           Clan_subscribe.mk 1 9 0; Clan_subscribe.mk 1 8 3]
          {[ 3 := User.mk 100 (Some 1); 4 := User.mk 10 (Some 1) ]}.

(** ** What an operation leaves of another group *)

(** Group [other] has in [s'] the state, the records and the subscriptions
    it has in [s]. *)
Definition untouched (other : Groupid) (s s' : Store) : Prop :=
  _group_data s' !! other = _group_data s !! other
  /\ List.filter (fun c => Clan_challenge.gid c =? other) (challenges s')
     = List.filter (fun c => Clan_challenge.gid c =? other) (challenges s)
  /\ List.filter (fun x => Clan_subscribe.gid x =? other) (subscribes s')
     = List.filter (fun x => Clan_subscribe.gid x =? other) (subscribes s).

(** Two stores agree on the ledger and on where [group_id] stands. *)
Definition same_battle (group_id : Groupid) (a b : Store) : Prop :=
  challenges a = challenges b
  /\ exists ga gb,
       _group_data a !! group_id = Some ga
       /\ _group_data b !! group_id = Some gb
       /\ position ga = position gb.

(** ** The cache of [web_util.async_cached_func]

    [async_cached_func(maxsize)] keeps one dictionary [cache] per decorated
    function.  [fn] is awaited by the wrapper; what it returns or raises at
    the time of a call is the argument [fn] of that call, and [awaited]
    lists the keys it has been awaited with.  When the cache is full the
    wrapper evaluates [cache.keys().next()]; a dictionary view has no
    attribute [next], so this raises [AttributeError] before anything is
    deleted. *)
Module web_util.

Inductive outcome (V E : Type) :=
| Returned (v : V)
| Raised (e : E)
| AttributeError.
Arguments Returned {V E} v.
Arguments Raised {V E} e.
Arguments AttributeError {V E}.

Record state (K V : Type) `{Countable K} := mk_state {
  cache : gmap K V;
  awaited : list K
}.
Arguments mk_state {K V _ _} cache awaited.
Arguments cache {K V _ _} s.
Arguments awaited {K V _ _} s.

(** The branch that awaits [fn] and stores its result, with its guard. *)
Definition refresh {K V E : Type} `{Countable K} (maxsize : Z)
    (fn : K -> E + V) (key : K) (st : state K V)
    : outcome V E * state K V :=
  if Z.of_nat (size (cache st)) >=? maxsize then (AttributeError, st)
  else
    match fn key with
    | inl e => (Raised e, mk_state (cache st) (awaited st ++ [key]))
    | inr v => (Returned v,
                mk_state (<[key := v]> (cache st)) (awaited st ++ [key]))
    end.

Definition wrapper {K V E : Type} `{Countable K} (maxsize : Z)
    (fn : K -> E + V) (key : K) (nocache : bool) (st : state K V)
    : outcome V E * state K V :=
  match cache st !! key with
  | Some v => if nocache then refresh maxsize fn key st
              else (Returned v, st)
  | None => refresh maxsize fn key st
  end.

End web_util.


(** ** Membership

    [Clan_member] holds one row per (group, member); of its columns only
    [group_id] and [qqid] are read or written by [bind_group] and
    [drop_member].  The two methods work on the tables [User] and
    [Clan_member] alone, so they are functions of those tables. *)
Module Clan_member.
Record t := mk {
  group_id : Groupid;
  qqid : QQid
}.
End Clan_member.

(** [Clan_member.get_or_create(group_id=group_id, qqid=qqid)] *)
Definition Clan_member_get_or_create (group_id : Groupid) (qqid : QQid)
    (table : list Clan_member.t) : list Clan_member.t :=
  if existsb (fun m => (Clan_member.group_id m =? group_id)
                       && (Clan_member.qqid m =? qqid)) table
  then table
  else table ++ [Clan_member.mk group_id qqid].

(** [bind_group]: the user row is fetched or created, its [clan_group_id]
    is set and saved; the membership row is fetched or created. *)
Definition bind_group (self : ClanBattle) (group_id : Groupid) (qqid : QQid)
    (tables : gmap Z User.t * list Clan_member.t)
    : gmap Z User.t * list Clan_member.t :=
  let user := match fst tables !! qqid with
              | Some u => u
              | None => User.mk (new_user_authority self) None
              end in
  let user := User.mk (User.authority_group user) (Some group_id) in
  (<[qqid := user]> (fst tables),
   Clan_member_get_or_create group_id qqid (snd tables)).

(** [drop_member]: [Clan_member.delete().where(
    Clan_member.qqid.in_(member_list)).execute()]; the group is not part of
    the condition.  Returns the number of deleted rows. *)
Definition drop_member (group_id : Groupid) (member_list : list QQid)
    (table : list Clan_member.t) : Z * list Clan_member.t :=
  let listed := fun m => existsb (fun q => Clan_member.qqid m =? q)
                                 member_list in
  (Z.of_nat (length (List.filter listed table)),
   List.filter (fun m => negb (listed m)) table).

(** Three memberships: member 7 in groups 1 and 2, member 8 in group 1. *)
Definition demo_members : list Clan_member.t :=
  [Clan_member.mk 1 7; Clan_member.mk 2 7; Clan_member.mk 1 8].

(** * Properties *)

(** ** What one call does to the store *)

Lemma User_get_or_create_eq self qqid group_id s :
  User_get_or_create self qqid (Some group_id) s =
  (inr (default (User.mk (new_user_authority self) (Some group_id))
                (users s !! qqid)),
   mkStore (_group_data s) (challenges s) (subscribes s)
           (users_after self qqid group_id s)).
Proof.
  unfold User_get_or_create, users_after.
  destruct (users s !! qqid); destruct s; reflexivity.
Qed.

Ltac run :=
  unfold bind, raise_if, get_group, set_group, Clan_challenge_create, gets,
    update, lift, ret, raise, with_group_data, with_challenges,
    with_subscribes, with_users; cbn [_group_data challenges subscribes users].

Lemma damage_eq self s group_id group qqid amount behalfed d t :
  _group_data s !! group_id = Some group ->
  damage self group_id qqid amount behalfed d t s =
  if amount <? 0 then (inl (InputError NegativeDamage), s)
  else if amount >=? Clan_group.boss_health group
  then (inl (InputError DamageExceedsHealth), s)
  else
    let who := acting qqid behalfed in
    let users' := users_after self who group_id s in
    if finished_count (challenges_of_day group_id who d (challenges s)) >=? 3
    then (inl (InputError DailyQuotaReached),
          mkStore (_group_data s) (challenges s) (subscribes s) users')
    else (inr (status_of (damage_group group amount) 0),
          mkStore (<[group_id := damage_group group amount]> (_group_data s))
                  (challenges s ++
                   [damage_record group group_id qqid amount behalfed d t
                                  (challenges s)])
                  (subscribes s) users').
Proof.
  intros Hg. unfold damage. run.
  destruct (amount <? 0); [reflexivity |].
  rewrite Hg.
  destruct (amount >=? Clan_group.boss_health group); [reflexivity |].
  rewrite User_get_or_create_eq. cbn [challenges].
  destruct (finished_count _ >=? 3); reflexivity.
Qed.

Lemma defeat_eq self s group_id group qqid behalfed d t :
  _group_data s !! group_id = Some group ->
  defeat self group_id qqid behalfed d t s =
  let who := acting qqid behalfed in
  let users' := users_after self who group_id s in
  if finished_count (challenges_of_day group_id who d (challenges s)) >=? 3
  then (inl (InputError DailyQuotaReached),
        mkStore (_group_data s) (challenges s) (subscribes s) users')
  else
    let table' := challenges s ++
                  [defeat_record group group_id qqid behalfed d t
                                 (challenges s)] in
    match full_health self (next_boss group) with
    | inl e =>
        (inl e, mkStore (<[group_id := next_boss group]> (_group_data s))
                        table' (subscribes s) users')
    | inr boss_health =>
        let group' := defeat_group group boss_health in
        (inr (status_of group' 0),
         mkStore (<[group_id := group']> (_group_data s)) table'
                 (List.filter
                    (fun x => negb (to_notify group_id
                                      (Clan_group.boss_num group') x))
                    (subscribes s))
                 users')
    end.
Proof.
  intros Hg. unfold defeat, notify_subscribe. run.
  rewrite Hg, User_get_or_create_eq. cbn [challenges].
  destruct (finished_count _ >=? 3); [reflexivity |].
  fold (next_boss group).
  destruct (full_health self (next_boss group)) as [e | h]; [reflexivity |].
  rewrite lookup_insert_eq, insert_insert_eq. reflexivity.
Qed.


(** ** The stage table *)

Lemma _level_by_cycle_spec cycle level_4 :
  _level_by_cycle cycle level_4 = tier_of_spec cycle level_4.
Proof.
  unfold _level_by_cycle, tier_of_spec.
  destruct level_4; cbn [andb];
    repeat match goal with
           | |- context [?a <=? ?b] => destruct (Z.leb_spec a b)
           | |- context [?a >=? ?b] => destruct (Z.geb_spec a b)
           end; lia.
Qed.

Lemma next_boss_fields group :
  Clan_group.game_server (next_boss group) = Clan_group.game_server group
  /\ Clan_group.level_4 (next_boss group) = Clan_group.level_4 group
  /\ Clan_group.boss_health (next_boss group) = Clan_group.boss_health group
  /\ (Clan_group.boss_num group = 5 ->
      Clan_group.boss_num (next_boss group) = 1
      /\ Clan_group.boss_cycle (next_boss group)
         = Clan_group.boss_cycle group + 1)
  /\ (Clan_group.boss_num group <> 5 ->
      Clan_group.boss_num (next_boss group) = Clan_group.boss_num group + 1
      /\ Clan_group.boss_cycle (next_boss group)
         = Clan_group.boss_cycle group).
Proof.
  unfold next_boss.
  destruct (Z.eqb_spec (Clan_group.boss_num group) 5) as [H5 | H5];
    cbn; repeat split; intros; try reflexivity; congruence.
Qed.

(** ** Counting the records of a day *)

Lemma challenges_of_day_snoc group_id qqid d table r :
  challenges_of_day group_id qqid d (table ++ [r]) =
  challenges_of_day group_id qqid d table ++
  (if (Clan_challenge.gid r =? group_id)
      && (Clan_challenge.qqid r =? qqid)
      && (Clan_challenge.challenge_pcrdate r =? d)
   then [r] else []).
Proof. unfold challenges_of_day. rewrite List.filter_app. reflexivity. Qed.

Lemma finished_count_snoc l r :
  finished_count (l ++ [r]) =
  finished_count l + (if Clan_challenge.is_continue r then 0 else 1).
Proof.
  unfold finished_count. rewrite List.filter_app, length_app. cbn [List.filter].
  destruct (Clan_challenge.is_continue r); cbn [negb length]; lia.
Qed.

(** A record of the same group, attacker and day is seen by the next
    selection of the day. *)
Lemma finished_count_same_day group_id qqid d table r :
  Clan_challenge.gid r = group_id ->
  Clan_challenge.qqid r = qqid ->
  Clan_challenge.challenge_pcrdate r = d ->
  finished_count (challenges_of_day group_id qqid d (table ++ [r])) =
  finished_count (challenges_of_day group_id qqid d table)
  + (if Clan_challenge.is_continue r then 0 else 1).
Proof.
  intros <- <- <-. rewrite challenges_of_day_snoc, !Z.eqb_refl. cbn [andb].
  apply finished_count_snoc.
Qed.

(** A record of another group, attacker or day is not. *)
Lemma finished_count_other_day group_id qqid d table r :
  (Clan_challenge.gid r =? group_id)
  && (Clan_challenge.qqid r =? qqid)
  && (Clan_challenge.challenge_pcrdate r =? d) = false ->
  finished_count (challenges_of_day group_id qqid d (table ++ [r])) =
  finished_count (challenges_of_day group_id qqid d table).
Proof.
  intros H. rewrite challenges_of_day_snoc, H, app_nil_r. reflexivity.
Qed.

Lemma recorded_as_snoc group_id qqid d s s' r :
  challenges s' = challenges s ++ [r] ->
  Clan_challenge.gid r = group_id ->
  Clan_challenge.qqid r = qqid ->
  Clan_challenge.challenge_pcrdate r = d ->
  recorded_as (Clan_challenge.is_continue r) group_id qqid d s s'.
Proof.
  intros Hs' Hg Hq Hd. exists r. rewrite Hs'.
  repeat split; try assumption.
  apply finished_count_same_day; assumption.
Qed.

(** ** Calls on a group that was never created *)

Lemma damage_unknown self s group_id qqid amount behalfed d t :
  _group_data s !! group_id = None ->
  damage self group_id qqid amount behalfed d t s =
  (inl (if amount <? 0 then InputError NegativeDamage
        else GroupError NotInitialized), s).
Proof.
  intros Hg. unfold damage. run.
  destruct (amount <? 0); [reflexivity |]. rewrite Hg. reflexivity.
Qed.

Lemma defeat_unknown self s group_id qqid behalfed d t :
  _group_data s !! group_id = None ->
  defeat self group_id qqid behalfed d t s
  = (inl (GroupError NotInitialized), s).
Proof. intros Hg. unfold defeat. run. rewrite Hg. reflexivity. Qed.

(** ** The ledger after a report *)

Lemma damage_challenges self s group_id qqid amount behalfed d t :
  challenges (snd (damage self group_id qqid amount behalfed d t s))
  = challenges s
  \/ exists group,
       _group_data s !! group_id = Some group
       /\ 0 <= amount < Clan_group.boss_health group
       /\ finished_count (challenges_of_day group_id (acting qqid behalfed) d
                                            (challenges s)) < 3
       /\ damage self group_id qqid amount behalfed d t s
          = (inr (status_of (damage_group group amount) 0),
             mkStore (<[group_id := damage_group group amount]>
                        (_group_data s))
                     (challenges s ++
                      [damage_record group group_id qqid amount behalfed d t
                                     (challenges s)])
                     (subscribes s)
                     (users_after self (acting qqid behalfed) group_id s)).
Proof.
  destruct (_group_data s !! group_id) as [group |] eqn:Hg.
  - rewrite (damage_eq _ _ _ _ _ _ _ _ _ Hg). cbv zeta.
    destruct (Z.ltb_spec amount 0); [left; reflexivity |].
    destruct (Z.geb_spec amount (Clan_group.boss_health group));
      [left; reflexivity |].
    destruct (Z.geb_spec
                (finished_count
                   (challenges_of_day group_id (acting qqid behalfed) d
                                      (challenges s))) 3);
      [left; reflexivity |].
    right. exists group. repeat split; lia.
  - rewrite (damage_unknown _ _ _ _ _ _ _ _ Hg). left. reflexivity.
Qed.

Lemma defeat_challenges self s group_id qqid behalfed d t :
  challenges (snd (defeat self group_id qqid behalfed d t s)) = challenges s
  \/ exists group,
       _group_data s !! group_id = Some group
       /\ finished_count (challenges_of_day group_id (acting qqid behalfed) d
                                            (challenges s)) < 3
       /\ challenges (snd (defeat self group_id qqid behalfed d t s))
          = challenges s ++
            [defeat_record group group_id qqid behalfed d t (challenges s)].
Proof.
  destruct (_group_data s !! group_id) as [group |] eqn:Hg.
  - rewrite (defeat_eq _ _ _ _ _ _ _ _ Hg). cbv zeta.
    destruct (Z.geb_spec
                (finished_count
                   (challenges_of_day group_id (acting qqid behalfed) d
                                      (challenges s))) 3);
      [left; reflexivity |].
    right. exists group. split; [reflexivity |]. split; [lia |].
    destruct (full_health self (next_boss group)); reflexivity.
  - rewrite (defeat_unknown _ _ _ _ _ _ _ Hg). left. reflexivity.
Qed.

(** Whatever a report appends is a record of the acting member's day, and
    is appended only below the quota. *)
Lemma run_call_challenges self c s :
  challenges (run_call self c s) = challenges s
  \/ exists r,
       challenges (run_call self c s) = challenges s ++ [r]
       /\ finished_count
            (challenges_of_day (Clan_challenge.gid r) (Clan_challenge.qqid r)
               (Clan_challenge.challenge_pcrdate r) (challenges s)) < 3.
Proof.
  destruct c as [group_id qqid amount behalfed d t | group_id qqid behalfed d t];
    cbn [run_call].
  - destruct (damage_challenges self s group_id qqid amount behalfed d t)
      as [H | (group & _ & _ & Hq & Heq)]; [left; exact H |].
    right. rewrite Heq. eexists. split; [reflexivity | exact Hq].
  - destruct (defeat_challenges self s group_id qqid behalfed d t)
      as [H | (group & _ & Hq & Heq)]; [left; exact H |].
    right. rewrite Heq. eexists. split; [reflexivity | exact Hq].
Qed.

Lemma run_call_quota_ok self c s : quota_ok s -> quota_ok (run_call self c s).
Proof.
  intros Hok group_id qqid d.
  destruct (run_call_challenges self c s) as [-> | (r & -> & Hlt)];
    [apply Hok |].
  destruct ((Clan_challenge.gid r =? group_id)
            && (Clan_challenge.qqid r =? qqid)
            && (Clan_challenge.challenge_pcrdate r =? d)) eqn:Hsame.
  - apply andb_prop in Hsame as [Hsame Hd].
    apply andb_prop in Hsame as [Hg Hq].
    apply Z.eqb_eq in Hg, Hq, Hd.
    rewrite (finished_count_same_day _ _ _ _ _ Hg Hq Hd).
    rewrite Hg, Hq, Hd in Hlt.
    destruct (Clan_challenge.is_continue r); lia.
  - rewrite (finished_count_other_day _ _ _ _ _ Hsame). apply Hok.
Qed.

Lemma run_calls_quota_ok self cs s :
  quota_ok s -> quota_ok (run_calls self cs s).
Proof.
  revert s. induction cs as [| c cs IH]; intros s Hok; [exact Hok |].
  cbn [run_calls foldl]. apply IH, run_call_quota_ok, Hok.
Qed.

(** Below the quota a report is recorded with the flag [continues] computes
    from the attacker's records of the day. *)
Lemma damage_recorded self s group_id group qqid amount behalfed d t :
  _group_data s !! group_id = Some group ->
  0 <= amount < Clan_group.boss_health group ->
  finished_count (challenges_of_day group_id (acting qqid behalfed) d
                                    (challenges s)) < 3 ->
  recorded_as
    (continues (challenges_of_day group_id (acting qqid behalfed) d
                                  (challenges s)))
    group_id (acting qqid behalfed) d s
    (snd (damage self group_id qqid amount behalfed d t s)).
Proof.
  intros Hg Hamount Hquota.
  destruct (damage_challenges self s group_id qqid amount behalfed d t)
    as [Hsame | (group' & Hg' & _ & _ & Heq)].
  - exfalso. revert Hsame. rewrite (damage_eq _ _ _ _ _ _ _ _ _ Hg). cbv zeta.
    destruct (Z.ltb_spec amount 0); [lia |].
    destruct (Z.geb_spec amount (Clan_group.boss_health group)); [lia |].
    destruct (Z.geb_spec
                (finished_count
                   (challenges_of_day group_id (acting qqid behalfed) d
                                      (challenges s))) 3); [lia |].
    cbn [snd challenges]. intros Hsame.
    apply (f_equal length) in Hsame. rewrite length_app in Hsame.
    cbn [length] in Hsame. lia.
  - rewrite Heq. cbn [snd].
    apply (recorded_as_snoc group_id (acting qqid behalfed) d s _
             (damage_record group' group_id qqid amount behalfed d t
                            (challenges s))); reflexivity.
Qed.

Lemma defeat_recorded self s group_id group qqid behalfed d t :
  _group_data s !! group_id = Some group ->
  finished_count (challenges_of_day group_id (acting qqid behalfed) d
                                    (challenges s)) < 3 ->
  recorded_as
    (continues (challenges_of_day group_id (acting qqid behalfed) d
                                  (challenges s)))
    group_id (acting qqid behalfed) d s
    (snd (defeat self group_id qqid behalfed d t s)).
Proof.
  intros Hg Hquota.
  destruct (defeat_challenges self s group_id qqid behalfed d t)
    as [Hsame | (group' & Hg' & _ & Heq)].
  - exfalso. revert Hsame. rewrite (defeat_eq _ _ _ _ _ _ _ _ Hg). cbv zeta.
    destruct (Z.geb_spec
                (finished_count
                   (challenges_of_day group_id (acting qqid behalfed) d
                                      (challenges s))) 3); [lia |].
    destruct (full_health self (next_boss group));
      cbn [snd challenges]; intros Hsame;
      apply (f_equal length) in Hsame; rewrite length_app in Hsame;
      cbn [length] in Hsame; lia.
  - apply (recorded_as_snoc group_id (acting qqid behalfed) d s _
             (defeat_record group' group_id qqid behalfed d t (challenges s)));
      [exact Heq | reflexivity ..].
Qed.

(** At the quota both reports raise and leave ledger and groups alone. *)
Lemma damage_at_quota self s group_id group qqid amount behalfed d t :
  _group_data s !! group_id = Some group ->
  3 <= finished_count (challenges_of_day group_id (acting qqid behalfed) d
                                         (challenges s)) ->
  exists m s',
    damage self group_id qqid amount behalfed d t s = (inl (InputError m), s')
    /\ challenges s' = challenges s
    /\ _group_data s' = _group_data s
    /\ (0 <= amount < Clan_group.boss_health group -> m = DailyQuotaReached).
Proof.
  intros Hg Hquota. rewrite (damage_eq _ _ _ _ _ _ _ _ _ Hg). cbv zeta.
  destruct (Z.ltb_spec amount 0);
    [eexists _, _; repeat split; lia |].
  destruct (Z.geb_spec amount (Clan_group.boss_health group));
    [eexists _, _; repeat split; lia |].
  destruct (Z.geb_spec
              (finished_count
                 (challenges_of_day group_id (acting qqid behalfed) d
                                    (challenges s))) 3); [| lia].
  eexists _, _. repeat split.
Qed.

Lemma defeat_at_quota self s group_id group qqid behalfed d t :
  _group_data s !! group_id = Some group ->
  3 <= finished_count (challenges_of_day group_id (acting qqid behalfed) d
                                         (challenges s)) ->
  exists s',
    defeat self group_id qqid behalfed d t s
    = (inl (InputError DailyQuotaReached), s')
    /\ challenges s' = challenges s
    /\ _group_data s' = _group_data s.
Proof.
  intros Hg Hquota. rewrite (defeat_eq _ _ _ _ _ _ _ _ Hg). cbv zeta.
  destruct (Z.geb_spec
              (finished_count
                 (challenges_of_day group_id (acting qqid behalfed) d
                                    (challenges s))) 3); [| lia].
  eexists. repeat split.
Qed.

(** Below the quota the reports return. *)
Lemma damage_returns self s group_id group qqid amount behalfed d t :
  _group_data s !! group_id = Some group ->
  0 <= amount < Clan_group.boss_health group ->
  finished_count (challenges_of_day group_id (acting qqid behalfed) d
                                    (challenges s)) < 3 ->
  exists s',
    damage self group_id qqid amount behalfed d t s
    = (inr (status_of (damage_group group amount) 0), s').
Proof.
  intros Hg Hamount Hquota.
  destruct (damage_challenges self s group_id qqid amount behalfed d t)
    as [Hsame | (group' & Hg' & _ & _ & Heq)].
  - exfalso.
    destruct (damage_recorded self s group_id group qqid amount behalfed d t
                Hg Hamount Hquota) as (r & Hr & _).
    rewrite Hsame in Hr. apply (f_equal length) in Hr.
    rewrite length_app in Hr. cbn [length] in Hr. lia.
  - rewrite Hg in Hg'. injection Hg' as <-. rewrite Heq. eauto.
Qed.

Lemma defeat_returns self s group_id group qqid behalfed d t full :
  _group_data s !! group_id = Some group ->
  finished_count (challenges_of_day group_id (acting qqid behalfed) d
                                    (challenges s)) < 3 ->
  full_health self (next_boss group) = inr full ->
  exists s',
    defeat self group_id qqid behalfed d t s
    = (inr (status_of (defeat_group group full) 0), s').
Proof.
  intros Hg Hquota Hfull. rewrite (defeat_eq _ _ _ _ _ _ _ _ Hg). cbv zeta.
  destruct (Z.geb_spec
              (finished_count
                 (challenges_of_day group_id (acting qqid behalfed) d
                                    (challenges s))) 3); [lia |].
  rewrite Hfull. eauto.
Qed.

(** ** Undo *)

Lemma last_filter_snoc {A} (p : A -> bool) l x :
  p x = true -> last (List.filter p (l ++ [x])) = Some x.
Proof.
  intros Hp. rewrite List.filter_app. cbn [List.filter]. rewrite Hp.
  apply last_snoc.
Qed.

Lemma existsb_snoc {A} (p : A -> bool) l x :
  p x = true -> existsb p (l ++ [x]) = true.
Proof.
  intros Hp. rewrite existsb_app. cbn [existsb]. rewrite Hp.
  apply orb_true_iff. right. reflexivity.
Qed.

Lemma delete_last_where_snoc {A} (p : A -> bool) l x :
  p x = true -> delete_last_where p (l ++ [x]) = l.
Proof.
  intros Hp. induction l as [| y l IH]; cbn [app delete_last_where existsb].
  - rewrite Hp. reflexivity.
  - rewrite (existsb_snoc p l x Hp), andb_false_r, IH. reflexivity.
Qed.

Lemma undo_eq self s group_id group qqid :
  _group_data s !! group_id = Some group ->
  undo self group_id qqid s =
  let users' := users_after self qqid group_id s in
  match _get_previous_challenge group_id (challenges s) with
  | None =>
      (inl (GroupError NoChallengeRecord),
       mkStore (_group_data s) (challenges s) (subscribes s) users')
  | Some last_challenge =>
      if negb (Clan_challenge.qqid last_challenge =? qqid)
         && (authority_of self qqid s >=? 100)
      then (inl (UserError NoUndoPermission),
            mkStore (_group_data s) (challenges s) (subscribes s) users')
      else (inr (status_of (undo_group last_challenge group) 0),
            mkStore (<[group_id := undo_group last_challenge group]>
                       (_group_data s))
                    (delete_last_where
                       (fun c => Clan_challenge.gid c =? group_id)
                       (challenges s))
                    (subscribes s) users')
  end.
Proof.
  intros Hg. unfold undo. run. rewrite Hg, User_get_or_create_eq.
  cbn [challenges]. unfold authority_of.
  destruct (_get_previous_challenge group_id (challenges s)) as [c |];
    [| reflexivity].
  destruct (users s !! qqid) as [u |]; cbn [default User.authority_group];
    destruct (negb (Clan_challenge.qqid c =? qqid) && _); reflexivity.
Qed.

Lemma undo_unknown self s group_id qqid :
  _group_data s !! group_id = None ->
  undo self group_id qqid s = (inl (GroupError NotInitialized), s).
Proof. intros Hg. unfold undo. run. rewrite Hg. reflexivity. Qed.

(** ** Modify and restart *)

Lemma modify_eq self s group_id group cycle boss_num boss_health :
  _group_data s !! group_id = Some group ->
  modify self group_id cycle boss_num boss_health s =
  match modify_rejects cycle boss_num boss_health with
  | Some m => (inl (InputError m), s)
  | None =>
      let group1 := modify_position cycle boss_num group in
      match match boss_health with
            | Some h => inr h
            | None => full_health self group1
            end with
      | inl e =>
          (inl e, mkStore (<[group_id := group1]> (_group_data s))
                          (challenges s) (subscribes s) (users s))
      | inr h =>
          (inr (status_of (Clan_group.set_boss_health h group1) 0),
           mkStore (<[group_id := Clan_group.set_boss_health h group1]>
                      (_group_data s))
                   (challenges s) (subscribes s) (users s))
      end
  end.
Proof.
  intros Hg. unfold modify, modify_rejects. run.
  destruct (truthy cycle && _); [reflexivity |].
  destruct (truthy boss_num && _); [reflexivity |].
  destruct (truthy boss_health && _); [reflexivity |].
  rewrite Hg. fold (modify_position cycle boss_num group). cbv zeta.
  destruct boss_health as [h |].
  - cbn [_group_data challenges subscribes users].
    rewrite insert_insert_eq. reflexivity.
  - destruct (full_health self (modify_position cycle boss_num group));
      [reflexivity |].
    cbn [_group_data challenges subscribes users].
    rewrite insert_insert_eq. reflexivity.
Qed.

Lemma modify_unknown self s group_id cycle boss_num boss_health :
  _group_data s !! group_id = None ->
  modify self group_id cycle boss_num boss_health s =
  (inl match modify_rejects cycle boss_num boss_health with
       | Some m => InputError m
       | None => GroupError NotInitialized
       end, s).
Proof.
  intros Hg. unfold modify, modify_rejects. run.
  destruct (truthy cycle && _); [reflexivity |].
  destruct (truthy boss_num && _); [reflexivity |].
  destruct (truthy boss_health && _); [reflexivity |].
  rewrite Hg. reflexivity.
Qed.

Lemma restart_unknown self s group_id :
  _group_data s !! group_id = None ->
  restart self group_id s = (inl (GroupError NotInitialized), s).
Proof. intros Hg. unfold restart. run. rewrite Hg. reflexivity. Qed.

(** ** The challenge slot *)

Lemma cancel_application_eq self s group_id group qqid now :
  _group_data s !! group_id = Some group ->
  cancel_application self group_id qqid now s =
  match Clan_group.challenging_member_qq_id group with
  | None => (inl (GroupError NobodyChallenging), s)
  | Some holder =>
      let users' := users_after self qqid group_id s in
      let challenge_duration := now - Clan_group.challenging_start_time group in
      if negb (holder =? qqid) && (authority_of self qqid s >=? 100)
         && (challenge_duration <? 180)
      then (inl (GroupError (ChallengeStarted holder challenge_duration)),
            mkStore (_group_data s) (challenges s) (subscribes s) users')
      else
        let group' := Clan_group.set_challenging_member_qq_id None group in
        (inr (status_of group' 0),
         mkStore (<[group_id := group']> (_group_data s))
                 (challenges s) (subscribes s) users')
  end.
Proof.
  intros Hg. unfold cancel_application. run. rewrite Hg.
  destruct (Clan_group.challenging_member_qq_id group) as [holder |];
    [| reflexivity].
  rewrite User_get_or_create_eq. unfold authority_of. cbv zeta.
  destruct (users s !! qqid) as [u |]; cbn [default User.authority_group];
    destruct (negb (holder =? qqid)); cbn [andb]; try reflexivity;
    destruct (_ >=? 100); cbn [andb]; try reflexivity;
    destruct (_ <? 180); reflexivity.
Qed.

Lemma cancel_application_unknown self s group_id qqid now :
  _group_data s !! group_id = None ->
  cancel_application self group_id qqid now s
  = (inl (GroupError NotInitialized), s).
Proof. intros Hg. unfold cancel_application. run. rewrite Hg. reflexivity. Qed.

Lemma apply_for_challenge_unknown s group_id qqid now :
  _group_data s !! group_id = None ->
  apply_for_challenge group_id qqid now s
  = (inl (GroupError NotInitialized), s).
Proof. intros Hg. unfold apply_for_challenge. run. rewrite Hg. reflexivity. Qed.

(** ** Subscriptions and reads *)

Lemma add_subscribe_unknown s group_id qqid boss_num :
  _group_data s !! group_id = None ->
  add_subscribe group_id qqid boss_num s = (inl (GroupError NotInitialized), s).
Proof. intros Hg. unfold add_subscribe. run. rewrite Hg. reflexivity. Qed.

Lemma boss_status_summary_unknown s group_id :
  _group_data s !! group_id = None ->
  boss_status_summary group_id s = (inl (GroupError NotInitialized), s).
Proof. intros Hg. unfold boss_status_summary. run. rewrite Hg. reflexivity. Qed.

Lemma get_report_unknown s group_id qqid pcrdate :
  _group_data s !! group_id = None ->
  get_report group_id qqid pcrdate s = (inl (GroupError NotInitialized), s).
Proof. intros Hg. unfold get_report. run. rewrite Hg. reflexivity. Qed.

(** [cancel_subscribe] never looks the group up. *)
Lemma cancel_subscribe_eq s group_id qqid boss_num :
  cancel_subscribe group_id qqid boss_num s =
  (inr (Z.of_nat (length (List.filter (same_subscribe group_id qqid boss_num)
                                      (subscribes s)))),
   mkStore (_group_data s) (challenges s)
           (List.filter
              (fun x => negb (same_subscribe group_id qqid boss_num x))
              (subscribes s))
           (users s)).
Proof. reflexivity. Qed.

(** ** The stage table is total where the configuration is complete *)

Lemma py_index_in_range {A} (l : list A) i :
  0 <= i < Z.of_nat (length l) ->
  exists x, py_index l i = inr x /\ In x l.
Proof.
  intros Hi. unfold py_index.
  destruct (Z.ltb_spec i 0); [lia |].
  destruct (Z.leb_spec 0 i); [| lia].
  destruct (Z.ltb_spec i (Z.of_nat (length l))); [| lia].
  cbn [andb].
  destruct (l !! Z.to_nat i) as [x |] eqn:Hx.
  - exists x. split; [reflexivity |].
    apply list_elem_of_In, list_elem_of_lookup. eauto.
  - apply lookup_ge_None in Hx. lia.
Qed.

Lemma _level_by_cycle_range cycle level_4 :
  0 <= _level_by_cycle cycle level_4 < (if level_4 then 4 else 3).
Proof.
  unfold _level_by_cycle.
  destruct (cycle <=? 3); [destruct level_4; lia |].
  destruct (cycle <=? 10); [destruct level_4; lia |].
  destruct level_4; cbn [andb]; [destruct (cycle >=? 35) |]; lia.
Qed.

Lemma row_ok_index row i :
  row_ok row = true -> 0 <= i < 5 ->
  exists h, py_index row i = inr h /\ 0 < h.
Proof.
  unfold row_ok. intros Hrow Hi.
  apply andb_prop in Hrow as [Hlen Hpos]. apply Z.eqb_eq in Hlen.
  destruct (py_index_in_range row i) as (h & Hh & Hin); [lia |].
  exists h. split; [exact Hh |].
  rewrite forallb_forall in Hpos. apply Z.ltb_lt, Hpos, Hin.
Qed.

Lemma full_health_total self group :
  server_ok self (Clan_group.game_server group) (Clan_group.level_4 group)
  = true ->
  1 <= Clan_group.boss_num group <= 5 ->
  exists full, full_health self group = inr full /\ 0 < full.
Proof.
  unfold server_ok, full_health, bossinfo_at, py_getitem.
  intros Hok Hnum.
  destruct (bossinfo self !! Clan_group.game_server group) as [table |];
    [| discriminate].
  apply andb_prop in Hok as [Hlen Hrows]. apply Z.leb_le in Hlen.
  pose proof (_level_by_cycle_range (Clan_group.boss_cycle group)
                (Clan_group.level_4 group)) as Hlevel.
  destruct (py_index_in_range table
              (_level_by_cycle (Clan_group.boss_cycle group)
                 (Clan_group.level_4 group))) as (row & Hrow & Hin); [lia |].
  cbn [and_then]. rewrite Hrow. cbn [and_then].
  rewrite forallb_forall in Hrows.
  apply row_ok_index; [apply Hrows, Hin | lia].
Qed.

Lemma health_in_range_inv self group :
  health_in_range self group = true ->
  server_ok self (Clan_group.game_server group) (Clan_group.level_4 group)
  = true
  /\ 1 <= Clan_group.boss_num group <= 5
  /\ exists full,
       full_health self group = inr full
       /\ 0 < Clan_group.boss_health group <= full.
Proof.
  unfold health_in_range. intros H.
  apply andb_prop in H as [H Hhealth].
  apply andb_prop in H as [H Hhi]. apply andb_prop in H as [Hsrv Hlo].
  apply Z.leb_le in Hlo, Hhi.
  destruct (full_health self group) as [e | full]; [discriminate |].
  apply andb_prop in Hhealth as [Hpos Hle].
  apply Z.ltb_lt in Hpos. apply Z.leb_le in Hle.
  split; [exact Hsrv |]. split; [lia |]. exists full. split; [reflexivity | lia].
Qed.

Lemma health_in_range_intro self group full :
  server_ok self (Clan_group.game_server group) (Clan_group.level_4 group)
  = true ->
  1 <= Clan_group.boss_num group <= 5 ->
  full_health self group = inr full ->
  0 < Clan_group.boss_health group <= full ->
  health_in_range self group = true.
Proof.
  intros Hsrv Hnum Hfull Hhealth. unfold health_in_range.
  rewrite Hsrv, Hfull. cbn [andb].
  destruct (Z.leb_spec 1 (Clan_group.boss_num group)); [| lia].
  destruct (Z.leb_spec (Clan_group.boss_num group) 5); [| lia].
  destruct (Z.ltb_spec 0 (Clan_group.boss_health group)); [| lia].
  destruct (Z.leb_spec (Clan_group.boss_health group) full); [| lia].
  reflexivity.
Qed.

Lemma damage_group_in_range self group amount :
  health_in_range self group = true ->
  0 <= amount < Clan_group.boss_health group ->
  health_in_range self (damage_group group amount) = true.
Proof.
  intros Hin Hamount.
  destruct (health_in_range_inv self group Hin)
    as (Hsrv & Hnum & full & Hfull & Hhealth).
  apply (health_in_range_intro self _ full);
    [exact Hsrv | exact Hnum | exact Hfull | cbn; lia].
Qed.

Lemma next_boss_in_range self group :
  health_in_range self group = true ->
  exists full,
    full_health self (next_boss group) = inr full
    /\ health_in_range self (defeat_group group full) = true.
Proof.
  intros Hin.
  destruct (health_in_range_inv self group Hin) as (Hsrv & Hnum & _).
  destruct (next_boss_fields group) as (Hs & Hl & _ & H5 & Hk).
  assert (Hnum' : 1 <= Clan_group.boss_num (next_boss group) <= 5).
  { destruct (Z.eq_dec (Clan_group.boss_num group) 5) as [E | E].
    - destruct (H5 E) as [-> _]. lia.
    - destruct (Hk E) as [-> _]. lia. }
  assert (Hsrv' : server_ok self (Clan_group.game_server (next_boss group))
                    (Clan_group.level_4 (next_boss group)) = true)
    by (rewrite Hs, Hl; exact Hsrv).
  destruct (full_health_total self (next_boss group) Hsrv' Hnum')
    as (full & Hfull & Hpos).
  exists full. split; [exact Hfull |].
  apply (health_in_range_intro self _ full);
    [exact Hsrv' | exact Hnum' | exact Hfull | cbn; lia].
Qed.

(** ** The groups after a report *)

Lemma damage_group_data self s group_id qqid amount behalfed d t :
  _group_data (snd (damage self group_id qqid amount behalfed d t s))
  = _group_data s
  \/ exists group,
       _group_data s !! group_id = Some group
       /\ 0 <= amount < Clan_group.boss_health group
       /\ _group_data (snd (damage self group_id qqid amount behalfed d t s))
          = <[group_id := damage_group group amount]> (_group_data s).
Proof.
  destruct (damage_challenges self s group_id qqid amount behalfed d t)
    as [_ | (group & Hg & Hamount & _ & ->)].
  - destruct (_group_data s !! group_id) as [group |] eqn:Hg.
    + rewrite (damage_eq _ _ _ _ _ _ _ _ _ Hg). cbv zeta.
      destruct (Z.ltb_spec amount 0); [left; reflexivity |].
      destruct (Z.geb_spec amount (Clan_group.boss_health group));
        [left; reflexivity |].
      destruct (finished_count _ >=? 3); [left; reflexivity |].
      right. exists group. split; [reflexivity |]. split; [lia | reflexivity].
    + rewrite (damage_unknown _ _ _ _ _ _ _ _ Hg). left. reflexivity.
  - right. exists group. split; [exact Hg |]. split; [exact Hamount |].
    reflexivity.
Qed.

Lemma defeat_group_data self s group_id qqid behalfed d t :
  _group_data (snd (defeat self group_id qqid behalfed d t s)) = _group_data s
  \/ exists group,
       _group_data s !! group_id = Some group
       /\ match full_health self (next_boss group) with
          | inl _ =>
              _group_data (snd (defeat self group_id qqid behalfed d t s))
              = <[group_id := next_boss group]> (_group_data s)
          | inr full =>
              _group_data (snd (defeat self group_id qqid behalfed d t s))
              = <[group_id := defeat_group group full]> (_group_data s)
          end.
Proof.
  destruct (_group_data s !! group_id) as [group |] eqn:Hg.
  - rewrite (defeat_eq _ _ _ _ _ _ _ _ Hg). cbv zeta.
    destruct (finished_count _ >=? 3); [left; reflexivity |].
    right. exists group. split; [reflexivity |].
    destruct (full_health self (next_boss group)); reflexivity.
  - rewrite (defeat_unknown _ _ _ _ _ _ _ Hg). left. reflexivity.
Qed.

Lemma run_call_health_in_range self c s group_id group :
  _group_data s !! group_id = Some group ->
  health_in_range self group = true ->
  exists group',
    _group_data (run_call self c s) !! group_id = Some group'
    /\ health_in_range self group' = true.
Proof.
  intros Hg Hin.
  destruct c as [g qqid amount behalfed d t | g qqid behalfed d t];
    cbn [run_call].
  - destruct (damage_group_data self s g qqid amount behalfed d t)
      as [-> | (group0 & Hg0 & Hamount & ->)]; [eauto |].
    destruct (decide (g = group_id)) as [-> | Hne].
    + rewrite lookup_insert_eq. rewrite Hg in Hg0. injection Hg0 as <-.
      eexists. split; [reflexivity |].
      apply damage_group_in_range; assumption.
    + rewrite lookup_insert_ne by exact Hne. eauto.
  - destruct (defeat_group_data self s g qqid behalfed d t)
      as [-> | (group0 & Hg0 & Hcase)]; [eauto |].
    destruct (decide (g = group_id)) as [-> | Hne].
    + rewrite Hg in Hg0. injection Hg0 as <-.
      destruct (next_boss_in_range self group Hin) as (full & Hfull & Hin').
      rewrite Hfull in Hcase. rewrite Hcase, lookup_insert_eq. eauto.
    + destruct (full_health self (next_boss group0)); rewrite Hcase;
        rewrite lookup_insert_ne by exact Hne; eauto.
Qed.

Lemma run_calls_health_in_range self cs s group_id group :
  _group_data s !! group_id = Some group ->
  health_in_range self group = true ->
  exists group',
    _group_data (run_calls self cs s) !! group_id = Some group'
    /\ health_in_range self group' = true.
Proof.
  revert s group. induction cs as [| c cs IH]; intros s group Hg Hin.
  - exists group. split; assumption.
  - cbn [run_calls foldl].
    destruct (run_call_health_in_range self c s group_id group Hg Hin)
      as (group1 & Hg1 & Hin1).
    exact (IH _ _ Hg1 Hin1).
Qed.

(** * The claims *)

(** ** Damage within the health bound *)

(** C5.  On an initialized group, [damage] raises [InputError] and writes
    nothing when the amount is negative or at least the current boss health;
    otherwise, if the attacker has fewer than three finished records that
    battle-day, it returns and the new health is the old health minus
    exactly the amount. *)
Theorem damage_health_bound self s group_id group qqid amount behalfed d t :
  _group_data s !! group_id = Some group ->
  (amount < 0 \/ Clan_group.boss_health group <= amount ->
   exists m,
     damage self group_id qqid amount behalfed d t s
     = (inl (InputError m), s))
  /\ (0 <= amount < Clan_group.boss_health group ->
      finished_count (challenges_of_day group_id (acting qqid behalfed) d
                                        (challenges s)) < 3 ->
      exists status s' group',
        damage self group_id qqid amount behalfed d t s = (inr status, s')
        /\ _group_data s' !! group_id = Some group'
        /\ Clan_group.boss_health group'
           = Clan_group.boss_health group - amount
        /\ Clan_group.boss_cycle group' = Clan_group.boss_cycle group
        /\ Clan_group.boss_num group' = Clan_group.boss_num group
        /\ health status = Clan_group.boss_health group - amount).
Proof.
  intros Hg. rewrite (damage_eq _ _ _ _ _ _ _ _ _ Hg). split.
  - intros Hbad.
    destruct (Z.ltb_spec amount 0) as [Hneg | Hnn]; [eauto |].
    destruct (Z.geb_spec amount (Clan_group.boss_health group)) as [Hge | Hlt];
      [eauto | lia].
  - intros [Hnn Hlt] Hquota.
    destruct (Z.ltb_spec amount 0); [lia |].
    destruct (Z.geb_spec amount (Clan_group.boss_health group)); [lia |].
    cbv zeta.
    destruct (Z.geb_spec
                (finished_count
                   (challenges_of_day group_id (acting qqid behalfed) d
                                      (challenges s))) 3); [lia |].
    eexists _, _, _. split; [reflexivity |].
    cbn [_group_data]. rewrite lookup_insert_eq.
    split; [reflexivity |]. repeat split.
Qed.

Lemma damage_health_bound_witness :
  _group_data demo_store !! 1 = Some demo_group
  /\ (exists m, damage demo_self 1 7 100 None 0 0 demo_store
                = (inl (InputError m), demo_store))
  /\ (exists status s',
        damage demo_self 1 7 10 None 0 0 demo_store = (inr status, s')
        /\ health status = 90).
Proof.
  split; [reflexivity |]. split.
  - apply (damage_health_bound demo_self demo_store 1 demo_group 7 100 None 0 0);
      [reflexivity | right; cbn; lia].
  - destruct (damage_health_bound demo_self demo_store 1 demo_group 7 10
                None 0 0 eq_refl) as [_ H].
    destruct H as (status & s' & group' & Hrun & _ & _ & _ & _ & Hh);
      [cbn; lia | vm_compute; reflexivity |].
    exists status, s'. split; [exact Hrun | exact Hh].
Defined.

(** ** Rotation of the bosses on defeat *)

(** C7.  On an initialized group, a [defeat] that returns moves boss 5 to
    boss 1 of the next cycle and boss [k < 5] to boss [k+1] of the same
    cycle; the new health is the entry of the stage table for the new cycle
    and boss, in the tier the specification describes (0 up to cycle 3, 1 up
    to cycle 10, 2 beyond, 3 in hard mode from cycle 35 on); nobody holds the
    challenge slot afterwards.  The call does return whenever the attacker
    has fewer than three finished records that day and the table has the
    entry. *)
Theorem defeat_rotation self s group_id group qqid behalfed d t :
  _group_data s !! group_id = Some group ->
  (forall status s',
     defeat self group_id qqid behalfed d t s = (inr status, s') ->
     exists group',
       _group_data s' !! group_id = Some group'
       /\ (Clan_group.boss_num group = 5 ->
           Clan_group.boss_num group' = 1
           /\ Clan_group.boss_cycle group' = Clan_group.boss_cycle group + 1)
       /\ (Clan_group.boss_num group < 5 ->
           Clan_group.boss_num group' = Clan_group.boss_num group + 1
           /\ Clan_group.boss_cycle group' = Clan_group.boss_cycle group)
       /\ bossinfo_at self (Clan_group.game_server group)
            (tier_of_spec (Clan_group.boss_cycle group')
                          (Clan_group.level_4 group))
            (Clan_group.boss_num group' - 1)
          = inr (Clan_group.boss_health group')
       /\ Clan_group.challenging_member_qq_id group' = None
       /\ status = status_of group' 0)
  /\ (forall full,
        finished_count (challenges_of_day group_id (acting qqid behalfed) d
                                          (challenges s)) < 3 ->
        full_health self (next_boss group) = inr full ->
        exists status s',
          defeat self group_id qqid behalfed d t s = (inr status, s')).
Proof.
  intros Hg. rewrite (defeat_eq _ _ _ _ _ _ _ _ Hg). cbv zeta.
  destruct (next_boss_fields group) as (Hsrv & Hlv & _ & H5 & Hk).
  split.
  - intros status s'.
    destruct (finished_count _ >=? 3); [discriminate |].
    destruct (full_health self (next_boss group)) as [e | full] eqn:Hfull;
      [discriminate |].
    intros [= <- <-].
    exists (defeat_group group full). cbn [_group_data].
    rewrite lookup_insert_eq. split; [reflexivity |].
    split; [exact H5 |].
    split; [intros Hlt; apply Hk; lia |].
    split; [| split; reflexivity].
    unfold full_health in Hfull.
    rewrite Hsrv, Hlv, _level_by_cycle_spec in Hfull. exact Hfull.
  - intros full Hquota Hfull.
    destruct (Z.geb_spec
                (finished_count
                   (challenges_of_day group_id (acting qqid behalfed) d
                                      (challenges s))) 3); [lia |].
    rewrite Hfull. eauto.
Qed.

Lemma defeat_rotation_witness :
  _group_data demo_store !! 1 = Some demo_group
  /\ exists status s',
       defeat demo_self 1 7 None 0 0 demo_store = (inr status, s')
       /\ status = mkBossStatus 1 2 200 0.
Proof.
  split; [reflexivity |].
  destruct (defeat_rotation demo_self demo_store 1 demo_group 7 None 0 0
              eq_refl) as [Hshape Hreturns].
  destruct (Hreturns 200) as (status & s' & Hrun);
    [vm_compute; reflexivity | reflexivity |].
  exists status, s'. split; [exact Hrun |].
  destruct (Hshape status s' Hrun)
    as (group' & _ & _ & Hk & Hfull & _ & ->).
  destruct Hk as [Hnum Hcycle]; [cbn; lia |].
  unfold status_of. rewrite Hnum, Hcycle.
  rewrite Hnum, Hcycle in Hfull. cbn in Hfull.
  injection Hfull as <-. reflexivity.
Defined.

(** ** The daily quota *)

(** C2.  Starting from a ledger with at most three finished (that is,
    non-continuation) records per group, attacker and battle-day, any
    sequence of [damage] and [defeat] calls keeps it so; and once an attacker
    has three of them, a further [damage] or [defeat] of that attacker on
    that day raises [InputError], appends no record and leaves every group as
    it was. *)
Theorem quota_at_most_three self calls s :
  quota_ok s ->
  quota_ok (run_calls self calls s)
  /\ forall group_id group qqid behalfed d t amount,
       _group_data (run_calls self calls s) !! group_id = Some group ->
       finished_count
         (challenges_of_day group_id (acting qqid behalfed) d
                            (challenges (run_calls self calls s))) = 3 ->
       (exists m s',
          damage self group_id qqid amount behalfed d t
                 (run_calls self calls s)
          = (inl (InputError m), s')
          /\ challenges s' = challenges (run_calls self calls s)
          /\ _group_data s' = _group_data (run_calls self calls s)
          /\ (0 <= amount < Clan_group.boss_health group ->
              m = DailyQuotaReached))
       /\ (exists s',
             defeat self group_id qqid behalfed d t (run_calls self calls s)
             = (inl (InputError DailyQuotaReached), s')
             /\ challenges s' = challenges (run_calls self calls s)
             /\ _group_data s' = _group_data (run_calls self calls s)).
Proof.
  intros Hok. split; [apply run_calls_quota_ok, Hok |].
  intros group_id group qqid behalfed d t amount Hg Hcount. split.
  - apply (damage_at_quota _ _ _ _ _ _ _ _ _ Hg). lia.
  - apply (defeat_at_quota _ _ _ _ _ _ _ _ Hg). lia.
Qed.

Lemma quota_at_most_three_witness :
  quota_ok demo_store
  /\ quota_ok (run_calls demo_self three_reports demo_store)
  /\ exists s',
       damage demo_self 1 7 5 None 0 3
              (run_calls demo_self three_reports demo_store)
       = (inl (InputError DailyQuotaReached), s')
       /\ challenges s'
          = challenges (run_calls demo_self three_reports demo_store).
Proof.
  assert (Hok : quota_ok demo_store) by (intros g q d; vm_compute; discriminate).
  split; [exact Hok |].
  destruct (quota_at_most_three demo_self three_reports demo_store Hok)
    as [Hinv Hfourth].
  split; [exact Hinv |].
  destruct (Hfourth 1
              (Clan_group.mk 1 "cn" 1 2 200 false None 0) 7 None 0 3 5)
    as [(m & s' & Hrun & Hsame & _ & Hm) _];
    [vm_compute; reflexivity | vm_compute; reflexivity |].
  exists s'. rewrite Hrun, Hm; [split; [reflexivity | exact Hsame] | cbn; lia].
Defined.

(** ** Continuation after a kill *)

(** C1, as the engine has it.  Take an initialized group and an attacker
    with fewer than three finished (non-continuation) records on the
    battle-day, whose latest record of that day is [c].  If [c] is a kill
    ([boss_health_ramain = 0]) and not a continuation, a [damage] within the
    health bound returns, a [defeat] returns when the stage table has the
    next entry, and both append a record flagged continuation that leaves
    the count of finished records unchanged.  If [c] is itself a
    continuation, the appended record is not flagged and counts: one free
    follow-up per kill, never a chain. *)
Theorem continuation_once self s group_id group qqid behalfed d t amount c :
  _group_data s !! group_id = Some group ->
  last (challenges_of_day group_id (acting qqid behalfed) d (challenges s))
  = Some c ->
  finished_count (challenges_of_day group_id (acting qqid behalfed) d
                                    (challenges s)) < 3 ->
  0 <= amount < Clan_group.boss_health group ->
  (Clan_challenge.boss_health_ramain c = 0 ->
   Clan_challenge.is_continue c = false ->
   (exists status,
      fst (damage self group_id qqid amount behalfed d t s) = inr status)
   /\ recorded_as true group_id (acting qqid behalfed) d s
        (snd (damage self group_id qqid amount behalfed d t s))
   /\ (forall full, full_health self (next_boss group) = inr full ->
       exists status,
         fst (defeat self group_id qqid behalfed d t s) = inr status)
   /\ recorded_as true group_id (acting qqid behalfed) d s
        (snd (defeat self group_id qqid behalfed d t s)))
  /\ (Clan_challenge.is_continue c = true ->
      recorded_as false group_id (acting qqid behalfed) d s
        (snd (damage self group_id qqid amount behalfed d t s))
      /\ recorded_as false group_id (acting qqid behalfed) d s
           (snd (defeat self group_id qqid behalfed d t s))).
Proof.
  intros Hg Hlast Hquota Hamount.
  pose proof (damage_recorded self s group_id group qqid amount behalfed d t
                Hg Hamount Hquota) as Hdamage.
  pose proof (defeat_recorded self s group_id group qqid behalfed d t
                Hg Hquota) as Hdefeat.
  unfold continues in Hdamage, Hdefeat. rewrite Hlast in Hdamage, Hdefeat.
  split.
  - intros Hkill Hfirst. rewrite Hkill, Hfirst in Hdamage, Hdefeat.
    cbn in Hdamage, Hdefeat.
    split; [| split; [exact Hdamage | split; [| exact Hdefeat]]].
    + destruct (damage_returns self s group_id group qqid amount behalfed
                  d t Hg Hamount Hquota) as (s' & ->).
      eexists. reflexivity.
    + intros full Hfull.
      destruct (defeat_returns self s group_id group qqid behalfed d t full
                  Hg Hquota Hfull) as (s' & ->).
      eexists. reflexivity.
  - intros Hchain. rewrite Hchain, andb_false_r in Hdamage, Hdefeat.
    split; assumption.
Qed.

Lemma continuation_once_witness :
  _group_data first_kill_store !! 1 = Some second_boss
  /\ last (challenges_of_day 1 7 0 (challenges first_kill_store))
     = Some first_kill
  /\ 0 <= 10 < Clan_group.boss_health second_boss
  /\ finished_count (challenges_of_day 1 7 0 (challenges first_kill_store)) < 3
  /\ (exists status,
        fst (damage demo_self 1 7 10 None 0 1 first_kill_store) = inr status)
  /\ recorded_as true 1 7 0 first_kill_store
       (snd (damage demo_self 1 7 10 None 0 1 first_kill_store)).
Proof.
  split; [reflexivity |]. split; [reflexivity |]. split; [cbn; lia |].
  split; [vm_compute; reflexivity |].
  destruct (continuation_once demo_self first_kill_store 1 second_boss 7 None
              0 1 10 first_kill eq_refl eq_refl) as [Hkill _];
    [vm_compute; reflexivity | cbn; lia |].
  destruct Hkill as (Hruns & Hflag & _); [reflexivity | reflexivity |].
  split; [exact Hruns | exact Hflag].
Defined.

(** C1 as stated fails: after two hits and a kill, the attacker's latest
    record of the day is a kill that is not a continuation, yet the follow-up
    is refused for the three finished records, whether reported as [damage]
    or as [defeat], and nothing is appended. *)
Lemma continuation_after_third_kill_refused :
  (exists c,
     last (challenges_of_day 1 7 0 (challenges third_kill_store)) = Some c
     /\ Clan_challenge.boss_health_ramain c = 0
     /\ Clan_challenge.is_continue c = false)
  /\ finished_count (challenges_of_day 1 7 0 (challenges third_kill_store)) = 3
  /\ _group_data third_kill_store !! 1 = Some second_boss
  /\ fst (damage demo_self 1 7 10 None 0 3 third_kill_store)
     = inl (InputError DailyQuotaReached)
  /\ fst (defeat demo_self 1 7 None 0 3 third_kill_store)
     = inl (InputError DailyQuotaReached)
  /\ challenges (snd (damage demo_self 1 7 10 None 0 3 third_kill_store))
     = challenges third_kill_store.
Proof.
  split; [eexists; split; [reflexivity | split; reflexivity] |].
  repeat split; vm_compute; reflexivity.
Qed.

(** ** Validation in modify *)

(** C3, at the inputs where the engine departs from it.  A provided value of
    0 is not rejected: [modify] with [boss_num = 0] returns, stores boss
    number 0 and takes the health of the last boss of the tier (index [-1]);
    with cycle, boss number and health all 0 it returns and stores the three
    zeros. *)
Theorem modify_accepts_zero :
  fst (modify demo_self 1 None (Some 0) None demo_store)
  = inr (mkBossStatus 1 0 500 0)
  /\ fst (modify demo_self 1 (Some 0) (Some 0) (Some 0) demo_store)
     = inr (mkBossStatus 0 0 0 0)
  /\ fst (modify demo_self 1 None (Some (-1)) None demo_store)
     = inl (InputError BadBossNum).
Proof. repeat split; vm_compute; reflexivity. Qed.

(** ** Operations on a group that was never created *)

(** C4, as the engine has it.  On a group identifier without a group,
    [damage], [defeat], [undo], [modify], [restart], [apply_for_challenge],
    [cancel_application], [add_subscribe], [boss_status_summary] and
    [get_report] raise and leave the store as it was.  The error is
    [GroupError], except that [damage] with a negative amount and [modify]
    with a rejected argument raise [InputError] before the group is looked
    up.  [cancel_subscribe] does not look the group up: it returns the
    number of subscription rows it deleted.  No operation creates the
    group. *)
Theorem unknown_group_fails self s group_id :
  _group_data s !! group_id = None ->
  (forall qqid amount behalfed d t,
     damage self group_id qqid amount behalfed d t s
     = (inl (if amount <? 0 then InputError NegativeDamage
             else GroupError NotInitialized), s))
  /\ (forall qqid behalfed d t,
        defeat self group_id qqid behalfed d t s
        = (inl (GroupError NotInitialized), s))
  /\ (forall qqid,
        undo self group_id qqid s = (inl (GroupError NotInitialized), s))
  /\ (forall cycle boss_num boss_health,
        modify self group_id cycle boss_num boss_health s
        = (inl match modify_rejects cycle boss_num boss_health with
               | Some m => InputError m
               | None => GroupError NotInitialized
               end, s))
  /\ restart self group_id s = (inl (GroupError NotInitialized), s)
  /\ (forall qqid now,
        apply_for_challenge group_id qqid now s
        = (inl (GroupError NotInitialized), s))
  /\ (forall qqid now,
        cancel_application self group_id qqid now s
        = (inl (GroupError NotInitialized), s))
  /\ (forall qqid boss_num,
        add_subscribe group_id qqid boss_num s
        = (inl (GroupError NotInitialized), s))
  /\ boss_status_summary group_id s = (inl (GroupError NotInitialized), s)
  /\ (forall qqid pcrdate,
        get_report group_id qqid pcrdate s
        = (inl (GroupError NotInitialized), s))
  /\ (forall qqid boss_num,
        exists deleted_counts s',
          cancel_subscribe group_id qqid boss_num s = (inr deleted_counts, s')
          /\ _group_data s' !! group_id = None).
Proof.
  intros Hg.
  split; [intros; apply damage_unknown, Hg |].
  split; [intros; apply defeat_unknown, Hg |].
  split; [intros; apply undo_unknown, Hg |].
  split; [intros; apply modify_unknown, Hg |].
  split; [apply restart_unknown, Hg |].
  split; [intros; apply apply_for_challenge_unknown, Hg |].
  split; [intros; apply cancel_application_unknown, Hg |].
  split; [intros; apply add_subscribe_unknown, Hg |].
  split; [apply boss_status_summary_unknown, Hg |].
  split; [intros; apply get_report_unknown, Hg |].
  intros qqid boss_num. rewrite cancel_subscribe_eq.
  eexists _, _. split; [reflexivity | exact Hg].
Qed.

Lemma unknown_group_fails_witness :
  _group_data empty_store !! 1 = None
  /\ defeat demo_self 1 7 None 0 0 empty_store
     = (inl (GroupError NotInitialized), empty_store)
  /\ damage demo_self 1 7 (-5) None 0 0 empty_store
     = (inl (InputError NegativeDamage), empty_store).
Proof.
  split; [reflexivity |].
  destruct (unknown_group_fails demo_self empty_store 1 eq_refl)
    as (Hdamage & Hdefeat & _).
  split; [apply Hdefeat | apply (Hdamage 7 (-5) None 0 0)].
Defined.

(** C4 as stated fails: cancelling a subscription in a group that was never
    created does not fail, it returns 0 deleted rows. *)
Lemma cancel_subscribe_unknown_group_returns :
  _group_data empty_store !! 1 = None
  /\ fst (cancel_subscribe 1 7 0 empty_store) = inr 0.
Proof. split; reflexivity. Qed.

(** ** Undo of a hit *)

(** C8.  On an initialized group, when [damage] returns, an [undo] by the
    member the record was made for returns too, puts cycle, boss and health
    back to what they were before the [damage], and the ledger is again the
    one before it; and [undo] raises [GroupError] when the ledger has no
    record of the group. *)
Theorem damage_undo_roundtrip self s group_id group qqid amount behalfed d t :
  _group_data s !! group_id = Some group ->
  (forall status s1,
     damage self group_id qqid amount behalfed d t s = (inr status, s1) ->
     exists status' s2 group2,
       undo self group_id (acting qqid behalfed) s1 = (inr status', s2)
       /\ _group_data s2 !! group_id = Some group2
       /\ Clan_group.boss_cycle group2 = Clan_group.boss_cycle group
       /\ Clan_group.boss_num group2 = Clan_group.boss_num group
       /\ Clan_group.boss_health group2 = Clan_group.boss_health group
       /\ challenges s2 = challenges s)
  /\ (List.filter (fun c => Clan_challenge.gid c =? group_id) (challenges s)
      = [] ->
      forall requester,
      exists s',
        undo self group_id requester s
        = (inl (GroupError NoChallengeRecord), s')
        /\ _group_data s' = _group_data s
        /\ challenges s' = challenges s).
Proof.
  intros Hg. split.
  - intros status s1 Hrun.
    destruct (damage_challenges self s group_id qqid amount behalfed d t)
      as [Hsame | (group' & Hg' & _ & _ & Heq)].
    + exfalso. revert Hsame Hrun.
      rewrite (damage_eq _ _ _ _ _ _ _ _ _ Hg). cbv zeta.
      destruct (amount <? 0); [discriminate |].
      destruct (amount >=? Clan_group.boss_health group); [discriminate |].
      destruct (finished_count _ >=? 3); [discriminate |].
      cbn [snd challenges]. intros Hsame _.
      apply (f_equal length) in Hsame. rewrite length_app in Hsame.
      cbn [length] in Hsame. lia.
    + rewrite Hg in Hg'. injection Hg' as <-.
      rewrite Heq in Hrun. injection Hrun as _ <-.
      set (r := damage_record group group_id qqid amount behalfed d t
                              (challenges s)).
      assert (Hr : (fun c => Clan_challenge.gid c =? group_id) r = true)
        by apply Z.eqb_refl.
      erewrite undo_eq; [| cbn [_group_data]; apply lookup_insert_eq].
      cbv zeta. cbn [challenges _group_data subscribes].
      unfold _get_previous_challenge.
      rewrite (last_filter_snoc _ _ _ Hr).
      replace (Clan_challenge.qqid r =? acting qqid behalfed) with true
        by (symmetry; apply Z.eqb_refl).
      cbn [negb andb].
      rewrite (delete_last_where_snoc _ _ _ Hr), insert_insert_eq.
      eexists _, _, _. split; [reflexivity |].
      cbn [_group_data challenges]. rewrite lookup_insert_eq.
      split; [reflexivity |].
      repeat split. cbn. lia.
  - intros Hnone requester.
    rewrite (undo_eq _ _ _ _ _ Hg). cbv zeta.
    unfold _get_previous_challenge. rewrite Hnone. cbn [last].
    eexists. repeat split.
Qed.

Lemma damage_undo_roundtrip_witness :
  _group_data demo_store !! 1 = Some demo_group
  /\ (exists status s1 status' s2,
        damage demo_self 1 7 10 None 0 0 demo_store = (inr status, s1)
        /\ undo demo_self 1 7 s1 = (inr status', s2)
        /\ challenges s2 = challenges demo_store)
  /\ exists s',
       undo demo_self 1 7 demo_store
       = (inl (GroupError NoChallengeRecord), s').
Proof.
  split; [reflexivity |].
  destruct (damage_undo_roundtrip demo_self demo_store 1 demo_group 7 10 None
              0 0 eq_refl) as [Hround Hempty].
  split.
  - destruct (Hround (mkBossStatus 1 1 90 0)
                (snd (damage demo_self 1 7 10 None 0 0 demo_store)))
      as (status' & s2 & group2 & Hundo & _ & _ & _ & _ & Hledger);
      [reflexivity |].
    exists (mkBossStatus 1 1 90 0),
           (snd (damage demo_self 1 7 10 None 0 0 demo_store)), status', s2.
    split; [reflexivity | split; [exact Hundo | exact Hledger]].
  - destruct (Hempty eq_refl 7) as (s' & Hrun & _).
    exists s'. exact Hrun.
Defined.

(** ** Cancelling a claim of the challenge slot *)

(** C9, as the engine has it.  On an initialized group,
    [cancel_application] raises [GroupError] when nobody holds the slot.
    When [holder] holds it, a cancel by the holder returns and frees the
    slot at once; a cancel by another requester whose privilege level is 100
    or more is refused with a [GroupError] carrying the holder and the
    elapsed seconds while fewer than 180 seconds have passed since the claim,
    and from 180 seconds on it returns and frees the slot. *)
Theorem cancel_application_window self s group_id group qqid now :
  _group_data s !! group_id = Some group ->
  (Clan_group.challenging_member_qq_id group = None ->
   cancel_application self group_id qqid now s
   = (inl (GroupError NobodyChallenging), s))
  /\ (forall holder,
        Clan_group.challenging_member_qq_id group = Some holder ->
        (qqid = holder ->
         exists status s' group',
           cancel_application self group_id qqid now s = (inr status, s')
           /\ _group_data s' !! group_id = Some group'
           /\ Clan_group.challenging_member_qq_id group' = None)
        /\ (qqid <> holder ->
            100 <= authority_of self qqid s ->
            (now - Clan_group.challenging_start_time group < 180 ->
             exists s',
               cancel_application self group_id qqid now s
               = (inl (GroupError
                         (ChallengeStarted holder
                            (now - Clan_group.challenging_start_time group))),
                  s')
               /\ _group_data s' = _group_data s)
            /\ (180 <= now - Clan_group.challenging_start_time group ->
                exists status s' group',
                  cancel_application self group_id qqid now s
                  = (inr status, s')
                  /\ _group_data s' !! group_id = Some group'
                  /\ Clan_group.challenging_member_qq_id group' = None))).
Proof.
  intros Hg. rewrite (cancel_application_eq _ _ _ _ _ _ Hg). split.
  - intros ->. reflexivity.
  - intros holder ->. cbv zeta. split.
    + intros <-. rewrite Z.eqb_refl. cbn [negb andb].
      eexists _, _, _. split; [reflexivity |].
      cbn [_group_data]. rewrite lookup_insert_eq. split; reflexivity.
    + intros Hother Hlevel.
      destruct (Z.eqb_spec holder qqid) as [-> | _]; [congruence |].
      destruct (Z.geb_spec (authority_of self qqid s) 100); [| lia].
      cbn [negb andb]. split; intros Helapsed.
      * destruct (Z.ltb_spec
                    (now - Clan_group.challenging_start_time group) 180);
          [| lia].
        eexists. split; reflexivity.
      * destruct (Z.ltb_spec
                    (now - Clan_group.challenging_start_time group) 180);
          [lia |].
        eexists _, _, _. split; [reflexivity |].
        cbn [_group_data]. rewrite lookup_insert_eq. split; reflexivity.
Qed.

Lemma cancel_application_window_witness :
  _group_data claimed_store !! 1
  = Some (Clan_group.mk 1 "cn" 1 1 100 false (Some 2) 1000)
  /\ (exists s',
        cancel_application demo_self 1 3 1179 claimed_store
        = (inl (GroupError (ChallengeStarted 2 179)), s'))
  /\ (exists status s',
        cancel_application demo_self 1 3 1180 claimed_store = (inr status, s'))
  /\ (exists status s',
        cancel_application demo_self 1 2 1000 claimed_store = (inr status, s')).
Proof.
  split; [reflexivity |].
  split; [| split].
  - destruct (cancel_application_window demo_self claimed_store 1
                (Clan_group.mk 1 "cn" 1 1 100 false (Some 2) 1000) 3 1179
                eq_refl) as [_ Hheld].
    destruct (Hheld 2 eq_refl) as [_ Hother].
    destruct Hother as [Hearly _]; [lia | vm_compute; discriminate |].
    destruct Hearly as (s' & Hrun & _); [cbn; lia |].
    exists s'. exact Hrun.
  - destruct (cancel_application_window demo_self claimed_store 1
                (Clan_group.mk 1 "cn" 1 1 100 false (Some 2) 1000) 3 1180
                eq_refl) as [_ Hheld].
    destruct (Hheld 2 eq_refl) as [_ Hother].
    destruct Hother as [_ Hlate]; [lia | vm_compute; discriminate |].
    destruct Hlate as (status & s' & group' & Hrun & _); [cbn; lia |].
    exists status, s'. exact Hrun.
  - destruct (cancel_application_window demo_self claimed_store 1
                (Clan_group.mk 1 "cn" 1 1 100 false (Some 2) 1000) 2 1000
                eq_refl) as [_ Hheld].
    destruct (Hheld 2 eq_refl) as [Hholder _].
    destruct Hholder as (status & s' & group' & Hrun & _); [reflexivity |].
    exists status, s'. exact Hrun.
Defined.

(** C9 as stated fails: administrator 4, who is not the holder, cancels the
    claim of member 2 in the very second it was made. *)
Lemma cancel_by_administrator_not_delayed :
  _group_data claimed_store !! 1
  = Some (Clan_group.mk 1 "cn" 1 1 100 false (Some 2) 1000)
  /\ authority_of demo_self 4 claimed_store = 10
  /\ fst (cancel_application demo_self 1 4 1000 claimed_store)
     = inr (mkBossStatus 1 1 100 0)
  /\ (Clan_group.challenging_member_qq_id
        <$> _group_data (snd (cancel_application demo_self 1 4 1000
                                                 claimed_store)) !! 1)
     = Some None.
Proof. repeat split; vm_compute; reflexivity. Qed.

(** C10.  When [holder] holds the slot of an initialized group, a cancel by
    a requester other than the holder whose privilege level is below 100
    returns and frees the slot, whatever the time; and a cancel is refused
    for the elapsed time only if the requester is not the holder, has level
    100 or more, and fewer than 180 seconds have passed. *)
Theorem cancel_application_privileged self s group_id group qqid holder :
  _group_data s !! group_id = Some group ->
  Clan_group.challenging_member_qq_id group = Some holder ->
  (qqid <> holder ->
   authority_of self qqid s < 100 ->
   forall now,
   exists status s' group',
     cancel_application self group_id qqid now s = (inr status, s')
     /\ _group_data s' !! group_id = Some group'
     /\ Clan_group.challenging_member_qq_id group' = None)
  /\ (forall now who seconds s',
        cancel_application self group_id qqid now s
        = (inl (GroupError (ChallengeStarted who seconds)), s') ->
        qqid <> holder
        /\ 100 <= authority_of self qqid s
        /\ now - Clan_group.challenging_start_time group < 180).
Proof.
  intros Hg Hheld. split.
  - intros Hother Hlevel now.
    rewrite (cancel_application_eq _ _ _ _ _ _ Hg), Hheld. cbv zeta.
    destruct (Z.geb_spec (authority_of self qqid s) 100); [lia |].
    rewrite andb_false_r. cbn [andb].
    eexists _, _, _. split; [reflexivity |].
    cbn [_group_data]. rewrite lookup_insert_eq. split; reflexivity.
  - intros now who seconds s'.
    rewrite (cancel_application_eq _ _ _ _ _ _ Hg), Hheld. cbv zeta.
    destruct (Z.eqb_spec holder qqid) as [-> | Hother]; cbn [negb andb];
      [discriminate |].
    destruct (Z.geb_spec (authority_of self qqid s) 100); cbn [andb];
      [| discriminate].
    destruct (Z.ltb_spec (now - Clan_group.challenging_start_time group) 180);
      [| discriminate].
    intros _. repeat split; [congruence | lia | lia].
Qed.

Lemma cancel_application_privileged_witness :
  _group_data claimed_store !! 1
  = Some (Clan_group.mk 1 "cn" 1 1 100 false (Some 2) 1000)
  /\ 4 <> 2
  /\ authority_of demo_self 4 claimed_store < 100
  /\ exists status s',
       cancel_application demo_self 1 4 1000 claimed_store = (inr status, s').
Proof.
  split; [reflexivity |]. split; [lia |]. split; [vm_compute; reflexivity |].
  destruct (cancel_application_privileged demo_self claimed_store 1
              (Clan_group.mk 1 "cn" 1 1 100 false (Some 2) 1000) 4 2
              eq_refl eq_refl) as [Hfree _].
  destruct (Hfree ltac:(lia) ltac:(vm_compute; reflexivity) 1000)
    as (status & s' & group' & Hrun & _).
  exists status, s'. exact Hrun.
Defined.

(** ** Bounds on the health *)

(** C6, as the engine has it.  On an initialized group: a [damage] that
    returns lowers the health by the amount, so the health never rises and
    falls strictly when the amount is positive (an amount of 0 is accepted);
    the health is set to the stage-table entry of the group's cycle and boss
    by a [defeat] that returns and also by a [modify] without a health
    argument, which advances no boss when it is given no position either;
    and if the boss is one of the five with a positive health of at most the
    table entry, over a server whose table is complete and positive, then
    after any sequence of [damage] and [defeat] calls this is still so: the
    health stays positive and at most, possibly equal to, the full health. *)
Theorem health_bounds self s group_id group :
  _group_data s !! group_id = Some group ->
  (forall qqid amount behalfed d t status s',
     damage self group_id qqid amount behalfed d t s = (inr status, s') ->
     exists group',
       _group_data s' !! group_id = Some group'
       /\ Clan_group.boss_health group' = Clan_group.boss_health group - amount
       /\ Clan_group.boss_health group' <= Clan_group.boss_health group
       /\ (0 < amount ->
           Clan_group.boss_health group' < Clan_group.boss_health group))
  /\ (forall qqid behalfed d t status s',
        defeat self group_id qqid behalfed d t s = (inr status, s') ->
        exists group',
          _group_data s' !! group_id = Some group'
          /\ full_health self group' = inr (Clan_group.boss_health group'))
  /\ (forall cycle boss_num status s',
        modify self group_id cycle boss_num None s = (inr status, s') ->
        exists group',
          _group_data s' !! group_id = Some group'
          /\ full_health self group' = inr (Clan_group.boss_health group')
          /\ (cycle = None -> boss_num = None ->
              Clan_group.boss_cycle group' = Clan_group.boss_cycle group
              /\ Clan_group.boss_num group' = Clan_group.boss_num group))
  /\ (health_in_range self group = true ->
      forall calls,
      exists group' full,
        _group_data (run_calls self calls s) !! group_id = Some group'
        /\ 1 <= Clan_group.boss_num group' <= 5
        /\ full_health self group' = inr full
        /\ 0 < Clan_group.boss_health group' <= full).
Proof.
  intros Hg. split; [| split; [| split]].
  - intros qqid amount behalfed d t status s'.
    rewrite (damage_eq _ _ _ _ _ _ _ _ _ Hg). cbv zeta.
    destruct (Z.ltb_spec amount 0); [discriminate |].
    destruct (amount >=? Clan_group.boss_health group); [discriminate |].
    destruct (finished_count _ >=? 3); [discriminate |].
    intros [= _ <-]. exists (damage_group group amount).
    cbn [_group_data]. rewrite lookup_insert_eq.
    split; [reflexivity |]. cbn. lia.
  - intros qqid behalfed d t status s'.
    rewrite (defeat_eq _ _ _ _ _ _ _ _ Hg). cbv zeta.
    destruct (finished_count _ >=? 3); [discriminate |].
    destruct (full_health self (next_boss group)) as [e | full] eqn:Hfull;
      [discriminate |].
    intros [= _ <-]. exists (defeat_group group full).
    cbn [_group_data]. rewrite lookup_insert_eq.
    split; [reflexivity | exact Hfull].
  - intros cycle boss_num status s'.
    rewrite (modify_eq _ _ _ _ _ _ _ Hg).
    destruct (modify_rejects cycle boss_num None); [discriminate |].
    cbv zeta.
    destruct (full_health self (modify_position cycle boss_num group))
      as [e | full] eqn:Hfull; [discriminate |].
    intros [= _ <-].
    exists (Clan_group.set_boss_health full
              (modify_position cycle boss_num group)).
    cbn [_group_data]. rewrite lookup_insert_eq.
    split; [reflexivity |]. split; [exact Hfull |].
    intros -> ->. split; reflexivity.
  - intros Hin calls.
    destruct (run_calls_health_in_range self calls s group_id group Hg Hin)
      as (group' & Hg' & Hin').
    destruct (health_in_range_inv self group' Hin')
      as (_ & Hnum & full & Hfull & Hhealth).
    exists group', full. repeat split; try assumption; lia.
Qed.

Lemma health_bounds_witness :
  _group_data demo_store !! 1 = Some demo_group
  /\ health_in_range demo_self demo_group = true
  /\ exists group' full,
       _group_data (run_calls demo_self three_reports demo_store) !! 1
       = Some group'
       /\ full_health demo_self group' = inr full
       /\ 0 < Clan_group.boss_health group' <= full.
Proof.
  split; [reflexivity |]. split; [reflexivity |].
  destruct (health_bounds demo_self demo_store 1 demo_group eq_refl)
    as (_ & _ & _ & Hinv).
  destruct (Hinv eq_refl three_reports)
    as (group' & full & Hg' & _ & Hfull & Hhealth).
  exists group', full. split; [exact Hg' | split; [exact Hfull | exact Hhealth]].
Defined.

(** C6 as stated fails in each of its parts: a [damage] of 0 returns and
    the health does not fall; a [modify] without arguments sets the health
    back to the table entry while the boss stays the same; and after a
    defeat the next boss has exactly its full health, which is not below
    it. *)
Lemma health_claims_refuted :
  fst (damage demo_self 1 7 0 None 0 0 demo_store)
  = inr (mkBossStatus 1 1 (Clan_group.boss_health demo_group) 0)
  /\ fst (modify demo_self 1 None None None
                 (snd (damage demo_self 1 7 10 None 0 0 demo_store)))
     = inr (mkBossStatus 1 1 100 0)
  /\ fst (damage demo_self 1 7 10 None 0 0 demo_store)
     = inr (mkBossStatus 1 1 90 0)
  /\ _group_data (snd (defeat demo_self 1 7 None 0 0 demo_store)) !! 1
     = Some second_boss
  /\ full_health demo_self second_boss
     = inr (Clan_group.boss_health second_boss).
Proof. repeat split; vm_compute; reflexivity. Qed.

(** * Further properties of the engine *)

(** ** Undo *)

(** X1.  On an initialized group, when [defeat] returns, an [undo] by the
    member the kill was recorded for returns too: the group is back at the
    cycle, boss and health it had before the kill and the ledger is the one
    before it. *)
Theorem defeat_undo_roundtrip self s group_id group qqid behalfed d t
    status s1 :
  _group_data s !! group_id = Some group ->
  defeat self group_id qqid behalfed d t s = (inr status, s1) ->
  exists status' s2 group2,
    undo self group_id (acting qqid behalfed) s1 = (inr status', s2)
    /\ _group_data s2 !! group_id = Some group2
    /\ position group2 = position group
    /\ challenges s2 = challenges s.
Proof.
  intros Hg. rewrite (defeat_eq _ _ _ _ _ _ _ _ Hg). cbv zeta.
  destruct (finished_count _ >=? 3); [discriminate |].
  destruct (full_health self (next_boss group)) as [e | full]; [discriminate |].
  intros [= _ <-].
  set (r := defeat_record group group_id qqid behalfed d t (challenges s)).
  assert (Hr : (fun c => Clan_challenge.gid c =? group_id) r = true)
    by apply Z.eqb_refl.
  erewrite undo_eq; [| cbn [_group_data]; apply lookup_insert_eq].
  cbv zeta. cbn [challenges _group_data subscribes].
  unfold _get_previous_challenge. rewrite (last_filter_snoc _ _ _ Hr).
  replace (Clan_challenge.qqid r =? acting qqid behalfed) with true
    by (symmetry; apply Z.eqb_refl).
  cbn [negb andb].
  rewrite (delete_last_where_snoc _ _ _ Hr), insert_insert_eq.
  eexists _, _, _. split; [reflexivity |].
  cbn [_group_data challenges]. rewrite lookup_insert_eq.
  split; [reflexivity |]. split; [| reflexivity].
  unfold position. cbn. reflexivity.
Qed.

Lemma defeat_undo_roundtrip_witness :
  _group_data demo_store !! 1 = Some demo_group
  /\ defeat demo_self 1 7 None 0 0 demo_store
     = (inr (mkBossStatus 1 2 200 0),
        snd (defeat demo_self 1 7 None 0 0 demo_store))
  /\ exists status' s2 group2,
       undo demo_self 1 7 (snd (defeat demo_self 1 7 None 0 0 demo_store))
       = (inr status', s2)
       /\ _group_data s2 !! 1 = Some group2
       /\ position group2 = (1, 1, 100)
       /\ challenges s2 = [].
Proof.
  split; [reflexivity |]. split; [reflexivity |].
  apply (defeat_undo_roundtrip demo_self demo_store 1 demo_group 7 None 0 0
           (mkBossStatus 1 2 200 0)
           (snd (defeat demo_self 1 7 None 0 0 demo_store)));
    reflexivity.
Defined.

(** What [delete_instance] on the latest record of a group leaves: the
    records before and after it, in order. *)
Lemma delete_last_where_split {A} (p : A -> bool) l c :
  last (List.filter p l) = Some c ->
  exists before after,
    l = before ++ c :: after
    /\ p c = true
    /\ List.filter p after = []
    /\ delete_last_where p l = before ++ after.
Proof.
  induction l as [| x l IH]; [discriminate |].
  cbn [List.filter delete_last_where].
  destruct (existsb p l) eqn:Hex.
  - rewrite andb_false_r.
    assert (Hne : List.filter p l <> []).
    { apply existsb_exists in Hex as (y & Hy & Hpy).
      intros Hnil.
      pose proof (proj2 (filter_In p y l) (conj Hy Hpy)) as Hin.
      rewrite Hnil in Hin. destruct Hin. }
    intros Hlast.
    assert (Hlast' : last (List.filter p l) = Some c).
    { destruct (p x); [| exact Hlast].
      destruct (List.filter p l) as [| y f]; [congruence |].
      exact Hlast. }
    destruct (IH Hlast') as (before & after & -> & Hpc & Hafter & Hdel).
    exists (x :: before), after. rewrite Hdel. repeat split; assumption.
  - assert (Hnil : List.filter p l = []).
    { destruct (List.filter p l) as [| y f] eqn:Hf; [reflexivity |].
      assert (Hy : In y (List.filter p l)) by (rewrite Hf; left; reflexivity).
      apply filter_In in Hy as [Hy Hpy].
      assert (existsb p l = true) by (apply existsb_exists; eauto).
      congruence. }
    rewrite Hnil. destruct (p x) eqn:Hpx; [| discriminate].
    intros [= <-]. cbn [andb negb].
    exists [], l. repeat split; assumption.
Qed.

(** X2.  On an initialized group whose latest record is [c]: an [undo] asked
    by somebody else than the member of [c] who has privilege level 100 or
    more raises [UserError] and changes neither ledger nor groups; asked by
    that member, or by anybody with a level below 100, it returns and the
    ledger is one record shorter. *)
Theorem undo_permission self s group_id group requester c :
  _group_data s !! group_id = Some group ->
  _get_previous_challenge group_id (challenges s) = Some c ->
  (Clan_challenge.qqid c <> requester ->
   100 <= authority_of self requester s ->
   exists s',
     undo self group_id requester s = (inl (UserError NoUndoPermission), s')
     /\ _group_data s' = _group_data s
     /\ challenges s' = challenges s)
  /\ (Clan_challenge.qqid c = requester \/ authority_of self requester s < 100 ->
      exists status s',
        undo self group_id requester s = (inr status, s')
        /\ (length (challenges s') + 1 = length (challenges s))%nat).
Proof.
  intros Hg Hprev. rewrite (undo_eq _ _ _ _ _ Hg), Hprev. cbv zeta. split.
  - intros Hother Hlevel.
    destruct (Z.eqb_spec (Clan_challenge.qqid c) requester); [congruence |].
    destruct (Z.geb_spec (authority_of self requester s) 100); [| lia].
    cbn [negb andb]. eexists. repeat split.
  - intros Hallowed.
    assert (Hgo : negb (Clan_challenge.qqid c =? requester)
                  && (authority_of self requester s >=? 100) = false).
    { destruct Hallowed as [-> | Hlevel].
      - rewrite Z.eqb_refl. reflexivity.
      - destruct (Z.geb_spec (authority_of self requester s) 100); [lia |].
        apply andb_false_r. }
    rewrite Hgo. eexists _, _. split; [reflexivity |].
    cbn [challenges].
    destruct (delete_last_where_split _ _ _ Hprev)
      as (before & after & -> & _ & _ & ->).
    rewrite !length_app. cbn [length]. lia.
Qed.

Lemma undo_permission_witness :
  _group_data subscribed_store !! 2
  = Some (Clan_group.mk 2 "cn" 1 1 100 false (Some 9) 50)
  /\ _get_previous_challenge 2 (challenges subscribed_store)
     = Some (Clan_challenge.mk 2 5 0 0 1 1 90 10 false None)
  /\ (exists s',
        undo demo_self 2 3 subscribed_store
        = (inl (UserError NoUndoPermission), s'))
  /\ (exists status s',
        undo demo_self 2 4 subscribed_store = (inr status, s')).
Proof.
  split; [reflexivity |]. split; [reflexivity |].
  split.
  - destruct (undo_permission demo_self subscribed_store 2
                (Clan_group.mk 2 "cn" 1 1 100 false (Some 9) 50) 3
                (Clan_challenge.mk 2 5 0 0 1 1 90 10 false None)
                eq_refl eq_refl) as [Hdenied _].
    destruct Hdenied as (s' & Hrun & _);
      [cbn; lia | vm_compute; discriminate |].
    exists s'. exact Hrun.
  - destruct (undo_permission demo_self subscribed_store 2
                (Clan_group.mk 2 "cn" 1 1 100 false (Some 9) 50) 4
                (Clan_challenge.mk 2 5 0 0 1 1 90 10 false None)
                eq_refl eq_refl) as [_ Hallowed].
    destruct Hallowed as (status & s' & Hrun & _);
      [right; vm_compute; reflexivity |].
    exists status, s'. exact Hrun.
Defined.

(** X3.  An [undo] that returns removes exactly one record, the latest one
    of the group: the records before it and the records after it, which
    belong to other groups, stay in the ledger in their order, and the group
    stands where that record says it stood, with nobody holding the
    challenge slot. *)
Theorem undo_removes_latest self s group_id group requester status s' :
  _group_data s !! group_id = Some group ->
  undo self group_id requester s = (inr status, s') ->
  exists before c after,
    challenges s = before ++ c :: after
    /\ Clan_challenge.gid c = group_id
    /\ Forall (fun x => Clan_challenge.gid x <> group_id) after
    /\ challenges s' = before ++ after
    /\ _group_data s' !! group_id = Some (undo_group c group)
    /\ position (undo_group c group)
       = (Clan_challenge.boss_cycle c, Clan_challenge.boss_num c,
          Clan_challenge.boss_health_ramain c
          + Clan_challenge.challenge_damage c)
    /\ Clan_group.challenging_member_qq_id (undo_group c group) = None.
Proof.
  intros Hg. rewrite (undo_eq _ _ _ _ _ Hg). cbv zeta.
  destruct (_get_previous_challenge group_id (challenges s)) as [c |] eqn:Hprev;
    [| discriminate].
  destruct (negb _ && _); [discriminate |].
  intros [= _ <-].
  destruct (delete_last_where_split _ _ _ Hprev)
    as (before & after & Hsplit & Hc & Hafter & Hdel).
  exists before, c, after. cbn [challenges _group_data].
  rewrite lookup_insert_eq.
  split; [exact Hsplit |]. split; [apply Z.eqb_eq, Hc |].
  split; [| split; [exact Hdel | repeat split]].
  apply Forall_forall. intros x Hx Hgid.
  assert (Hin : In x (List.filter (fun c => Clan_challenge.gid c =? group_id)
                                  after)).
  { apply filter_In. split; [apply list_elem_of_In, Hx | apply Z.eqb_eq, Hgid]. }
  rewrite Hafter in Hin. destruct Hin.
Qed.

Lemma undo_removes_latest_witness :
  _group_data subscribed_store !! 2
  = Some (Clan_group.mk 2 "cn" 1 1 100 false (Some 9) 50)
  /\ undo demo_self 2 5 subscribed_store
     = (inr (mkBossStatus 1 1 100 0), snd (undo demo_self 2 5 subscribed_store))
  /\ exists before c after,
       challenges subscribed_store = before ++ c :: after
       /\ challenges (snd (undo demo_self 2 5 subscribed_store))
          = before ++ after.
Proof.
  split; [reflexivity |]. split; [reflexivity |].
  destruct (undo_removes_latest demo_self subscribed_store 2
              (Clan_group.mk 2 "cn" 1 1 100 false (Some 9) 50) 5
              (mkBossStatus 1 1 100 0)
              (snd (undo demo_self 2 5 subscribed_store)) eq_refl eq_refl)
    as (before & c & after & Hsplit & _ & _ & Hrest & _).
  exists before, c, after. split; [exact Hsplit | exact Hrest].
Defined.

(** ** Restart *)

Lemma restart_eq self s group_id group :
  _group_data s !! group_id = Some group ->
  restart self group_id s =
  let group1 := Clan_group.set_boss_num 1
                  (Clan_group.set_boss_cycle 1 group) in
  match bossinfo_at self (Clan_group.game_server group) 0 0 with
  | inl e =>
      (inl e, mkStore (<[group_id := group1]> (_group_data s))
                      (challenges s) (subscribes s) (users s))
  | inr h =>
      (inr tt,
       mkStore (<[group_id := Clan_group.set_boss_health h group1]>
                  (_group_data s))
               (List.filter
                  (fun c => negb (Clan_challenge.gid c =? group_id))
                  (challenges s))
               (subscribes s) (users s))
  end.
Proof.
  intros Hg. unfold restart. run. rewrite Hg.
  cbn [Clan_group.game_server Clan_group.set_boss_num
       Clan_group.set_boss_cycle].
  destruct (bossinfo_at self (Clan_group.game_server group) 0 0);
    [reflexivity |].
  cbn [_group_data challenges subscribes users].
  rewrite insert_insert_eq. reflexivity.
Qed.

Lemma filter_group_gone group_id (l : list Clan_challenge.t) :
  List.filter (fun c => Clan_challenge.gid c =? group_id)
    (List.filter (fun c => negb (Clan_challenge.gid c =? group_id)) l) = [].
Proof.
  induction l as [| x l IH]; [reflexivity |].
  cbn [List.filter].
  destruct (Clan_challenge.gid x =? group_id) eqn:E; cbn [negb];
    [exact IH |].
  cbn [List.filter]. rewrite E. exact IH.
Qed.

Lemma filter_group_other group_id other (l : list Clan_challenge.t) :
  other <> group_id ->
  List.filter (fun c => Clan_challenge.gid c =? other)
    (List.filter (fun c => negb (Clan_challenge.gid c =? group_id)) l)
  = List.filter (fun c => Clan_challenge.gid c =? other) l.
Proof.
  intros Hother. induction l as [| x l IH]; [reflexivity |].
  cbn [List.filter].
  destruct (Z.eqb_spec (Clan_challenge.gid x) group_id) as [E | E];
    cbn [negb List.filter].
  - destruct (Z.eqb_spec (Clan_challenge.gid x) other); [congruence |].
    exact IH.
  - rewrite IH. reflexivity.
Qed.

(** X4.  On an initialized group whose server has a first table entry,
    [restart] returns and puts the group at cycle 1, boss 1 with that entry
    as health; it deletes all records of the group and keeps those of the
    other groups, so that an [undo] right after it finds nothing to undo.
    Server, hard-mode flag and the holder of the challenge slot stay as they
    were. *)
Theorem restart_resets self s group_id group h :
  _group_data s !! group_id = Some group ->
  bossinfo_at self (Clan_group.game_server group) 0 0 = inr h ->
  exists s' group',
    restart self group_id s = (inr tt, s')
    /\ _group_data s' !! group_id = Some group'
    /\ position group' = (1, 1, h)
    /\ Clan_group.game_server group' = Clan_group.game_server group
    /\ Clan_group.level_4 group' = Clan_group.level_4 group
    /\ Clan_group.challenging_member_qq_id group'
       = Clan_group.challenging_member_qq_id group
    /\ Forall (fun c => Clan_challenge.gid c <> group_id) (challenges s')
    /\ (forall other,
          other <> group_id ->
          List.filter (fun c => Clan_challenge.gid c =? other) (challenges s')
          = List.filter (fun c => Clan_challenge.gid c =? other)
                        (challenges s))
    /\ (forall requester,
          fst (undo self group_id requester s')
          = inl (GroupError NoChallengeRecord)).
Proof.
  intros Hg Hh. rewrite (restart_eq _ _ _ _ Hg), Hh. cbv zeta.
  eexists _, _. split; [reflexivity |].
  cbn [_group_data challenges]. rewrite lookup_insert_eq.
  split; [reflexivity |]. do 4 (split; [reflexivity |]).
  split; [| split].
  - apply Forall_forall. intros x Hx Hgid.
    apply list_elem_of_In, filter_In in Hx as [_ Hx].
    rewrite Hgid, Z.eqb_refl in Hx. discriminate.
  - intros other Hother. apply filter_group_other, Hother.
  - intros requester.
    erewrite undo_eq; [| cbn [_group_data]; apply lookup_insert_eq].
    cbv zeta. cbn [challenges]. unfold _get_previous_challenge.
    rewrite filter_group_gone. reflexivity.
Qed.

Lemma restart_resets_witness :
  _group_data subscribed_store !! 2
  = Some (Clan_group.mk 2 "cn" 1 1 100 false (Some 9) 50)
  /\ bossinfo_at demo_self "cn" 0 0 = inr 100
  /\ exists s',
       restart demo_self 2 subscribed_store = (inr tt, s')
       /\ fst (undo demo_self 2 5 s') = inl (GroupError NoChallengeRecord).
Proof.
  split; [reflexivity |]. split; [reflexivity |].
  destruct (restart_resets demo_self subscribed_store 2
              (Clan_group.mk 2 "cn" 1 1 100 false (Some 9) 50) 100
              eq_refl eq_refl)
    as (s' & group' & Hrun & _ & _ & _ & _ & _ & _ & _ & Hundo).
  exists s'. split; [exact Hrun | apply Hundo].
Defined.

(** ** A defeat past the end of the stage table *)



(** ** The challenge slot *)

Lemma apply_for_challenge_eq s group_id group qqid now :
  _group_data s !! group_id = Some group ->
  apply_for_challenge group_id qqid now s =
  match Clan_group.challenging_member_qq_id group with
  | Some holder => (inl (GroupError (BeingChallenged holder)), s)
  | None =>
      let group' := Clan_group.set_challenging_start_time now
                      (Clan_group.set_challenging_member_qq_id (Some qqid)
                         group) in
      (inr (status_of group' qqid),
       mkStore (<[group_id := group']> (_group_data s))
               (challenges s) (subscribes s) (users s))
  end.
Proof.
  intros Hg. unfold apply_for_challenge. run. rewrite Hg.
  destruct (Clan_group.challenging_member_qq_id group); reflexivity.
Qed.

(** X6.  On an initialized group, [apply_for_challenge] on a free slot
    returns a status that names the applicant, and makes the applicant the
    holder since [now] without moving the boss; on a held slot it raises a
    [GroupError] that names the holder and writes nothing, also when the
    applicant is the holder. *)
Theorem apply_for_challenge_exclusive s group_id group qqid now :
  _group_data s !! group_id = Some group ->
  (Clan_group.challenging_member_qq_id group = None ->
   exists s' group',
     apply_for_challenge group_id qqid now s
     = (inr (mkBossStatus (Clan_group.boss_cycle group)
                          (Clan_group.boss_num group)
                          (Clan_group.boss_health group) qqid), s')
     /\ _group_data s' !! group_id = Some group'
     /\ Clan_group.challenging_member_qq_id group' = Some qqid
     /\ Clan_group.challenging_start_time group' = now
     /\ position group' = position group)
  /\ (forall holder,
        Clan_group.challenging_member_qq_id group = Some holder ->
        apply_for_challenge group_id qqid now s
        = (inl (GroupError (BeingChallenged holder)), s)).
Proof.
  intros Hg. rewrite (apply_for_challenge_eq _ _ _ _ _ Hg). split.
  - intros ->. cbv zeta. eexists _, _. split; [reflexivity |].
    cbn [_group_data]. rewrite lookup_insert_eq. repeat split.
  - intros holder ->. reflexivity.
Qed.

Lemma apply_for_challenge_exclusive_witness :
  _group_data demo_store !! 1 = Some demo_group
  /\ (exists s',
        apply_for_challenge 1 7 1000 demo_store
        = (inr (mkBossStatus 1 1 100 7), s')
        /\ apply_for_challenge 1 8 1001 s'
           = (inl (GroupError (BeingChallenged 7)), s')).
Proof.
  split; [reflexivity |].
  destruct (apply_for_challenge_exclusive demo_store 1 demo_group 7 1000
              eq_refl) as [Hfree _].
  destruct (Hfree eq_refl) as (s' & group' & Hrun & Hg' & Hholder & _).
  exists s'. split; [exact Hrun |].
  destruct (apply_for_challenge_exclusive s' 1 group' 8 1001 Hg')
    as [_ Hheld].
  apply Hheld, Hholder.
Defined.

(** X7.  Applying on a free slot and cancelling by the applicant, at any
    time, gives the slot back: both calls return, the group is where it was,
    nobody holds the slot, and a next application, by anybody, returns. *)
Theorem apply_cancel_roundtrip self s group_id group qqid start now
    other later :
  _group_data s !! group_id = Some group ->
  Clan_group.challenging_member_qq_id group = None ->
  exists status1 s1 status2 s2 group2 status3 s3,
    apply_for_challenge group_id qqid start s = (inr status1, s1)
    /\ cancel_application self group_id qqid now s1 = (inr status2, s2)
    /\ _group_data s2 !! group_id = Some group2
    /\ Clan_group.challenging_member_qq_id group2 = None
    /\ position group2 = position group
    /\ challenges s2 = challenges s
    /\ apply_for_challenge group_id other later s2 = (inr status3, s3).
Proof.
  intros Hg Hfree.
  pose proof (apply_for_challenge_eq s group_id group qqid start Hg) as H1.
  rewrite Hfree in H1. cbv zeta in H1.
  set (group1 := Clan_group.set_challenging_start_time start
                   (Clan_group.set_challenging_member_qq_id (Some qqid)
                      group)) in H1.
  set (s1 := mkStore (<[group_id := group1]> (_group_data s)) (challenges s)
                     (subscribes s) (users s)) in H1.
  assert (Hg1 : _group_data s1 !! group_id = Some group1)
    by apply lookup_insert_eq.
  pose proof (cancel_application_eq self s1 group_id group1 qqid now Hg1)
    as H2.
  cbn [group1 Clan_group.challenging_member_qq_id
       Clan_group.set_challenging_start_time
       Clan_group.set_challenging_member_qq_id] in H2.
  cbv zeta in H2. rewrite Z.eqb_refl in H2. cbn [negb andb] in H2.
  match type of H2 with
  | _ = (inr (status_of ?g2 0), ?st2) => set (group2 := g2) in H2;
                                          set (s2 := st2) in H2
  end.
  assert (Hg2 : _group_data s2 !! group_id = Some group2)
    by apply lookup_insert_eq.
  pose proof (apply_for_challenge_eq s2 group_id group2 other later Hg2)
    as H3.
  cbn [group2 Clan_group.challenging_member_qq_id
       Clan_group.set_challenging_member_qq_id] in H3.
  cbv zeta in H3.
  eexists _, s1, _, s2, group2, _, _.
  split; [exact H1 |]. split; [exact H2 |]. split; [exact Hg2 |].
  split; [reflexivity |]. split; [reflexivity |].
  split; [reflexivity | exact H3].
Qed.

Lemma apply_cancel_roundtrip_witness :
  _group_data demo_store !! 1 = Some demo_group
  /\ Clan_group.challenging_member_qq_id demo_group = None
  /\ exists status1 s1 status2 s2,
       apply_for_challenge 1 7 1000 demo_store = (inr status1, s1)
       /\ cancel_application demo_self 1 7 1000 s1 = (inr status2, s2)
       /\ challenges s2 = challenges demo_store.
Proof.
  split; [reflexivity |]. split; [reflexivity |].
  destruct (apply_cancel_roundtrip demo_self demo_store 1 demo_group 7 1000
              1000 8 1001 eq_refl eq_refl)
    as (status1 & s1 & status2 & s2 & group2 & status3 & s3
        & Happly & Hcancel & _ & _ & _ & Hledger & _).
  exists status1, s1, status2, s2.
  split; [exact Happly | split; [exact Hcancel | exact Hledger]].
Defined.

Lemma with_holder_lookup s group_id group holder start :
  _group_data s !! group_id = Some group ->
  _group_data (with_holder group_id holder start s) !! group_id
  = Some (Clan_group.set_challenging_start_time start
            (Clan_group.set_challenging_member_qq_id holder group))
  /\ challenges (with_holder group_id holder start s) = challenges s
  /\ users (with_holder group_id holder start s) = users s.
Proof.
  intros Hg. unfold with_holder, with_group_data. cbn [_group_data challenges].
  rewrite Hg, lookup_insert_eq. repeat split.
Qed.

(** X8.  Reporting is not gated by the challenge slot: whoever holds the
    slot of an initialized group, and since whenever, [damage] and [defeat]
    have the outcome, status or exception, that they have with any other
    holder or none; and when they return, the slot is free. *)
Theorem report_ignores_slot self s group_id group holder start
    qqid amount behalfed d t :
  _group_data s !! group_id = Some group ->
  fst (damage self group_id qqid amount behalfed d t
              (with_holder group_id holder start s))
  = fst (damage self group_id qqid amount behalfed d t s)
  /\ fst (defeat self group_id qqid behalfed d t
                 (with_holder group_id holder start s))
     = fst (defeat self group_id qqid behalfed d t s)
  /\ (forall status s',
        damage self group_id qqid amount behalfed d t s = (inr status, s')
        \/ defeat self group_id qqid behalfed d t s = (inr status, s') ->
        exists group',
          _group_data s' !! group_id = Some group'
          /\ Clan_group.challenging_member_qq_id group' = None).
Proof.
  intros Hg.
  destruct (with_holder_lookup s group_id group holder start Hg)
    as (Hg' & Hledger & Husers).
  rewrite (damage_eq _ _ _ _ _ _ _ _ _ Hg'), (damage_eq _ _ _ _ _ _ _ _ _ Hg),
    (defeat_eq _ _ _ _ _ _ _ _ Hg'), (defeat_eq _ _ _ _ _ _ _ _ Hg).
  cbv zeta. rewrite Hledger.
  cbn [Clan_group.boss_health Clan_group.set_challenging_start_time
       Clan_group.set_challenging_member_qq_id].
  split; [| split].
  - destruct (amount <? 0); [reflexivity |].
    destruct (amount >=? Clan_group.boss_health group); [reflexivity |].
    destruct (finished_count _ >=? 3); reflexivity.
  - destruct (finished_count _ >=? 3); [reflexivity |].
    assert (Hfull : full_health self
              (next_boss (Clan_group.set_challenging_start_time start
                            (Clan_group.set_challenging_member_qq_id holder
                               group)))
            = full_health self (next_boss group)).
    { unfold next_boss, full_health. cbn.
      destruct (Clan_group.boss_num group =? 5); reflexivity. }
    rewrite Hfull.
    destruct (full_health self (next_boss group)); [reflexivity |].
    cbn [fst]. unfold status_of, defeat_group, next_boss. cbn.
    destruct (Clan_group.boss_num group =? 5); reflexivity.
  - intros status s' [Hrun | Hrun]; revert Hrun.
    + destruct (amount <? 0); [discriminate |].
      destruct (amount >=? Clan_group.boss_health group); [discriminate |].
      destruct (finished_count _ >=? 3); [discriminate |].
      intros [= _ <-]. cbn [_group_data]. rewrite lookup_insert_eq.
      eexists. split; reflexivity.
    + destruct (finished_count _ >=? 3); [discriminate |].
      destruct (full_health self (next_boss group)); [discriminate |].
      intros [= _ <-]. cbn [_group_data]. rewrite lookup_insert_eq.
      eexists. split; reflexivity.
Qed.

Lemma report_ignores_slot_witness :
  _group_data demo_store !! 1 = Some demo_group
  /\ fst (damage demo_self 1 7 10 None 0 0 (with_holder 1 (Some 2) 5 demo_store))
     = inr (mkBossStatus 1 1 90 0).
Proof.
  split; [reflexivity |].
  destruct (report_ignores_slot demo_self demo_store 1 demo_group (Some 2) 5
              7 10 None 0 0 eq_refl) as (Hdamage & _ & _).
  rewrite Hdamage. reflexivity.
Defined.

(** ** Subscriptions *)

Lemma same_subscribe_true group_id qqid boss_num x :
  same_subscribe group_id qqid boss_num x = true
  <-> x = Clan_subscribe.mk group_id qqid boss_num.
Proof.
  unfold same_subscribe. destruct x as [g q n]. cbn. split.
  - intros H. apply andb_prop in H as [H Hn]. apply andb_prop in H as [Hg Hq].
    apply Z.eqb_eq in Hg, Hq, Hn. congruence.
  - intros [= -> -> ->]. rewrite !Z.eqb_refl. reflexivity.
Qed.

Lemma existsb_same_subscribe group_id qqid boss_num table :
  existsb (same_subscribe group_id qqid boss_num) table = true
  <-> In (Clan_subscribe.mk group_id qqid boss_num) table.
Proof.
  rewrite existsb_exists. split.
  - intros (x & Hx & Hsame). apply same_subscribe_true in Hsame as ->. exact Hx.
  - intros Hin. eexists. split; [exact Hin |]. apply same_subscribe_true.
    reflexivity.
Qed.

Lemma add_subscribe_eq s group_id group qqid boss_num :
  _group_data s !! group_id = Some group ->
  add_subscribe group_id qqid boss_num s =
  if existsb (same_subscribe group_id qqid boss_num) (subscribes s)
  then (inl (UserError (if boss_num =? 0 then AlreadyOnTree
                        else AlreadySubscribed)), s)
  else (inr tt,
        mkStore
          (if (boss_num =? 0)
              && bool_decide (Clan_group.challenging_member_qq_id group
                              = Some qqid)
           then <[group_id :=
                    Clan_group.set_challenging_member_qq_id None group]>
                  (_group_data s)
           else _group_data s)
          (challenges s)
          (subscribes s ++ [Clan_subscribe.mk group_id qqid boss_num])
          (users s)).
Proof.
  intros Hg. unfold add_subscribe. run. rewrite Hg.
  destruct (existsb _ (subscribes s)); [reflexivity |].
  destruct ((boss_num =? 0) && _); reflexivity.
Qed.

Lemma NoDup_filter_list {A} (p : A -> bool) (l : list A) :
  List.NoDup l -> List.NoDup (List.filter p l).
Proof.
  induction 1 as [| x l Hx Hl IH]; cbn [List.filter]; [constructor |].
  destruct (p x); [| exact IH].
  constructor; [| exact IH].
  intros Hin. apply filter_In in Hin as [Hin _]. exact (Hx Hin).
Qed.

(** X9.  On an initialized group, [add_subscribe] of a triple (group,
    subscriber, boss) that is in the table raises [UserError] and writes
    nothing; otherwise it returns and appends the triple.  So a table
    without repeated triples stays without them. *)
Theorem add_subscribe_unique s group_id group qqid boss_num :
  _group_data s !! group_id = Some group ->
  (In (Clan_subscribe.mk group_id qqid boss_num) (subscribes s) ->
   add_subscribe group_id qqid boss_num s
   = (inl (UserError (if boss_num =? 0 then AlreadyOnTree
                      else AlreadySubscribed)), s))
  /\ (~ In (Clan_subscribe.mk group_id qqid boss_num) (subscribes s) ->
      exists s',
        add_subscribe group_id qqid boss_num s = (inr tt, s')
        /\ subscribes s'
           = subscribes s ++ [Clan_subscribe.mk group_id qqid boss_num])
  /\ (List.NoDup (subscribes s) ->
      List.NoDup (subscribes (snd (add_subscribe group_id qqid boss_num s)))).
Proof.
  intros Hg. rewrite (add_subscribe_eq _ _ _ _ _ Hg).
  destruct (existsb (same_subscribe group_id qqid boss_num) (subscribes s))
    eqn:Hex.
  - apply existsb_same_subscribe in Hex.
    split; [reflexivity |]. split; [intros Hno; destruct (Hno Hex) |].
    intros Hnd. exact Hnd.
  - assert (Hno : ~ In (Clan_subscribe.mk group_id qqid boss_num)
                       (subscribes s)).
    { intros Hin. apply existsb_same_subscribe in Hin. congruence. }
    split; [intros Hin; destruct (Hno Hin) |].
    split; [intros _; eexists; split; reflexivity |].
    intros Hnd. cbn [snd subscribes].
    apply List.NoDup_app; [exact Hnd | repeat constructor; intros [] |].
    intros x Hx [<- | []]. exact (Hno Hx).
Qed.

Lemma add_subscribe_unique_witness :
  _group_data subscribed_store !! 1 = Some demo_group
  /\ add_subscribe 1 8 2 subscribed_store
     = (inl (UserError AlreadySubscribed), subscribed_store)
  /\ exists s',
       add_subscribe 1 8 4 subscribed_store = (inr tt, s')
       /\ subscribes s'
          = subscribes subscribed_store ++ [Clan_subscribe.mk 1 8 4].
Proof.
  split; [reflexivity |].
  split.
  - destruct (add_subscribe_unique subscribed_store 1 demo_group 8 2 eq_refl)
      as (Hdup & _ & _).
    apply Hdup. left. reflexivity.
  - destruct (add_subscribe_unique subscribed_store 1 demo_group 8 4 eq_refl)
      as (_ & Hnew & _).
    apply Hnew. cbn. intros [H | [H | [H | [H | []]]]]; discriminate H.
Defined.

(** X10.  Going on the tree gives the turn back: when [add_subscribe] with
    boss 0 returns for the member who holds the challenge slot, the slot is
    free afterwards; in every other case in which it returns (another boss,
    another holder, no holder) the group is untouched. *)
Theorem add_subscribe_releases_slot s group_id group qqid boss_num s' :
  _group_data s !! group_id = Some group ->
  add_subscribe group_id qqid boss_num s = (inr tt, s') ->
  (boss_num = 0 ->
   Clan_group.challenging_member_qq_id group = Some qqid ->
   _group_data s' !! group_id
   = Some (Clan_group.set_challenging_member_qq_id None group))
  /\ (boss_num <> 0
      \/ Clan_group.challenging_member_qq_id group <> Some qqid ->
      _group_data s' = _group_data s).
Proof.
  intros Hg. rewrite (add_subscribe_eq _ _ _ _ _ Hg).
  destruct (existsb _ (subscribes s)); [discriminate |].
  intros [= <-]. cbn [_group_data]. split.
  - intros -> Hholder. rewrite Z.eqb_refl, bool_decide_eq_true_2 by exact Hholder.
    cbn [andb]. apply lookup_insert_eq.
  - intros [Hboss | Hholder].
    + destruct (Z.eqb_spec boss_num 0); [congruence | reflexivity].
    + rewrite bool_decide_eq_false_2 by exact Hholder.
      rewrite andb_false_r. reflexivity.
Qed.

Lemma add_subscribe_releases_slot_witness :
  _group_data claimed_store !! 1
  = Some (Clan_group.mk 1 "cn" 1 1 100 false (Some 2) 1000)
  /\ add_subscribe 1 2 0 claimed_store
     = (inr tt, snd (add_subscribe 1 2 0 claimed_store))
  /\ _group_data (snd (add_subscribe 1 2 0 claimed_store)) !! 1
     = Some (Clan_group.mk 1 "cn" 1 1 100 false None 1000).
Proof.
  split; [reflexivity |]. split; [reflexivity |].
  destruct (add_subscribe_releases_slot claimed_store 1
              (Clan_group.mk 1 "cn" 1 1 100 false (Some 2) 1000) 2 0
              (snd (add_subscribe 1 2 0 claimed_store)) eq_refl eq_refl)
    as [Hfree _].
  apply Hfree; reflexivity.
Defined.

Lemma filter_not_same_id group_id qqid boss_num table :
  ~ In (Clan_subscribe.mk group_id qqid boss_num) table ->
  List.filter (fun x => negb (same_subscribe group_id qqid boss_num x)) table
  = table.
Proof.
  intros Hno. induction table as [| x table IH]; [reflexivity |].
  cbn [List.filter].
  destruct (same_subscribe group_id qqid boss_num x) eqn:Hx.
  - apply same_subscribe_true in Hx as ->. destruct Hno. left. reflexivity.
  - cbn [negb]. rewrite IH; [reflexivity |].
    intros Hin. apply Hno. right. exact Hin.
Qed.

Lemma filter_same_none group_id qqid boss_num table :
  ~ In (Clan_subscribe.mk group_id qqid boss_num) table ->
  List.filter (same_subscribe group_id qqid boss_num) table = [].
Proof.
  intros Hno. induction table as [| x table IH]; [reflexivity |].
  cbn [List.filter].
  destruct (same_subscribe group_id qqid boss_num x) eqn:Hx.
  - apply same_subscribe_true in Hx as ->. destruct Hno. left. reflexivity.
  - apply IH. intros Hin. apply Hno. right. exact Hin.
Qed.

(** X11.  Subscribing and cancelling undo each other: on an initialized
    group, for a triple that is not in the table, [add_subscribe] returns,
    the [cancel_subscribe] of the same triple that follows reports one
    deleted row, and the table is what it was before. *)
Theorem subscribe_cancel_roundtrip s group_id group qqid boss_num :
  _group_data s !! group_id = Some group ->
  ~ In (Clan_subscribe.mk group_id qqid boss_num) (subscribes s) ->
  exists s1 s2,
    add_subscribe group_id qqid boss_num s = (inr tt, s1)
    /\ cancel_subscribe group_id qqid boss_num s1 = (inr 1, s2)
    /\ subscribes s2 = subscribes s
    /\ challenges s2 = challenges s.
Proof.
  intros Hg Hno. rewrite (add_subscribe_eq _ _ _ _ _ Hg).
  destruct (existsb _ (subscribes s)) eqn:Hex;
    [apply existsb_same_subscribe in Hex; destruct (Hno Hex) |].
  eexists _, _. split; [reflexivity |].
  rewrite cancel_subscribe_eq. cbn [subscribes challenges _group_data users].
  rewrite !List.filter_app. cbn [List.filter].
  rewrite (proj2 (same_subscribe_true group_id qqid boss_num _) eq_refl).
  cbn [negb]. rewrite (filter_not_same_id _ _ _ _ Hno),
    (filter_same_none _ _ _ _ Hno), app_nil_r.
  cbn [app length]. repeat split.
Qed.

Lemma subscribe_cancel_roundtrip_witness :
  _group_data subscribed_store !! 1 = Some demo_group
  /\ ~ In (Clan_subscribe.mk 1 8 4) (subscribes subscribed_store)
  /\ exists s1 s2,
       add_subscribe 1 8 4 subscribed_store = (inr tt, s1)
       /\ cancel_subscribe 1 8 4 s1 = (inr 1, s2)
       /\ subscribes s2 = subscribes subscribed_store.
Proof.
  assert (Hno : ~ In (Clan_subscribe.mk 1 8 4) (subscribes subscribed_store))
    by (cbn; intros [H | [H | [H | [H | []]]]]; discriminate H).
  split; [reflexivity |]. split; [exact Hno |].
  destruct (subscribe_cancel_roundtrip subscribed_store 1 demo_group 8 4
              eq_refl Hno) as (s1 & s2 & Hadd & Hcancel & Hsubs & _).
  exists s1, s2. split; [exact Hadd | split; [exact Hcancel | exact Hsubs]].
Defined.

Lemma filter_partition_length {A} (p : A -> bool) (l : list A) :
  (length (List.filter p l) + length (List.filter (fun x => negb (p x)) l)
   = length l)%nat.
Proof.
  induction l as [| x l IH]; [reflexivity |].
  cbn [List.filter]. destruct (p x); cbn [negb length]; lia.
Qed.

Lemma filter_filter_negb {A} (p : A -> bool) (l : list A) :
  List.filter p (List.filter (fun x => negb (p x)) l) = [].
Proof.
  induction l as [| x l IH]; [reflexivity |].
  cbn [List.filter]. destruct (p x) eqn:Hx; cbn [negb]; [exact IH |].
  cbn [List.filter]. rewrite Hx. exact IH.
Qed.

Lemma filter_negb_idem {A} (p : A -> bool) (l : list A) :
  List.filter (fun x => negb (p x)) (List.filter (fun x => negb (p x)) l)
  = List.filter (fun x => negb (p x)) l.
Proof.
  induction l as [| x l IH]; [reflexivity |].
  cbn [List.filter]. destruct (p x) eqn:Hx; cbn [negb]; [exact IH |].
  cbn [List.filter]. rewrite Hx. cbn [negb]. rewrite IH. reflexivity.
Qed.

(** X12.  [cancel_subscribe] always returns, on any group identifier: the
    number it returns is the number of rows that left the table; the
    cancelled triple is not in the table afterwards and every other row is;
    groups and ledger are untouched; and cancelling again returns 0 and
    changes nothing. *)
Theorem cancel_subscribe_effect s group_id qqid boss_num :
  exists deleted_counts s',
    cancel_subscribe group_id qqid boss_num s = (inr deleted_counts, s')
    /\ deleted_counts + Z.of_nat (length (subscribes s'))
       = Z.of_nat (length (subscribes s))
    /\ ~ In (Clan_subscribe.mk group_id qqid boss_num) (subscribes s')
    /\ (forall x,
          x <> Clan_subscribe.mk group_id qqid boss_num ->
          In x (subscribes s') <-> In x (subscribes s))
    /\ _group_data s' = _group_data s
    /\ challenges s' = challenges s
    /\ cancel_subscribe group_id qqid boss_num s' = (inr 0, s').
Proof.
  rewrite cancel_subscribe_eq. eexists _, _. split; [reflexivity |].
  cbn [subscribes _group_data challenges].
  split; [| split; [| split; [| split; [reflexivity | split;
                                        [reflexivity |]]]]].
  - pose proof (filter_partition_length
                  (same_subscribe group_id qqid boss_num) (subscribes s)).
    lia.
  - intros Hin. apply filter_In in Hin as [_ Hin].
    rewrite (proj2 (same_subscribe_true group_id qqid boss_num _) eq_refl)
      in Hin.
    discriminate.
  - intros x Hx. rewrite filter_In. split; [intros [Hin _]; exact Hin |].
    intros Hin. split; [exact Hin |].
    destruct (same_subscribe group_id qqid boss_num x) eqn:Hsame;
      [| reflexivity].
    apply same_subscribe_true in Hsame. congruence.
  - rewrite cancel_subscribe_eq. cbn [subscribes _group_data challenges users].
    rewrite filter_filter_negb, filter_negb_idem. reflexivity.
Qed.

(** ** Notification on defeat *)

Lemma notify_subscribe_eq s group_id group boss_num :
  _group_data s !! group_id = Some group ->
  notify_subscribe group_id boss_num s =
  let n := match boss_num with
           | Some n => n
           | None => Clan_group.boss_num group
           end in
  (inr (List.map Clan_subscribe.qqid
          (List.filter (to_notify group_id n) (subscribes s))),
   mkStore (_group_data s) (challenges s)
           (List.filter (fun x => negb (to_notify group_id n x))
                        (subscribes s))
           (users s)).
Proof.
  intros Hg. unfold notify_subscribe. run. rewrite Hg. reflexivity.
Qed.

Lemma to_notify_true group_id boss_num x :
  to_notify group_id boss_num x = true
  <-> Clan_subscribe.gid x = group_id
      /\ (Clan_subscribe.subscribe_item x = boss_num
          \/ Clan_subscribe.subscribe_item x = 0).
Proof.
  unfold to_notify. rewrite andb_true_iff, orb_true_iff, !Z.eqb_eq.
  reflexivity.
Qed.

(** X13.  On an initialized group, [notify_subscribe] for a boss returns
    the subscribers of that boss and of boss 0 (the tree) in the group, one
    entry per row, and deletes exactly those rows: afterwards the group has
    no subscription for that boss or for boss 0, every other row, of this or
    another group, is still there, and a second notification for the same
    boss mentions nobody and changes nothing.  Without a boss number it
    takes the current boss of the group. *)
Theorem notify_subscribe_fires_once s group_id group boss_num :
  _group_data s !! group_id = Some group ->
  exists notice s',
    notify_subscribe group_id (Some boss_num) s = (inr notice, s')
    /\ (length notice + length (subscribes s') = length (subscribes s))%nat
    /\ (forall qqid,
          In qqid notice <->
          In (Clan_subscribe.mk group_id qqid boss_num) (subscribes s)
          \/ In (Clan_subscribe.mk group_id qqid 0) (subscribes s))
    /\ (forall x,
          In x (subscribes s') <->
          In x (subscribes s)
          /\ ~ (Clan_subscribe.gid x = group_id
                /\ (Clan_subscribe.subscribe_item x = boss_num
                    \/ Clan_subscribe.subscribe_item x = 0)))
    /\ _group_data s' = _group_data s
    /\ challenges s' = challenges s
    /\ notify_subscribe group_id (Some boss_num) s' = (inr [], s')
    /\ (boss_num = Clan_group.boss_num group ->
        notify_subscribe group_id None s = (inr notice, s')).
Proof.
  intros Hg. rewrite (notify_subscribe_eq _ _ _ (Some boss_num) Hg).
  cbv zeta. eexists _, _. split; [reflexivity |].
  cbn [subscribes _group_data challenges].
  split; [| split; [| split; [| split; [reflexivity | split;
                                        [reflexivity | split]]]]].
  - rewrite length_map.
    apply (filter_partition_length (to_notify group_id boss_num)).
  - intros qqid. rewrite in_map_iff. split.
    + intros ([g q n] & <- & Hin). apply filter_In in Hin as [Hin Hto].
      apply to_notify_true in Hto as [Hgid [Hn | Hn]];
        cbn in Hgid, Hn; subst; cbn; [left | right]; exact Hin.
    + intros [Hin | Hin]; eexists; (split; [| apply filter_In; split;
        [exact Hin | apply to_notify_true; cbn; auto]]); reflexivity.
  - intros x. rewrite filter_In, negb_true_iff, <- not_true_iff_false,
      to_notify_true. reflexivity.
  - erewrite notify_subscribe_eq by exact Hg. cbv zeta.
    cbn [subscribes _group_data challenges users].
    rewrite filter_filter_negb, filter_negb_idem. reflexivity.
  - intros ->. rewrite (notify_subscribe_eq _ _ _ None Hg). reflexivity.
Qed.

Lemma notify_subscribe_fires_once_witness :
  _group_data subscribed_store !! 1 = Some demo_group
  /\ exists s',
       notify_subscribe 1 (Some 2) subscribed_store = (inr [8; 9], s')
       /\ subscribes s' = [Clan_subscribe.mk 2 8 2; Clan_subscribe.mk 1 8 3]
       /\ notify_subscribe 1 (Some 2) s' = (inr [], s').
Proof.
  split; [reflexivity |].
  destruct (notify_subscribe_fires_once subscribed_store 1 demo_group 2
              eq_refl)
    as (notice & s' & Hrun & _ & _ & _ & _ & _ & Hagain & _).
  exists s'.
  assert (Hfst : fst (notify_subscribe 1 (Some 2) subscribed_store)
                 = inr [8; 9]) by reflexivity.
  assert (Hsnd : subscribes (snd (notify_subscribe 1 (Some 2)
                                                   subscribed_store))
                 = [Clan_subscribe.mk 2 8 2; Clan_subscribe.mk 1 8 3])
    by reflexivity.
  rewrite Hrun in Hfst, Hsnd. cbn [fst snd] in Hfst, Hsnd.
  injection Hfst as Hnotice. rewrite Hnotice in Hrun.
  split; [exact Hrun | split; [exact Hsnd | exact Hagain]].
Defined.

(** X14.  A [defeat] that returns has notified and removed the
    subscriptions of the group for the boss that is now up and for boss 0:
    none of them is left, every other subscription is, and a notification
    for the new boss right after the defeat mentions nobody. *)
Theorem defeat_fires_subscriptions self s group_id group qqid behalfed d t
    status s' :
  _group_data s !! group_id = Some group ->
  defeat self group_id qqid behalfed d t s = (inr status, s') ->
  (forall x,
     In x (subscribes s') <->
     In x (subscribes s)
     /\ ~ (Clan_subscribe.gid x = group_id
           /\ (Clan_subscribe.subscribe_item x = num status
               \/ Clan_subscribe.subscribe_item x = 0)))
  /\ num status = Clan_group.boss_num (next_boss group)
  /\ notify_subscribe group_id None s' = (inr [], s').
Proof.
  intros Hg. rewrite (defeat_eq _ _ _ _ _ _ _ _ Hg). cbv zeta.
  destruct (finished_count _ >=? 3); [discriminate |].
  destruct (full_health self (next_boss group)) as [e | full]; [discriminate |].
  intros [= <- <-]. cbn [subscribes num status_of].
  split; [| split; [reflexivity |]].
  - intros x. rewrite filter_In, negb_true_iff, <- not_true_iff_false,
      to_notify_true. reflexivity.
  - erewrite notify_subscribe_eq
      by (cbn [_group_data]; apply lookup_insert_eq).
    cbv zeta. cbn [subscribes _group_data challenges users].
    rewrite filter_filter_negb, filter_negb_idem. reflexivity.
Qed.

Lemma defeat_fires_subscriptions_witness :
  _group_data subscribed_store !! 1 = Some demo_group
  /\ defeat demo_self 1 7 None 0 0 subscribed_store
     = (inr (mkBossStatus 1 2 200 0),
        snd (defeat demo_self 1 7 None 0 0 subscribed_store))
  /\ subscribes (snd (defeat demo_self 1 7 None 0 0 subscribed_store))
     = [Clan_subscribe.mk 2 8 2; Clan_subscribe.mk 1 8 3]
  /\ notify_subscribe 1 None
       (snd (defeat demo_self 1 7 None 0 0 subscribed_store))
     = (inr [], snd (defeat demo_self 1 7 None 0 0 subscribed_store)).
Proof.
  split; [reflexivity |]. split; [reflexivity |]. split; [reflexivity |].
  apply (defeat_fires_subscriptions demo_self subscribed_store 1 demo_group 7
           None 0 0 (mkBossStatus 1 2 200 0)
           (snd (defeat demo_self 1 7 None 0 0 subscribed_store))
           eq_refl eq_refl).
Defined.

(** ** The report *)

Lemma insert_by_qqid_perm c l : Permutation (insert_by_qqid c l) (c :: l).
Proof.
  induction l as [| x l IH]; cbn [insert_by_qqid]; [reflexivity |].
  destruct (Clan_challenge.qqid x <? Clan_challenge.qqid c); [| reflexivity].
  rewrite IH. apply perm_swap.
Qed.

Lemma order_by_qqid_cid_perm l : Permutation (order_by_qqid_cid l) l.
Proof.
  induction l as [| c l IH]; [reflexivity |].
  cbn [order_by_qqid_cid foldr]. fold (order_by_qqid_cid l).
  rewrite insert_by_qqid_perm, IH. reflexivity.
Qed.

Lemma sorted_by_qqid_cons x l :
  sorted_by_qqid (x :: l) =
  match l with
  | [] => true
  | y :: _ => (Clan_challenge.qqid x <=? Clan_challenge.qqid y)
              && sorted_by_qqid l
  end.
Proof. reflexivity. Qed.

Lemma insert_by_qqid_sorted c l :
  sorted_by_qqid l = true -> sorted_by_qqid (insert_by_qqid c l) = true.
Proof.
  induction l as [| x l IH]; [reflexivity |].
  intros Hsorted. cbn [insert_by_qqid].
  destruct (Z.ltb_spec (Clan_challenge.qqid x) (Clan_challenge.qqid c))
    as [Hlt | Hge].
  - assert (Hl : sorted_by_qqid l = true).
    { rewrite sorted_by_qqid_cons in Hsorted.
      destruct l; [reflexivity |]. apply andb_prop in Hsorted as [_ H].
      exact H. }
    specialize (IH Hl). rewrite sorted_by_qqid_cons.
    destruct l as [| y l]; cbn [insert_by_qqid] in *.
    + apply andb_true_intro. split; [apply Z.leb_le; lia | reflexivity].
    + rewrite sorted_by_qqid_cons in Hsorted.
      apply andb_prop in Hsorted as [Hxy _]. apply Z.leb_le in Hxy.
      destruct (Clan_challenge.qqid y <? Clan_challenge.qqid c);
        (apply andb_true_intro; split; [apply Z.leb_le; lia | exact IH]).
  - rewrite sorted_by_qqid_cons. apply andb_true_intro.
    split; [apply Z.leb_le; lia | exact Hsorted].
Qed.

Lemma order_by_qqid_cid_sorted l : sorted_by_qqid (order_by_qqid_cid l) = true.
Proof.
  induction l as [| c l IH]; [reflexivity |].
  cbn [order_by_qqid_cid foldr]. apply insert_by_qqid_sorted, IH.
Qed.

Lemma insert_by_qqid_stable a c l :
  List.filter (fun x => Clan_challenge.qqid x =? a) (insert_by_qqid c l)
  = List.filter (fun x => Clan_challenge.qqid x =? a) (c :: l).
Proof.
  induction l as [| x l IH]; [reflexivity |].
  cbn [insert_by_qqid].
  destruct (Z.ltb_spec (Clan_challenge.qqid x) (Clan_challenge.qqid c))
    as [Hlt | Hge]; [| reflexivity].
  cbn [List.filter] in *. rewrite IH.
  destruct (Z.eqb_spec (Clan_challenge.qqid x) a) as [Hx | Hx];
    [| reflexivity].
  destruct (Z.eqb_spec (Clan_challenge.qqid c) a); [lia | reflexivity].
Qed.

Lemma order_by_qqid_cid_stable a l :
  List.filter (fun x => Clan_challenge.qqid x =? a) (order_by_qqid_cid l)
  = List.filter (fun x => Clan_challenge.qqid x =? a) l.
Proof.
  induction l as [| c l IH]; [reflexivity |].
  cbn [order_by_qqid_cid foldr]. fold (order_by_qqid_cid l).
  rewrite insert_by_qqid_stable. cbn [List.filter]. rewrite IH. reflexivity.
Qed.

(** X15.  On an initialized group, [get_report] returns and writes nothing.
    The report holds exactly the records of the group that pass the optional
    attacker and battle-day selection, each as often as the ledger has it;
    it is ordered by attacker, and the records of one attacker are in ledger
    order. *)
Theorem get_report_sorted s group_id group qqid pcrdate :
  _group_data s !! group_id = Some group ->
  exists report,
    get_report group_id qqid pcrdate s = (inr report, s)
    /\ Permutation report
         (List.filter (report_filter group_id qqid pcrdate) (challenges s))
    /\ (forall c, In c report <->
                  In c (challenges s)
                  /\ Clan_challenge.gid c = group_id
                  /\ (forall q, qqid = Some q -> Clan_challenge.qqid c = q)
                  /\ (forall day, pcrdate = Some day ->
                                  Clan_challenge.challenge_pcrdate c = day))
    /\ sorted_by_qqid report = true
    /\ (forall a,
          List.filter (fun x => Clan_challenge.qqid x =? a) report
          = List.filter (fun x => Clan_challenge.qqid x =? a)
              (List.filter (report_filter group_id qqid pcrdate)
                           (challenges s))).
Proof.
  intros Hg. unfold get_report. run. rewrite Hg.
  fold (report_filter group_id qqid pcrdate).
  eexists. split; [reflexivity |].
  split; [apply order_by_qqid_cid_perm |].
  split; [| split; [apply order_by_qqid_cid_sorted
                   | intros a; apply order_by_qqid_cid_stable]].
  intros c. rewrite (Permutation_in' (eq_refl c) (order_by_qqid_cid_perm _)).
  rewrite filter_In. unfold report_filter.
  rewrite !andb_true_iff, Z.eqb_eq.
  split.
  - intros (Hin & (Hgid & Hq) & Hd). split; [exact Hin |].
    split; [exact Hgid |]. split.
    + intros q ->. apply Z.eqb_eq, Hq.
    + intros day ->. apply Z.eqb_eq, Hd.
  - intros (Hin & Hgid & Hq & Hd). split; [exact Hin |].
    split; [split; [exact Hgid |] |].
    + destruct qqid as [q |]; [apply Z.eqb_eq, Hq |]; reflexivity.
    + destruct pcrdate as [day |]; [apply Z.eqb_eq, Hd |]; reflexivity.
Qed.

Lemma get_report_sorted_witness :
  _group_data third_kill_store !! 1 = Some second_boss
  /\ exists report,
       get_report 1 (Some 7) (Some 0) third_kill_store
       = (inr report, third_kill_store)
       /\ sorted_by_qqid report = true
       /\ Permutation report (challenges third_kill_store).
Proof.
  split; [reflexivity |].
  destruct (get_report_sorted third_kill_store 1 second_boss (Some 7) (Some 0)
              eq_refl) as (report & Hrun & Hperm & _ & Hsorted & _).
  exists report. split; [exact Hrun | split; [exact Hsorted | exact Hperm]].
Defined.

(** ** The stage table *)

(** X16.  The difficulty tier never falls as the cycles go on, nor when hard
    mode is switched on; it is between 0 and 3, and it is 3 exactly in hard
    mode from cycle 35 on. *)
Theorem _level_by_cycle_monotone cycle cycle' level_4 :
  cycle <= cycle' ->
  _level_by_cycle cycle level_4 <= _level_by_cycle cycle' level_4
  /\ _level_by_cycle cycle false <= _level_by_cycle cycle true
  /\ 0 <= _level_by_cycle cycle level_4 <= 3
  /\ (_level_by_cycle cycle level_4 = 3 <-> level_4 = true /\ 35 <= cycle).
Proof.
  intros Hle. unfold _level_by_cycle.
  destruct (Z.leb_spec cycle 3), (Z.leb_spec cycle' 3),
    (Z.leb_spec cycle 10), (Z.leb_spec cycle' 10),
    (Z.geb_spec cycle 35), (Z.geb_spec cycle' 35), level_4;
    cbn [andb]; repeat split; intros; try lia; try discriminate;
    try reflexivity;
    match goal with
    | H : _ /\ _ |- _ => destruct H; try lia; discriminate
    end.
Qed.

Lemma _level_by_cycle_monotone_witness :
  10 <= 35
  /\ _level_by_cycle 10 true = 1
  /\ _level_by_cycle 35 true = 3
  /\ _level_by_cycle 10 true <= _level_by_cycle 35 true.
Proof.
  split; [lia |]. split; [reflexivity |]. split; [reflexivity |].
  apply (_level_by_cycle_monotone 10 35 true). lia.
Defined.

Lemma bossinfo_row self game_server cycle level_4 :
  server_ok self game_server level_4 = true ->
  exists row,
    Z.of_nat (length row) = 5
    /\ forall index,
         bossinfo_at self game_server (_level_by_cycle cycle level_4) index
         = py_index row index.
Proof.
  unfold server_ok, bossinfo_at, py_getitem. intros Hok.
  destruct (bossinfo self !! game_server) as [table |]; [| discriminate].
  apply andb_prop in Hok as [Hlen Hrows]. apply Z.leb_le in Hlen.
  pose proof (_level_by_cycle_range cycle level_4) as Hlevel.
  destruct (py_index_in_range table (_level_by_cycle cycle level_4))
    as (row & Hrow & Hin); [lia |].
  cbn [and_then]. rewrite Hrow. cbn [and_then].
  rewrite forallb_forall in Hrows. specialize (Hrows row Hin).
  unfold row_ok in Hrows. apply andb_prop in Hrows as [Hfive _].
  apply Z.eqb_eq in Hfive. exists row. split; [exact Hfive | reflexivity].
Qed.

Lemma py_index_wrap {A} (l : list A) i :
  - Z.of_nat (length l) <= i < 0 ->
  py_index l i = py_index l (i + Z.of_nat (length l)).
Proof.
  intros Hi. unfold py_index. cbv zeta.
  destruct (Z.ltb_spec i 0); [| lia].
  destruct (Z.ltb_spec (i + Z.of_nat (length l)) 0); [lia |].
  rewrite (Z.add_comm (Z.of_nat (length l)) i). reflexivity.
Qed.

Lemma py_index_outside {A} (l : list A) i :
  i < - Z.of_nat (length l) \/ Z.of_nat (length l) <= i ->
  py_index l i = inl IndexError.
Proof.
  intros Hi. unfold py_index. cbv zeta.
  destruct (Z.ltb_spec i 0).
  - destruct (Z.leb_spec 0 (Z.of_nat (length l) + i)); [lia | reflexivity].
  - destruct (Z.ltb_spec i (Z.of_nat (length l))); [lia |].
    rewrite andb_false_r. reflexivity.
Qed.

(** X17.  Over a server whose table is complete, the health lookup
    [bossinfo[server][tier][boss_num-1]] returns a positive health for the
    bosses 1 to 5; for a boss number from -4 to 0 the negative index wraps
    and gives the health of boss [boss_num+5], so boss 0 reads boss 5; any
    other boss number raises [IndexError]. *)
Theorem full_health_by_boss_num self group :
  server_ok self (Clan_group.game_server group) (Clan_group.level_4 group)
  = true ->
  (1 <= Clan_group.boss_num group <= 5 ->
   exists full, full_health self group = inr full /\ 0 < full)
  /\ (-4 <= Clan_group.boss_num group <= 0 ->
      full_health self group
      = full_health self
          (Clan_group.set_boss_num (Clan_group.boss_num group + 5) group))
  /\ (Clan_group.boss_num group < -4 \/ 5 < Clan_group.boss_num group ->
      full_health self group = inl IndexError).
Proof.
  intros Hok. split; [apply full_health_total, Hok |].
  destruct (bossinfo_row self (Clan_group.game_server group)
              (Clan_group.boss_cycle group) (Clan_group.level_4 group) Hok)
    as (row & Hlen & Hrow).
  unfold full_health.
  cbn [Clan_group.game_server Clan_group.level_4 Clan_group.boss_cycle
       Clan_group.boss_num Clan_group.set_boss_num].
  rewrite !Hrow. split.
  - intros Hwrap. rewrite py_index_wrap by lia. f_equal. lia.
  - intros Hout. apply py_index_outside. lia.
Qed.

Lemma full_health_by_boss_num_witness :
  server_ok demo_self "cn" false = true
  /\ full_health demo_self (Clan_group.set_boss_num 0 demo_group) = inr 500
  /\ full_health demo_self (Clan_group.set_boss_num 6 demo_group)
     = inl IndexError.
Proof.
  split; [reflexivity |].
  destruct (full_health_by_boss_num demo_self
              (Clan_group.set_boss_num 0 demo_group) eq_refl)
    as (_ & Hwrap & _).
  destruct (full_health_by_boss_num demo_self
              (Clan_group.set_boss_num 6 demo_group) eq_refl)
    as (_ & _ & Hout).
  split; [rewrite Hwrap by (cbn; lia); reflexivity | apply Hout; cbn; lia].
Defined.

(** ** Creating a group *)

(** X18.  [creat_group] raises [GroupError] for a group that exists and
    writes nothing.  For a new group it reads [bossinfo[server][0][0]]
    first: when that raises (unknown server, empty table) no group is
    created; otherwise the group exists afterwards with that health on that
    server, the other groups and the ledger are as before, and creating it
    once more raises [GroupError]. *)
Theorem creat_group_once self s group_id game_server :
  (is_Some (_group_data s !! group_id) ->
   creat_group self group_id game_server s = (inl (GroupError GroupExists), s))
  /\ (_group_data s !! group_id = None ->
      (forall e,
         bossinfo_at self game_server 0 0 = inl e ->
         creat_group self group_id game_server s = (inl e, s))
      /\ (forall h,
            bossinfo_at self game_server 0 0 = inr h ->
            exists s' group',
              creat_group self group_id game_server s = (inr tt, s')
              /\ _group_data s' !! group_id = Some group'
              /\ Clan_group.boss_health group' = h
              /\ Clan_group.game_server group' = game_server
              /\ (forall other, other <> group_id ->
                    _group_data s' !! other = _group_data s !! other)
              /\ challenges s' = challenges s
              /\ forall game_server',
                   creat_group self group_id game_server' s'
                   = (inl (GroupError GroupExists), s'))).
Proof.
  unfold creat_group. run. split.
  - intros Hsome. rewrite bool_decide_eq_true_2 by exact Hsome. reflexivity.
  - intros Hnone. rewrite Hnone.
    rewrite bool_decide_eq_false_2 by (intros [x Hx]; discriminate Hx).
    split.
    + intros e ->. reflexivity.
    + intros h ->. eexists _, _. split; [reflexivity |].
      cbn [_group_data challenges]. rewrite lookup_insert_eq.
      split; [reflexivity |]. split; [reflexivity |]. split; [reflexivity |].
      split; [intros other Hother; apply lookup_insert_ne; congruence |].
      split; [reflexivity |].
      intros game_server'. rewrite bool_decide_eq_true_2 by eauto.
      reflexivity.
Qed.

Lemma creat_group_once_witness :
  _group_data demo_store !! 2 = None
  /\ is_Some (_group_data demo_store !! 1)
  /\ creat_group demo_self 1 "cn" demo_store
     = (inl (GroupError GroupExists), demo_store)
  /\ creat_group demo_self 2 "jp" demo_store = (inl KeyError, demo_store)
  /\ exists s',
       creat_group demo_self 2 "cn" demo_store = (inr tt, s')
       /\ creat_group demo_self 2 "cn" s' = (inl (GroupError GroupExists), s').
Proof.
  destruct (creat_group_once demo_self demo_store 1 "cn") as [Hexists _].
  destruct (creat_group_once demo_self demo_store 2 "jp") as [_ Hjp].
  destruct (creat_group_once demo_self demo_store 2 "cn") as [_ Hcn].
  split; [reflexivity |]. split; [eexists; reflexivity |].
  split; [apply Hexists; eexists; reflexivity |].
  split; [apply (Hjp eq_refl); reflexivity |].
  destruct (proj2 (Hcn eq_refl) 100 eq_refl)
    as (s' & group' & Hrun & _ & _ & _ & _ & _ & Hagain).
  exists s'. split; [exact Hrun | apply Hagain].
Defined.

(** ** One group at a time *)

Lemma untouched_refl other s : untouched other s s.
Proof. repeat split. Qed.

Lemma filter_gid_snoc other group_id (l : list Clan_challenge.t) r :
  other <> group_id ->
  Clan_challenge.gid r = group_id ->
  List.filter (fun c => Clan_challenge.gid c =? other) (l ++ [r])
  = List.filter (fun c => Clan_challenge.gid c =? other) l.
Proof.
  intros Hother Hr. rewrite List.filter_app. cbn [List.filter].
  destruct (Z.eqb_spec (Clan_challenge.gid r) other); [congruence |].
  apply app_nil_r.
Qed.

Lemma filter_subscribes_not_notified other group_id boss_num
    (l : list Clan_subscribe.t) :
  other <> group_id ->
  List.filter (fun x => Clan_subscribe.gid x =? other)
    (List.filter (fun x => negb (to_notify group_id boss_num x)) l)
  = List.filter (fun x => Clan_subscribe.gid x =? other) l.
Proof.
  intros Hother. induction l as [| x l IH]; [reflexivity |].
  cbn [List.filter]. unfold to_notify at 1.
  destruct (Z.eqb_spec (Clan_subscribe.gid x) group_id) as [E | E];
    cbn [andb negb].
  - destruct (_ || _); cbn [negb List.filter];
      destruct (Z.eqb_spec (Clan_subscribe.gid x) other); try congruence;
      exact IH.
  - cbn [List.filter]. rewrite IH. reflexivity.
Qed.

Lemma damage_untouched self s group_id qqid amount behalfed d t other :
  other <> group_id ->
  untouched other s (snd (damage self group_id qqid amount behalfed d t s)).
Proof.
  intros Hother.
  destruct (_group_data s !! group_id) as [group |] eqn:Hg.
  - rewrite (damage_eq _ _ _ _ _ _ _ _ _ Hg). cbv zeta.
    destruct (amount <? 0); [apply untouched_refl |].
    destruct (amount >=? Clan_group.boss_health group);
      [apply untouched_refl |].
    destruct (finished_count _ >=? 3); [repeat split |].
    split; [| split; [| reflexivity]]; cbn [snd _group_data challenges].
    + apply lookup_insert_ne. congruence.
    + apply (filter_gid_snoc other group_id); [exact Hother | reflexivity].
  - rewrite (damage_unknown _ _ _ _ _ _ _ _ Hg). apply untouched_refl.
Qed.

Lemma defeat_untouched self s group_id qqid behalfed d t other :
  other <> group_id ->
  untouched other s (snd (defeat self group_id qqid behalfed d t s)).
Proof.
  intros Hother.
  destruct (_group_data s !! group_id) as [group |] eqn:Hg.
  - rewrite (defeat_eq _ _ _ _ _ _ _ _ Hg). cbv zeta.
    destruct (finished_count _ >=? 3); [repeat split |].
    destruct (full_health self (next_boss group));
      (split; [| split]; cbn [snd _group_data challenges subscribes];
       [apply lookup_insert_ne; congruence
       | apply (filter_gid_snoc other group_id); [exact Hother | reflexivity]
       | try reflexivity]).
    apply filter_subscribes_not_notified, Hother.
  - rewrite (defeat_unknown _ _ _ _ _ _ _ Hg). apply untouched_refl.
Qed.

Lemma undo_untouched self s group_id requester other :
  other <> group_id ->
  untouched other s (snd (undo self group_id requester s)).
Proof.
  intros Hother.
  destruct (_group_data s !! group_id) as [group |] eqn:Hg.
  - rewrite (undo_eq _ _ _ _ _ Hg). cbv zeta.
    destruct (_get_previous_challenge group_id (challenges s)) as [c |]
      eqn:Hprev; [| repeat split].
    destruct (negb _ && _); [repeat split |].
    split; [| split; [| reflexivity]]; cbn [snd _group_data challenges].
    + apply lookup_insert_ne. congruence.
    + destruct (delete_last_where_split _ _ _ Hprev)
        as (before & after & -> & Hc & _ & ->).
      rewrite !List.filter_app. cbn [List.filter].
      apply Z.eqb_eq in Hc.
      destruct (Z.eqb_spec (Clan_challenge.gid c) other); [congruence |].
      reflexivity.
  - rewrite (undo_unknown _ _ _ _ Hg). apply untouched_refl.
Qed.

Lemma modify_untouched self s group_id cycle boss_num boss_health other :
  other <> group_id ->
  untouched other s
    (snd (modify self group_id cycle boss_num boss_health s)).
Proof.
  intros Hother.
  destruct (_group_data s !! group_id) as [group |] eqn:Hg.
  - rewrite (modify_eq _ _ _ _ _ _ _ Hg).
    destruct (modify_rejects cycle boss_num boss_health);
      [apply untouched_refl |].
    cbv zeta.
    destruct (match boss_health with
              | Some h => inr h
              | None => full_health self (modify_position cycle boss_num group)
              end);
      (split; [| split; reflexivity]; cbn [snd _group_data];
       apply lookup_insert_ne; congruence).
  - rewrite (modify_unknown _ _ _ _ _ _ Hg). apply untouched_refl.
Qed.

Lemma restart_untouched self s group_id other :
  other <> group_id -> untouched other s (snd (restart self group_id s)).
Proof.
  intros Hother.
  destruct (_group_data s !! group_id) as [group |] eqn:Hg.
  - rewrite (restart_eq _ _ _ _ Hg). cbv zeta.
    destruct (bossinfo_at self (Clan_group.game_server group) 0 0);
      (split; [| split; [| reflexivity]]; cbn [snd _group_data challenges];
       [apply lookup_insert_ne; congruence | try reflexivity]).
    apply filter_group_other, Hother.
  - rewrite (restart_unknown _ _ _ Hg). apply untouched_refl.
Qed.

Lemma slot_untouched self s group_id qqid now other :
  other <> group_id ->
  untouched other s (snd (apply_for_challenge group_id qqid now s))
  /\ untouched other s (snd (cancel_application self group_id qqid now s)).
Proof.
  intros Hother.
  destruct (_group_data s !! group_id) as [group |] eqn:Hg.
  - rewrite (apply_for_challenge_eq _ _ _ _ _ Hg),
      (cancel_application_eq _ _ _ _ _ _ Hg).
    destruct (Clan_group.challenging_member_qq_id group) as [holder |].
    + split; [apply untouched_refl |]. cbv zeta.
      destruct (_ && _ && _); [repeat split |].
      split; [| split; reflexivity]. cbn [snd _group_data].
      apply lookup_insert_ne. congruence.
    + split; [| apply untouched_refl].
      split; [| split; reflexivity]. cbn [snd _group_data].
      apply lookup_insert_ne. congruence.
  - rewrite (apply_for_challenge_unknown _ _ _ _ Hg),
      (cancel_application_unknown _ _ _ _ _ Hg).
    split; apply untouched_refl.
Qed.

Lemma add_subscribe_untouched s group_id qqid boss_num other :
  other <> group_id ->
  untouched other s (snd (add_subscribe group_id qqid boss_num s)).
Proof.
  intros Hother.
  destruct (_group_data s !! group_id) as [group |] eqn:Hg.
  - rewrite (add_subscribe_eq _ _ _ _ _ Hg).
    destruct (existsb _ (subscribes s)); [apply untouched_refl |].
    split; [| split; [reflexivity |]];
      cbn [snd _group_data challenges subscribes].
    + destruct (_ && _); [| reflexivity].
      apply lookup_insert_ne. congruence.
    + rewrite List.filter_app. cbn [List.filter Clan_subscribe.gid].
      destruct (Z.eqb_spec group_id other); [congruence |].
      apply app_nil_r.
  - rewrite (add_subscribe_unknown _ _ _ _ Hg). apply untouched_refl.
Qed.

(** X19.  Every operation works on one group: whether it returns or
    raises, [damage], [defeat], [undo], [modify], [restart],
    [apply_for_challenge], [cancel_application] and [add_subscribe] on a
    group leave the state, the records and the subscriptions of every other
    group as they were. *)
Theorem one_group_at_a_time self s group_id other :
  other <> group_id ->
  (forall qqid amount behalfed d t,
     untouched other s
       (snd (damage self group_id qqid amount behalfed d t s)))
  /\ (forall qqid behalfed d t,
        untouched other s (snd (defeat self group_id qqid behalfed d t s)))
  /\ (forall requester,
        untouched other s (snd (undo self group_id requester s)))
  /\ (forall cycle boss_num boss_health,
        untouched other s
          (snd (modify self group_id cycle boss_num boss_health s)))
  /\ untouched other s (snd (restart self group_id s))
  /\ (forall qqid now,
        untouched other s (snd (apply_for_challenge group_id qqid now s)))
  /\ (forall qqid now,
        untouched other s
          (snd (cancel_application self group_id qqid now s)))
  /\ (forall qqid boss_num,
        untouched other s (snd (add_subscribe group_id qqid boss_num s))).
Proof.
  intros Hother.
  split; [intros; apply damage_untouched, Hother |].
  split; [intros; apply defeat_untouched, Hother |].
  split; [intros; apply undo_untouched, Hother |].
  split; [intros; apply modify_untouched, Hother |].
  split; [apply restart_untouched, Hother |].
  split; [intros qqid now;
          apply (slot_untouched self s group_id qqid now other Hother) |].
  split; [intros qqid now;
          apply (slot_untouched self s group_id qqid now other Hother) |].
  intros; apply add_subscribe_untouched, Hother.
Qed.

Lemma one_group_at_a_time_witness :
  2 <> 1
  /\ _group_data (snd (defeat demo_self 1 7 None 0 0 subscribed_store)) !! 2
     = _group_data subscribed_store !! 2
  /\ _group_data (snd (restart demo_self 1 subscribed_store)) !! 2
     = _group_data subscribed_store !! 2.
Proof.
  split; [lia |].
  destruct (one_group_at_a_time demo_self subscribed_store 1 2 ltac:(lia))
    as (_ & Hdefeat & _ & _ & Hrestart & _).
  split; [apply (Hdefeat 7 None 0 0) | apply Hrestart].
Defined.

(** ** Whose report it is, and of which day *)

(** X20.  The quota is kept per battle-day: on an initialized group, for a
    member without a record on the day of the call, whatever the ledger
    holds for other days, other members or other groups, a [damage] within
    the health bound returns and [defeat] appends its record, and the record
    is not a continuation and is the member's first finished one of the
    day. *)
Theorem first_report_of_day self s group_id group qqid behalfed d t amount :
  _group_data s !! group_id = Some group ->
  challenges_of_day group_id (acting qqid behalfed) d (challenges s) = [] ->
  0 <= amount < Clan_group.boss_health group ->
  (exists status, fst (damage self group_id qqid amount behalfed d t s)
                  = inr status)
  /\ recorded_as false group_id (acting qqid behalfed) d s
       (snd (damage self group_id qqid amount behalfed d t s))
  /\ recorded_as false group_id (acting qqid behalfed) d s
       (snd (defeat self group_id qqid behalfed d t s))
  /\ finished_count
       (challenges_of_day group_id (acting qqid behalfed) d
          (challenges (snd (damage self group_id qqid amount behalfed d t s))))
     = 1.
Proof.
  intros Hg Hnone Hamount.
  assert (Hquota : finished_count
            (challenges_of_day group_id (acting qqid behalfed) d
                               (challenges s)) < 3)
    by (rewrite Hnone; unfold finished_count; cbn; lia).
  pose proof (damage_recorded self s group_id group qqid amount behalfed d t
                Hg Hamount Hquota) as Hdamage.
  pose proof (defeat_recorded self s group_id group qqid behalfed d t
                Hg Hquota) as Hdefeat.
  rewrite Hnone in Hdamage, Hdefeat. cbn [continues last] in Hdamage, Hdefeat.
  split; [| split; [exact Hdamage | split; [exact Hdefeat |]]].
  - destruct (damage_returns self s group_id group qqid amount behalfed d t
                Hg Hamount Hquota) as (s' & ->).
    eexists. reflexivity.
  - destruct Hdamage as (r & _ & _ & _ & _ & _ & ->).
    rewrite Hnone. reflexivity.
Qed.

Lemma first_report_of_day_witness :
  _group_data third_kill_store !! 1 = Some second_boss
  /\ challenges_of_day 1 7 1 (challenges third_kill_store) = []
  /\ 0 <= 10 < Clan_group.boss_health second_boss
  /\ fst (damage demo_self 1 7 10 None 0 5 third_kill_store)
     = inl (InputError DailyQuotaReached)
  /\ exists status,
       fst (damage demo_self 1 7 10 None 1 5 third_kill_store) = inr status.
Proof.
  split; [reflexivity |]. split; [reflexivity |]. split; [cbn; lia |].
  split; [reflexivity |].
  destruct (first_report_of_day demo_self third_kill_store 1 second_boss 7
              None 1 5 10 eq_refl eq_refl) as [Hruns _]; [cbn; lia |].
  exact Hruns.
Defined.

(** X21.  A report on behalf of a member is that member's report: when
    [damage] or [defeat] for [behalfed] returns, the appended record carries
    [behalfed] as attacker and the reporter in its comment, [behalfed] has a
    row in the user table, and the reporter's own records of any day, and so
    the reporter's quota, are what they were. *)
Theorem report_on_behalf self s group_id group qqid behalfed d t amount :
  _group_data s !! group_id = Some group ->
  qqid <> behalfed ->
  (forall status s',
     damage self group_id qqid amount (Some behalfed) d t s = (inr status, s')
     \/ defeat self group_id qqid (Some behalfed) d t s = (inr status, s') ->
     exists r,
       challenges s' = challenges s ++ [r]
       /\ Clan_challenge.qqid r = behalfed
       /\ Clan_challenge.comment r = Some qqid
       /\ is_Some (users s' !! behalfed)
       /\ forall day,
            challenges_of_day group_id qqid day (challenges s')
            = challenges_of_day group_id qqid day (challenges s)).
Proof.
  intros Hg Hother status s' Hrun.
  assert (Huser : is_Some (users_after self behalfed group_id s !! behalfed)).
  { unfold users_after. destruct (users s !! behalfed) eqn:Hu.
    - rewrite Hu. eauto.
    - rewrite lookup_insert_eq. eauto. }
  assert (Hday : forall r day,
            Clan_challenge.qqid r = behalfed ->
            challenges_of_day group_id qqid day (challenges s ++ [r])
            = challenges_of_day group_id qqid day (challenges s)).
  { intros r day Hr. rewrite challenges_of_day_snoc, Hr.
    destruct (Z.eqb_spec behalfed qqid); [congruence |].
    rewrite andb_false_r. cbn [andb]. apply app_nil_r. }
  destruct Hrun as [Hrun | Hrun]; revert Hrun.
  - rewrite (damage_eq _ _ _ _ _ _ _ _ _ Hg). cbv zeta.
    destruct (amount <? 0); [discriminate |].
    destruct (amount >=? Clan_group.boss_health group); [discriminate |].
    destruct (finished_count _ >=? 3); [discriminate |].
    intros [= _ <-]. eexists. split; [reflexivity |].
    cbn [challenges users]. split; [reflexivity |]. split; [reflexivity |].
    split; [exact Huser |]. intros day. apply Hday. reflexivity.
  - rewrite (defeat_eq _ _ _ _ _ _ _ _ Hg). cbv zeta.
    destruct (finished_count _ >=? 3); [discriminate |].
    destruct (full_health self (next_boss group)); [discriminate |].
    intros [= _ <-]. eexists. split; [reflexivity |].
    cbn [challenges users]. split; [reflexivity |]. split; [reflexivity |].
    split; [exact Huser |]. intros day. apply Hday. reflexivity.
Qed.

Lemma report_on_behalf_witness :
  _group_data demo_store !! 1 = Some demo_group
  /\ 7 <> 8
  /\ damage demo_self 1 7 10 (Some 8) 0 0 demo_store
     = (inr (mkBossStatus 1 1 90 0),
        snd (damage demo_self 1 7 10 (Some 8) 0 0 demo_store))
  /\ exists r,
       challenges (snd (damage demo_self 1 7 10 (Some 8) 0 0 demo_store))
       = challenges demo_store ++ [r]
       /\ Clan_challenge.qqid r = 8.
Proof.
  split; [reflexivity |]. split; [lia |]. split; [reflexivity |].
  destruct (report_on_behalf demo_self demo_store 1 demo_group 7 8 0 0 10
              eq_refl ltac:(lia) (mkBossStatus 1 1 90 0)
              (snd (damage demo_self 1 7 10 (Some 8) 0 0 demo_store)))
    as (r & Hledger & Hwho & _); [left; reflexivity |].
  exists r. split; [exact Hledger | exact Hwho].
Defined.

(** ** Modify *)

(** X22.  On an initialized group, [modify] raises [InputError] and writes
    nothing when a provided cycle is negative, a provided boss number is
    negative or above 5, or a provided health is negative.  When it returns,
    the group has the provided cycle and boss number and keeps the ones not
    provided; its health is the provided one, or else the stage-table entry
    for the resulting cycle and boss; the ledger and the holder of the
    challenge slot are as before. *)
Theorem modify_stores self s group_id group cycle boss_num boss_health :
  _group_data s !! group_id = Some group ->
  ((exists c, cycle = Some c /\ c < 0)
   \/ (exists n, boss_num = Some n /\ (n < 0 \/ 5 < n))
   \/ (exists h, boss_health = Some h /\ h < 0) ->
   exists m,
     modify self group_id cycle boss_num boss_health s
     = (inl (InputError m), s))
  /\ (forall status s',
        modify self group_id cycle boss_num boss_health s = (inr status, s') ->
        exists group',
          _group_data s' !! group_id = Some group'
          /\ Clan_group.boss_cycle group'
             = default (Clan_group.boss_cycle group) cycle
          /\ Clan_group.boss_num group'
             = default (Clan_group.boss_num group) boss_num
          /\ match boss_health with
             | Some h => Clan_group.boss_health group' = h
             | None => full_health self group'
                       = inr (Clan_group.boss_health group')
             end
          /\ Clan_group.challenging_member_qq_id group'
             = Clan_group.challenging_member_qq_id group
          /\ challenges s' = challenges s
          /\ status = status_of group' 0).
Proof.
  intros Hg. rewrite (modify_eq _ _ _ _ _ _ _ Hg). split.
  - unfold modify_rejects, truthy.
    intros [(c & -> & Hc) | [(n & -> & Hn) | (h & -> & Hh)]];
      cbn [default from_option]; unfold id.
    + destruct (Z.eqb_spec c 0); [lia |].
      destruct (Z.ltb_spec c 1); [| lia]. cbn [negb andb].
      eexists. reflexivity.
    + destruct (_ && _); [eexists; reflexivity |].
      destruct (Z.eqb_spec n 0); [lia |].
      destruct (Z.ltb_spec n 1), (Z.gtb_spec n 5); cbn [negb andb orb];
        try lia; eexists; reflexivity.
    + destruct (_ && _); [eexists; reflexivity |].
      destruct (_ && _); [eexists; reflexivity |].
      destruct (Z.eqb_spec h 0); [lia |].
      destruct (Z.ltb_spec h 1); [| lia]. cbn [negb andb].
      eexists. reflexivity.
  - intros status s'.
    destruct (modify_rejects cycle boss_num boss_health); [discriminate |].
    cbv zeta.
    assert (Hpos : Clan_group.boss_cycle (modify_position cycle boss_num group)
                   = default (Clan_group.boss_cycle group) cycle
                   /\ Clan_group.boss_num
                        (modify_position cycle boss_num group)
                      = default (Clan_group.boss_num group) boss_num
                   /\ Clan_group.challenging_member_qq_id
                        (modify_position cycle boss_num group)
                      = Clan_group.challenging_member_qq_id group).
    { unfold modify_position. destruct cycle, boss_num; repeat split. }
    destruct Hpos as (Hcycle & Hnum & Hholder).
    destruct boss_health as [h |].
    + intros [= <- <-]. eexists. cbn [_group_data challenges].
      rewrite lookup_insert_eq. split; [reflexivity |].
      repeat split; assumption.
    + destruct (full_health self (modify_position cycle boss_num group))
        as [e | full] eqn:Hfull; [discriminate |].
      intros [= <- <-]. eexists. cbn [_group_data challenges].
      rewrite lookup_insert_eq. split; [reflexivity |].
      split; [exact Hcycle |]. split; [exact Hnum |].
      split; [exact Hfull |]. split; [exact Hholder |]. split; reflexivity.
Qed.

Lemma modify_stores_witness :
  _group_data claimed_store !! 1
  = Some (Clan_group.mk 1 "cn" 1 1 100 false (Some 2) 1000)
  /\ (exists m, modify demo_self 1 (Some (-1)) None None claimed_store
                = (inl (InputError m), claimed_store))
  /\ modify demo_self 1 (Some 4) (Some 3) None claimed_store
     = (inr (mkBossStatus 4 3 310 0),
        snd (modify demo_self 1 (Some 4) (Some 3) None claimed_store))
  /\ exists group',
       _group_data (snd (modify demo_self 1 (Some 4) (Some 3) None
                                claimed_store)) !! 1 = Some group'
       /\ Clan_group.challenging_member_qq_id group' = Some 2.
Proof.
  split; [reflexivity |].
  destruct (modify_stores demo_self claimed_store 1
              (Clan_group.mk 1 "cn" 1 1 100 false (Some 2) 1000)
              (Some (-1)) None None eq_refl) as [Hbad _].
  destruct (modify_stores demo_self claimed_store 1
              (Clan_group.mk 1 "cn" 1 1 100 false (Some 2) 1000)
              (Some 4) (Some 3) None eq_refl) as [_ Hgood].
  split; [apply Hbad; left; exists (-1); split; [reflexivity | lia] |].
  split; [reflexivity |].
  destruct (Hgood (mkBossStatus 4 3 310 0)
              (snd (modify demo_self 1 (Some 4) (Some 3) None claimed_store))
              eq_refl) as (group' & Hg' & _ & _ & _ & Hholder & _).
  exists group'. split; [exact Hg' | exact Hholder].
Defined.

(** ** Undo, as often as there are records *)

Lemma run_call_result self c s : run_call self c s = snd (call_result self c s).
Proof. destruct c; reflexivity. Qed.

Lemma run_calls_snoc self cs c s :
  run_calls self (cs ++ [c]) s = run_call self c (run_calls self cs s).
Proof. unfold run_calls. rewrite foldl_app. reflexivity. Qed.

Lemma all_return_snoc self group_id cs c s :
  all_return self group_id (cs ++ [c]) s = true ->
  all_return self group_id cs s = true
  /\ call_group c = group_id
  /\ exists status,
       call_result self c (run_calls self cs s)
       = (inr status, run_calls self (cs ++ [c]) s).
Proof.
  revert s. induction cs as [| c0 cs IH]; intros s; cbn [app all_return].
  - intros H. apply andb_prop in H as [Hgroup H]. apply Z.eqb_eq in Hgroup.
    split; [reflexivity |]. split; [exact Hgroup |].
    cbn [run_calls foldl]. rewrite run_call_result.
    destruct (call_result self c s) as [[e | status] s'];
      [discriminate |].
    exists status. reflexivity.
  - intros H. apply andb_prop in H as [Hgroup H]. rewrite Hgroup.
    cbn [andb run_calls foldl]. rewrite run_call_result.
    destruct (call_result self c0 s) as [[e | status] s'];
      [discriminate |].
    cbn [snd]. exact (IH s' H).
Qed.

(** What a report that returns leaves in the ledger: the position the
    group had. *)
Lemma call_result_record self c s group status s' :
  _group_data s !! call_group c = Some group ->
  call_result self c s = (inr status, s') ->
  exists r,
    challenges s' = challenges s ++ [r]
    /\ Clan_challenge.gid r = call_group c
    /\ (Clan_challenge.boss_cycle r, Clan_challenge.boss_num r,
        Clan_challenge.boss_health_ramain r + Clan_challenge.challenge_damage r)
       = position group
    /\ is_Some (_group_data s' !! call_group c).
Proof.
  destruct c as [g qqid amount behalfed d t | g qqid behalfed d t];
    cbn [call_group call_result]; intros Hg.
  - rewrite (damage_eq _ _ _ _ _ _ _ _ _ Hg). cbv zeta.
    destruct (amount <? 0); [discriminate |].
    destruct (amount >=? Clan_group.boss_health group); [discriminate |].
    destruct (finished_count _ >=? 3); [discriminate |].
    intros [= _ <-]. eexists. split; [reflexivity |].
    cbn [_group_data]. rewrite lookup_insert_eq.
    split; [reflexivity |]. split; [| eauto].
    unfold position. cbn. f_equal. lia.
  - rewrite (defeat_eq _ _ _ _ _ _ _ _ Hg). cbv zeta.
    destruct (finished_count _ >=? 3); [discriminate |].
    destruct (full_health self (next_boss group)); [discriminate |].
    intros [= _ <-]. eexists. split; [reflexivity |].
    cbn [_group_data]. rewrite lookup_insert_eq.
    split; [reflexivity |]. split; [reflexivity | eauto].
Qed.

Lemma run_calls_group_stays self group_id cs s :
  is_Some (_group_data s !! group_id) ->
  is_Some (_group_data (run_calls self cs s) !! group_id).
Proof.
  revert s. induction cs as [| c cs IH]; intros s Hg; [exact Hg |].
  cbn [run_calls foldl]. apply IH.
  destruct c as [g qqid amount behalfed d t | g qqid behalfed d t];
    cbn [run_call].
  - destruct (damage_group_data self s g qqid amount behalfed d t)
      as [-> | (group0 & _ & _ & ->)]; [exact Hg |].
    destruct (decide (g = group_id)) as [-> | Hne];
      [rewrite lookup_insert_eq; eauto
      | rewrite lookup_insert_ne by exact Hne; exact Hg].
  - destruct (defeat_group_data self s g qqid behalfed d t)
      as [-> | (group0 & _ & Hcase)]; [exact Hg |].
    destruct (full_health self (next_boss group0)); rewrite Hcase;
      (destruct (decide (g = group_id)) as [-> | Hne];
       [rewrite lookup_insert_eq; eauto
       | rewrite lookup_insert_ne by exact Hne; exact Hg]).
Qed.

Lemma undo_authority self s group_id requester q :
  authority_of self q (snd (undo self group_id requester s))
  = authority_of self q s.
Proof.
  assert (Husers : forall gd ch subs,
            authority_of self q
              (mkStore gd ch subs (users_after self requester group_id s))
            = authority_of self q s).
  { intros gd ch subs. unfold authority_of, users_after. cbn [users].
    destruct (users s !! requester) as [u |] eqn:Hu; [reflexivity |].
    destruct (decide (requester = q)) as [-> | Hne].
    - rewrite lookup_insert_eq, Hu. reflexivity.
    - rewrite lookup_insert_ne by exact Hne. reflexivity. }
  destruct (_group_data s !! group_id) as [group |] eqn:Hg.
  - rewrite (undo_eq _ _ _ _ _ Hg). cbv zeta.
    destruct (_get_previous_challenge group_id (challenges s));
      [destruct (negb _ && _) |]; apply Husers.
  - rewrite (undo_unknown _ _ _ _ Hg). reflexivity.
Qed.

(** One [undo] by a privileged requester on a ledger that ends with a
    record of the group. *)
Lemma undo_last_record self s group_id group requester l r :
  _group_data s !! group_id = Some group ->
  challenges s = l ++ [r] ->
  Clan_challenge.gid r = group_id ->
  authority_of self requester s < 100 ->
  exists status s',
    undo self group_id requester s = (inr status, s')
    /\ challenges s' = l
    /\ _group_data s' !! group_id = Some (undo_group r group).
Proof.
  intros Hg Hledger Hr Hlevel. rewrite (undo_eq _ _ _ _ _ Hg). cbv zeta.
  assert (Hp : (fun c => Clan_challenge.gid c =? group_id) r = true)
    by (apply Z.eqb_eq, Hr).
  unfold _get_previous_challenge.
  rewrite Hledger, (last_filter_snoc _ _ _ Hp),
    (delete_last_where_snoc _ _ _ Hp).
  destruct (Z.geb_spec (authority_of self requester s) 100); [lia |].
  rewrite andb_false_r. eexists _, _. split; [reflexivity |].
  cbn [challenges _group_data]. rewrite lookup_insert_eq. split; reflexivity.
Qed.

Lemma undo_times_same_battle self group_id requester cs :
  forall s s2,
    is_Some (_group_data s !! group_id) ->
    all_return self group_id cs s = true ->
    same_battle group_id (run_calls self cs s) s2 ->
    authority_of self requester s2 < 100 ->
    exists s',
      undo_times self group_id requester (length cs) s2 = (inr tt, s')
      /\ same_battle group_id s s'.
Proof.
  induction cs as [| c cs IH] using rev_ind; intros s s2 Hg Hall Hsame Hlevel.
  - exists s2. split; [reflexivity | exact Hsame].
  - rewrite length_app, Nat.add_1_r. cbn [length undo_times].
    destruct (all_return_snoc self group_id cs c s Hall)
      as (Hall' & Hgroup & status & Hcall).
    destruct (run_calls_group_stays self group_id cs s Hg) as [g1 Hg1].
    rewrite <- Hgroup in Hg1.
    destruct (call_result_record self c _ g1 status _ Hg1 Hcall)
      as (r & Hledger & Hr & Hpos & _).
    rewrite Hgroup in Hr, Hg1.
    destruct Hsame as (Hsame & ga & gb & Hga & Hgb & Hab).
    rewrite Hledger in Hsame.
    destruct (undo_last_record self s2 group_id gb requester
                (challenges (run_calls self cs s)) r Hgb (eq_sym Hsame)
                Hr Hlevel) as (st & s3 & Hundo & Hledger3 & Hg3).
    unfold bind. rewrite Hundo.
    apply (IH s s3 Hg Hall').
    + split; [symmetry; exact Hledger3 |].
      exists g1, (undo_group r gb). split; [exact Hg1 |].
      split; [exact Hg3 |]. rewrite <- Hpos. reflexivity.
    + pose proof (undo_authority self s2 group_id requester requester) as Ha.
      rewrite Hundo in Ha. cbn [snd] in Ha. rewrite Ha. exact Hlevel.
Qed.

(** X23.  Undo goes back as far as the ledger does: after any sequence of
    [damage] and [defeat] calls on an initialized group that all returned,
    as many [undo] calls by a requester whose privilege level is below 100
    all return, and leave the group at the cycle, boss and health it had
    before the first report, with the ledger it had then. *)
Theorem undo_all_reports self s group_id group cs requester :
  _group_data s !! group_id = Some group ->
  all_return self group_id cs s = true ->
  authority_of self requester (run_calls self cs s) < 100 ->
  exists s' group',
    undo_times self group_id requester (length cs) (run_calls self cs s)
    = (inr tt, s')
    /\ _group_data s' !! group_id = Some group'
    /\ position group' = position group
    /\ challenges s' = challenges s.
Proof.
  intros Hg Hall Hlevel.
  destruct (run_calls_group_stays self group_id cs s) as [g1 Hg1]; [eauto |].
  destruct (undo_times_same_battle self group_id requester cs s
              (run_calls self cs s)) as (s' & Hrun & Hsame);
    [eauto | exact Hall | | exact Hlevel |].
  - split; [reflexivity |]. exists g1, g1. repeat split; assumption.
  - destruct Hsame as (Hledger & ga & gb & Hga & Hgb & Hab).
    rewrite Hg in Hga. injection Hga as <-.
    exists s', gb. split; [exact Hrun |]. split; [exact Hgb |].
    split; [symmetry; exact Hab | symmetry; exact Hledger].
Qed.

Lemma undo_all_reports_witness :
  _group_data subscribed_store !! 1 = Some demo_group
  /\ all_return demo_self 1 three_reports subscribed_store = true
  /\ authority_of demo_self 4 (run_calls demo_self three_reports
                                         subscribed_store) < 100
  /\ exists s' group',
       undo_times demo_self 1 4 3
         (run_calls demo_self three_reports subscribed_store) = (inr tt, s')
       /\ _group_data s' !! 1 = Some group'
       /\ position group' = (1, 1, 100)
       /\ challenges s' = challenges subscribed_store.
Proof.
  split; [reflexivity |]. split; [vm_compute; reflexivity |].
  split; [vm_compute; reflexivity |].
  apply (undo_all_reports demo_self subscribed_store 1 demo_group
           three_reports 4);
    [reflexivity | vm_compute; reflexivity | vm_compute; reflexivity].
Defined.

(** ** The cache of [async_cached_func] *)

(** X24.  A cached key is served from the cache: the wrapper returns the
    stored value without awaiting the function and leaves the cache alone.
    A key that is not cached, or any key with [nocache], is computed when
    the cache has room: the function is awaited once, its value is returned
    and stored, and from then on a plain call returns that value, whatever
    the function would return by then; when the function raises, the
    exception is passed on and nothing is stored. *)
Theorem wrapper_memoises {K V E : Type} `{Countable K} (maxsize : Z)
    (fn : K -> E + V) (key : K) (nocache : bool) (st : web_util.state K V) :
  (forall v,
     web_util.cache st !! key = Some v ->
     web_util.wrapper maxsize fn key false st = (web_util.Returned v, st))
  /\ (Z.of_nat (size (web_util.cache st)) < maxsize ->
      nocache = true \/ web_util.cache st !! key = None ->
      (forall v,
         fn key = inr v ->
         exists st',
           web_util.wrapper maxsize fn key nocache st
           = (web_util.Returned v, st')
           /\ web_util.awaited st' = web_util.awaited st ++ [key]
           /\ web_util.cache st' !! key = Some v
           /\ (forall other, other <> key ->
                 web_util.cache st' !! other = web_util.cache st !! other)
           /\ forall fn' : K -> E + V,
                web_util.wrapper maxsize fn' key false st'
                = (web_util.Returned v, st'))
      /\ (forall e,
            fn key = inl e ->
            exists st',
              web_util.wrapper maxsize fn key nocache st
              = (web_util.Raised e, st')
              /\ web_util.cache st' = web_util.cache st)).
Proof.
  split.
  - intros v Hv. unfold web_util.wrapper. rewrite Hv. reflexivity.
  - intros Hroom Hmiss.
    assert (Hrun : web_util.wrapper maxsize fn key nocache st
                   = web_util.refresh maxsize fn key st).
    { unfold web_util.wrapper. destruct Hmiss as [-> | ->]; [| reflexivity].
      destruct (web_util.cache st !! key); reflexivity. }
    rewrite Hrun. unfold web_util.refresh.
    destruct (Z.geb_spec (Z.of_nat (size (web_util.cache st))) maxsize);
      [lia |].
    split.
    + intros v ->. eexists. split; [reflexivity |].
      cbn [web_util.cache web_util.awaited].
      split; [reflexivity |]. split; [apply lookup_insert_eq |].
      split; [intros other Hother; apply lookup_insert_ne; congruence |].
      intros fn'. unfold web_util.wrapper. cbn [web_util.cache].
      rewrite lookup_insert_eq. reflexivity.
    + intros e ->. eexists. split; reflexivity.
Qed.


Lemma wrapper_memoises_witness :
  exists st',
    web_util.wrapper (E := unit) 2 (fun k => inr (10 * k)) 1 false
      (web_util.mk_state ∅ [])
    = (web_util.Returned 10, st')
    /\ web_util.wrapper (E := unit) 2 (fun _ => inr 0) 1 false st'
       = (web_util.Returned 10, st').
Proof.
  destruct (wrapper_memoises (E := unit) 2 (fun k => inr (10 * k)) 1 false
              (web_util.mk_state ∅ [])) as [_ Hmiss].
  destruct Hmiss as [Hstore _]; [vm_compute; reflexivity | right; reflexivity |].
  destruct (Hstore 10 eq_refl) as (st' & Hrun & _ & _ & _ & Hagain).
  exists st'. split; [exact Hrun | apply Hagain].
Defined.


(** ** The list of subscriptions *)



(** ** Membership *)

Lemma Clan_member_get_or_create_in group_id qqid table m :
  In m (Clan_member_get_or_create group_id qqid table)
  <-> In m table \/ m = Clan_member.mk group_id qqid.
Proof.
  unfold Clan_member_get_or_create.
  destruct (existsb _ table) eqn:Hex.
  - split; [auto |]. intros [Hin | ->]; [exact Hin |].
    apply existsb_exists in Hex as ([g q] & Hin & Hsame). cbn in Hsame.
    apply andb_prop in Hsame as [Hg Hq]. apply Z.eqb_eq in Hg, Hq.
    subst. exact Hin.
  - rewrite in_app_iff. cbn [In]. split.
    + intros [Hin | [<- | []]]; auto.
    + intros [Hin | ->]; auto.
Qed.

(** X27.  [bind_group] needs no initialized group.  Afterwards the member
    has a user row bound to the group, with the privilege level it had (the
    default one for a new user), and a membership row for the group; the
    rows of other users and all other memberships are as before; and binding
    again changes nothing, so no membership is stored twice. *)
Theorem bind_group_binds self group_id qqid
    (tables : gmap Z User.t * list Clan_member.t) :
  fst (bind_group self group_id qqid tables) !! qqid
  = Some (User.mk
            (match fst tables !! qqid with
             | Some u => User.authority_group u
             | None => new_user_authority self
             end) (Some group_id))
  /\ (forall other, other <> qqid ->
        fst (bind_group self group_id qqid tables) !! other
        = fst tables !! other)
  /\ (forall m,
        In m (snd (bind_group self group_id qqid tables))
        <-> In m (snd tables) \/ m = Clan_member.mk group_id qqid)
  /\ (List.NoDup (snd tables) ->
      List.NoDup (snd (bind_group self group_id qqid tables)))
  /\ bind_group self group_id qqid (bind_group self group_id qqid tables)
     = bind_group self group_id qqid tables.
Proof.
  unfold bind_group. cbn [fst snd].
  split; [rewrite lookup_insert_eq; destruct (fst tables !! qqid); reflexivity |].
  split; [intros other Hother; apply lookup_insert_ne; congruence |].
  split; [intros m; apply Clan_member_get_or_create_in |].
  split.
  - intros Hnd. unfold Clan_member_get_or_create.
    destruct (existsb _ (snd tables)) eqn:Hex; [exact Hnd |].
    apply List.NoDup_app; [exact Hnd | repeat constructor; intros [] |].
    intros m Hm [<- | []].
    assert (existsb (fun m => (Clan_member.group_id m =? group_id)
                              && (Clan_member.qqid m =? qqid)) (snd tables)
            = true); [| congruence].
    apply existsb_exists. eexists. split; [exact Hm |].
    cbn. rewrite !Z.eqb_refl. reflexivity.
  - rewrite lookup_insert_eq, insert_insert_eq. cbn [User.authority_group].
    f_equal.
    unfold Clan_member_get_or_create at 1.
    assert (Hin : existsb (fun m => (Clan_member.group_id m =? group_id)
                                    && (Clan_member.qqid m =? qqid))
                    (Clan_member_get_or_create group_id qqid (snd tables))
                  = true).
    { apply existsb_exists. exists (Clan_member.mk group_id qqid).
      split; [apply Clan_member_get_or_create_in; right; reflexivity |].
      cbn. rewrite !Z.eqb_refl. reflexivity. }
    rewrite Hin. reflexivity.
Qed.

(** X28.  [drop_member] does not look at its group: it deletes the
    memberships of the listed members in every group and returns how many
    rows it deleted.  A membership is left exactly when its member is not
    listed, and dropping the same members again deletes nothing. *)
Theorem drop_member_all_groups group_id member_list
    (table : list Clan_member.t) :
  (forall m,
     In m (snd (drop_member group_id member_list table))
     <-> In m table /\ ~ In (Clan_member.qqid m) member_list)
  /\ fst (drop_member group_id member_list table)
     + Z.of_nat (length (snd (drop_member group_id member_list table)))
     = Z.of_nat (length table)
  /\ (forall other,
        drop_member other member_list table
        = drop_member group_id member_list table)
  /\ drop_member group_id member_list
       (snd (drop_member group_id member_list table))
     = (0, snd (drop_member group_id member_list table)).
Proof.
  unfold drop_member. cbn [fst snd].
  split; [| split; [| split; [reflexivity |]]].
  - intros m. rewrite filter_In, negb_true_iff, <- not_true_iff_false,
      existsb_exists.
    split; intros [Hin Hno]; (split; [exact Hin |]).
    + intros Hlisted. apply Hno. exists (Clan_member.qqid m).
      split; [exact Hlisted | apply Z.eqb_refl].
    + intros (q & Hq & Heq). apply Z.eqb_eq in Heq as <-. exact (Hno Hq).
  - pose proof (filter_partition_length
                  (fun m => existsb (fun q => Clan_member.qqid m =? q)
                                    member_list) table).
    lia.
  - rewrite filter_filter_negb, filter_negb_idem. reflexivity.
Qed.

Lemma drop_member_all_groups_witness :
  drop_member 1 [7] demo_members = (2, [Clan_member.mk 1 8])
  /\ forall m,
       In m (snd (drop_member 1 [7] demo_members))
       <-> In m demo_members /\ ~ In (Clan_member.qqid m) [7].
Proof.
  split; [reflexivity |].
  apply (drop_member_all_groups 1 [7] demo_members).
Defined.
